(** * iot-printer: the task lifecycle of db.py and backend.py

    A shallow embedding of the print-task handlers ([prepare_gdrive_download_task],
    [print_file_task] in db.py), of the submission endpoint ([add_task] in
    backend.py) and of the helpers they call (helper.py), followed by the
    properties of the task lifecycle.

    The Python code talks to five collaborators: the SQLite table [tasks]
    through a SQLAlchemy session, the local file system, Google Drive, the
    APScheduler job store and the [lp] command.  Their state is gathered in
    [World]; what they answer when the code has no say in it (the clock,
    whether a download fails, what [lp] returns) is gathered in [Env].
    Python code becomes a computation of type [IO A]: it reads the
    environment, updates the world, and either returns a value or raises. *)

From Stdlib Require Import ZArith Lia Ascii String.
From stdpp Require Import base option list sorting strings gmap pretty.

Local Open Scope Z_scope.

(** ** Dates

    A [datetime] is an aware UTC instant with microsecond resolution, kept as
    the number of microseconds since the epoch.  A [timedelta] is a number of
    microseconds. *)

Definition datetime := Z.

Definition timedelta_seconds (n : Z) : Z := n * 1000000.
Definition timedelta_minutes (n : Z) : Z := n * 60 * 1000000.

(** ** db.py: the data model *)

Inductive StorageType := LOCAL | GDRIVE.

Inductive TaskStatus :=
  PENDING | SCHEDULED | DOWNLOADING | PRINTING | COMPLETED | FAILED.

Definition StorageType_eqb (a b : StorageType) : bool :=
  match a, b with
  | LOCAL, LOCAL | GDRIVE, GDRIVE => true
  | _, _ => false
  end.

Definition TaskStatus_eqb (a b : TaskStatus) : bool :=
  match a, b with
  | PENDING, PENDING | SCHEDULED, SCHEDULED | DOWNLOADING, DOWNLOADING
  | PRINTING, PRINTING | COMPLETED, COMPLETED | FAILED, FAILED => true
  | _, _ => false
  end.

(** The columns of table [tasks].  [id] is [0] on an instance that has not
    been inserted yet (SQLite row ids start at 1); the nullable columns the
    code tests for [None] are options. *)
Record Task := mkTask {
  id : Z;
  original_filename : string;
  uploader_email : string;
  storage_type : option StorageType;
  file_identifier : string;
  gdrive_download_path : option string;
  time_to_print : datetime;
  color_mode : string;
  page_size : string;
  status : TaskStatus;
  created_at : option datetime;
  error_message : option string
}.

Definition set_id (v : Z) (t : Task) : Task :=
  mkTask v (original_filename t) (uploader_email t) (storage_type t)
    (file_identifier t) (gdrive_download_path t) (time_to_print t)
    (color_mode t) (page_size t) (status t) (created_at t) (error_message t).

Definition set_gdrive_download_path (v : option string) (t : Task) : Task :=
  mkTask (id t) (original_filename t) (uploader_email t) (storage_type t)
    (file_identifier t) v (time_to_print t)
    (color_mode t) (page_size t) (status t) (created_at t) (error_message t).

Definition set_status (v : TaskStatus) (t : Task) : Task :=
  mkTask (id t) (original_filename t) (uploader_email t) (storage_type t)
    (file_identifier t) (gdrive_download_path t) (time_to_print t)
    (color_mode t) (page_size t) v (created_at t) (error_message t).

Definition set_created_at (v : option datetime) (t : Task) : Task :=
  mkTask (id t) (original_filename t) (uploader_email t) (storage_type t)
    (file_identifier t) (gdrive_download_path t) (time_to_print t)
    (color_mode t) (page_size t) (status t) v (error_message t).

Definition set_error_message (v : option string) (t : Task) : Task :=
  mkTask (id t) (original_filename t) (uploader_email t) (storage_type t)
    (file_identifier t) (gdrive_download_path t) (time_to_print t)
    (color_mode t) (page_size t) (status t) (created_at t) v.

(** ** Exceptions *)

Inductive ExnClass :=
  | HTTPException (status_code : Z)
  | ValueError
  | OverflowError
  | ConnectionError
  | JobLookupError
  | OSError
  | AttributeError
  | OtherException.

(** [exn_str] is [str(e)]; for an [HTTPException] it is the [detail]. *)
Record Exn := mkExn { exn_class : ExnClass; exn_str : string }.

Definition is_JobLookupError (e : Exn) : bool :=
  match exn_class e with JobLookupError => true | _ => false end.

Definition is_ValueError (e : Exn) : bool :=
  match exn_class e with ValueError => true | _ => false end.

(** ** The scheduler's jobs

    A job is the function to call with its arguments, and its [run_date].
    The [scheduler] argument of the download job is the process-wide scheduler
    itself, which is part of the world. *)

Inductive JobCall :=
  | job_prepare_gdrive_download_task (task_id : Z) (gdrive_download_full_path : string)
  | job_print_file_task (task_id : Z) (printer_name : option string).

Record Job := mkJob { job_func : JobCall; run_date : datetime }.

(** ** Calls to the collaborators, in the order they are made *)

Inductive Call :=
  | call_send_email (to_email subject body : string)
  | call_add_job (job_id : string) (j : Job)
  | call_remove_job (job_id : string)
  | call_subprocess_run (cmd : list string)
  | call_upload_to_gdrive (file_path filename : string)
  | call_download_from_gdrive (file_id destination_path : string)
  | call_os_remove (path : string).

Record CompletedProcess := mkProcess {
  returncode : Z;
  stdout : string;
  stderr : string
}.

(** ** The environment and the world *)

Record Env := mkEnv {
  (** [clock n] is what the [n]-th call of [datetime.now(timezone.utc)] returns. *)
  clock : nat → datetime;
  (** [str] of the float [dt.timestamp()], as an f-string prints it. *)
  timestamp_repr : datetime → string;
  (** The value of [datetime.now(timezone.utc)] when the class body of [Task]
      ran, that is when db.py was imported. *)
  db_import_time : datetime;
  (** [os.getenv("PRINTER_NAME")] and [os.getenv("GDRIVE_FOLDER_ID")]. *)
  PRINTER_NAME : option string;
  GDRIVE_FOLDER_ID : option string;
  (** Whether the platform converts a POSIX timestamp (in seconds) to a
      broken-down time: the value fits [time_t] and [gmtime] accepts it.  It
      is only asked about timestamps outside the years 1 to 9999. *)
  platform_gmtime : Z → bool;
  (** Whether [get_gdrive_service()] returns a service rather than [None]. *)
  gdrive_service : bool;
  (** Outcome of [service.files().create(...).execute()] for a local path and
      a name: an error text, or the id of the new object. *)
  gdrive_create : string → string → string + string;
  (** Outcome of fetching an object: an error text, or the number of bytes
      written to the destination. *)
  gdrive_get_media : string → string + Z;
  (** Whether all five SMTP settings are set, and whether the SMTP dialogue
      goes through. *)
  smtp_configured : bool;
  smtp_delivers : bool;
  (** An exception other than [JobLookupError] raised by [remove_job]. *)
  remove_job_fault : string → option string;
  (** An [OSError] raised by [os.remove] on an existing file. *)
  os_remove_fault : string → option string;
  (** What [subprocess.run] does with a command line. *)
  lp : list string → Exn + CompletedProcess
}.

(** The object a SQLAlchemy session holds: nothing, an instance added with
    [db.add] and not yet inserted, or an instance loaded from its row. *)
Inductive Session :=
  | NoInstance
  | Added (t : Task)
  | Loaded (t : Task).

Record World := mkWorld {
  (** committed rows of table [tasks], in row order *)
  tasks : list Task;
  session : Session;
  (** the files on local disk, with their sizes in bytes *)
  files : gmap string Z;
  (** the ids of the objects kept in Google Drive *)
  gdrive : gset string;
  (** the pending jobs of the scheduler, by job id *)
  jobs : gmap string Job;
  (** calls made to the collaborators, oldest first *)
  calls : list Call;
  (** number of clock readings taken so far *)
  ticks : nat
}.

Definition with_tasks (v : list Task) (w : World) : World :=
  mkWorld v (session w) (files w) (gdrive w) (jobs w) (calls w) (ticks w).
Definition with_session (v : Session) (w : World) : World :=
  mkWorld (tasks w) v (files w) (gdrive w) (jobs w) (calls w) (ticks w).
Definition with_files (v : gmap string Z) (w : World) : World :=
  mkWorld (tasks w) (session w) v (gdrive w) (jobs w) (calls w) (ticks w).
Definition with_gdrive (v : gset string) (w : World) : World :=
  mkWorld (tasks w) (session w) (files w) v (jobs w) (calls w) (ticks w).
Definition with_jobs (v : gmap string Job) (w : World) : World :=
  mkWorld (tasks w) (session w) (files w) (gdrive w) v (calls w) (ticks w).
Definition with_calls (v : list Call) (w : World) : World :=
  mkWorld (tasks w) (session w) (files w) (gdrive w) (jobs w) v (ticks w).
Definition with_ticks (v : nat) (w : World) : World :=
  mkWorld (tasks w) (session w) (files w) (gdrive w) (jobs w) (calls w) v.

Definition record_call (c : Call) (w : World) : World :=
  with_calls (calls w ++ [c]) w.

(** ** The monad of Python computations *)

Definition IO (A : Type) : Type := Env → World → (Exn + A) * World.

Global Instance IO_ret : MRet IO := λ A a _ w, (inr a, w).

Global Instance IO_bind : MBind IO := λ A B f m e w,
  match m e w with
  | (inl x, w') => (inl x, w')
  | (inr a, w') => f a e w'
  end.

Definition raise {A} (c : ExnClass) (msg : string) : IO A :=
  λ _ w, (inl (mkExn c msg), w).

(** [try: m  except <classes accepted by p> as e: h e] *)
Definition try_except {A} (p : Exn → bool) (m : IO A) (h : Exn → IO A) : IO A :=
  λ e w,
  match m e w with
  | (inl x, w') => if p x then h x e w' else (inl x, w')
  | (inr a, w') => (inr a, w')
  end.

(** [except Exception] catches every class of the model. *)
Definition any_Exception (_ : Exn) : bool := true.

(** [try: m  finally: f] *)
Definition try_finally {A} (m : IO A) (f : IO unit) : IO A :=
  λ e w,
  match m e w with
  | (r, w') =>
    match f e w' with
    | (inl x, w'') => (inl x, w'')
    | (inr _, w'') => (r, w'')
    end
  end.

Definition get_env {A} (f : Env → A) : IO A := λ e w, (inr (f e), w).
Definition get_world {A} (f : World → A) : IO A := λ _ w, (inr (f w), w).
Definition modify_world (f : World → World) : IO unit := λ _ w, (inr (), f w).

(** [datetime.now(timezone.utc)] *)
Definition datetime_now : IO datetime :=
  λ e w, (inr (clock e (ticks w)), with_ticks (S (ticks w)) w).

(** ** Python strings and paths *)

Definition nl : string := String (Ascii.ascii_of_nat 10) EmptyString.

(** Truth value of a string, and of a string that may be [None]. *)
Definition truthy (s : string) : bool :=
  match s with EmptyString => false | String _ _ => true end.

Definition truthy_opt (o : option string) : bool :=
  match o with Some s => truthy s | None => false end.

(** [a or b] on strings. *)
Definition str_or (a b : string) : string := if truthy a then a else b.

(** How an f-string prints a string that may be [None]. *)
Definition str_opt (o : option string) : string :=
  match o with Some s => s | None => "None" end.

Definition startswith_slash (s : string) : bool :=
  match s with String "/"%char _ => true | _ => false end.

Fixpoint endswith_slash (s : string) : bool :=
  match s with
  | EmptyString => false
  | String "/"%char EmptyString => true
  | String _ s' => endswith_slash s'
  end.

(** [os.path.join(a, b)] of posixpath. *)
Definition os_path_join (a b : string) : string :=
  if startswith_slash b then b
  else if negb (truthy a) || endswith_slash a then a +:+ b
  else a +:+ "/" +:+ b.

(** ** The local file system

    [open(path, "wb")] followed by a copy, [shutil.move] and
    [os.path.getsize] are taken to succeed whenever their source exists: the
    code has no handler for their failure.  [os.remove] may fail, as the print
    handler expects.

    For [open] this takes the directory of [path] to exist and to be
    writable.  [add_task] builds the path from the uploaded filename: a
    filename that holds a path separator names a directory that does not
    exist, and [open] raises [FileNotFoundError] at line 87 of backend.py,
    before the submission has any other effect.  Such a submission is
    outside what [write_file] describes. *)

Definition os_path_exists (path : string) : IO bool :=
  get_world (λ w, bool_decide (is_Some (files w !! path))).

Definition os_path_getsize (path : string) : IO Z :=
  λ _ w,
  match files w !! path with
  | Some n => (inr n, w)
  | None => (inl (mkExn OSError "No such file or directory"), w)
  end.

Definition write_file (path : string) (n : Z) : IO unit :=
  modify_world (λ w, with_files (<[path := n]> (files w)) w).

Definition os_remove (path : string) : IO unit :=
  λ e w,
  let w := record_call (call_os_remove path) w in
  match files w !! path with
  | None => (inl (mkExn OSError "No such file or directory"), w)
  | Some _ =>
    match os_remove_fault e path with
    | Some msg => (inl (mkExn OSError msg), w)
    | None => (inr (), with_files (delete path (files w)) w)
    end
  end.

Definition shutil_move (src dst : string) : IO unit :=
  λ _ w,
  match files w !! src with
  | None => (inl (mkExn OSError "No such file or directory"), w)
  | Some n => (inr (), with_files (<[dst := n]> (delete src (files w))) w)
  end.

(** ** The SQLAlchemy session *)

(** The first row with a given id. *)
Definition find_task (task_id : Z) (rows : list Task) : option Task :=
  List.find (λ t, id t =? task_id) rows.

(** [db.query(Task).filter(Task.id == task_id).first()] *)
Definition db_query_first (task_id : Z) : IO (option Task) :=
  λ _ w,
  let r := find_task task_id (tasks w) in
  (inr r, with_session (match r with Some t => Loaded t | None => NoInstance end) w).

(** [task.<column> = v] on the instance the session holds. *)
Definition task_set (upd : Task → Task) : IO unit :=
  λ _ w,
  match session w with
  | NoInstance => (inl (mkExn AttributeError "'NoneType' object has no attribute"), w)
  | Added t => (inr (), with_session (Added (upd t)) w)
  | Loaded t => (inr (), with_session (Loaded (upd t)) w)
  end.

Definition db_add (t : Task) : IO unit :=
  modify_world (with_session (Added t)).

(** The row id SQLite gives to the next inserted row. *)
Definition next_rowid (rows : list Task) : Z :=
  1 + foldr Z.max 0 (id <$> rows).

(** The default of column [created_at] (db.py, line 50): the expression
    [datetime.now(timezone.utc)] is evaluated when the class body runs, and
    its value is the column's default from then on. *)
Definition Task_created_at_default (e : Env) : datetime := db_import_time e.

Definition update_row (t : Task) (rows : list Task) : list Task :=
  (λ r, if id r =? id t then t else r) <$> rows.

(** [db.commit()]: an added instance is inserted, with a fresh id and the
    column defaults; a loaded instance is written back to its row. *)
Definition db_commit : IO unit :=
  λ e w,
  match session w with
  | NoInstance => (inr (), w)
  | Added t =>
    let t' :=
      set_created_at
        (match created_at t with
         | Some d => Some d
         | None => Some (Task_created_at_default e)
         end)
        (set_id (next_rowid (tasks w)) t) in
    (inr (), with_session (Loaded t') (with_tasks (tasks w ++ [t']) w))
  | Loaded t => (inr (), with_tasks (update_row t (tasks w)) w)
  end.

(** [db.refresh(instance)] *)
Definition db_refresh : IO Task :=
  λ _ w,
  match session w with
  | Loaded t =>
    match find_task (id t) (tasks w) with
    | Some r => (inr r, with_session (Loaded r) w)
    | None => (inl (mkExn OtherException "Could not refresh instance"), w)
    end
  | _ => (inl (mkExn OtherException "Instance is not persistent within this Session"), w)
  end.

Definition db_close : IO unit := modify_world (with_session NoInstance).

(** [db: Session = Depends(get_db)]: the session is closed when the request
    is over, whatever its outcome. *)
Definition Depends_get_db {A} (m : IO A) : IO A := try_finally m db_close.

(** ** helper.py *)

Definition get_gdrive_service : IO bool := get_env gdrive_service.

Definition upload_to_gdrive (file_path filename : string) : IO string :=
  modify_world (record_call (call_upload_to_gdrive file_path filename));;
  service ← get_gdrive_service;
  if negb service then
    raise ConnectionError "Google Drive service not available for upload."
  else
    folder ← get_env GDRIVE_FOLDER_ID;
    if negb (truthy_opt folder) then
      raise ValueError "GDRIVE_FOLDER_ID not configured for upload."
    else
      create ← get_env gdrive_create;
      match create file_path filename with
      | inl msg => raise OtherException msg
      | inr file_id =>
        modify_world (λ w, with_gdrive ({[file_id]} ∪ gdrive w) w);;
        mret file_id
      end.

Definition download_from_gdrive (file_id destination_path : string) : IO string :=
  modify_world (record_call (call_download_from_gdrive file_id destination_path));;
  service ← get_gdrive_service;
  if negb service then
    raise ConnectionError "Google Drive service not available for download."
  else
    get_media ← get_env gdrive_get_media;
    match get_media file_id with
    | inr n =>
      write_file destination_path n;;
      mret destination_path
    | inl msg =>
      (* the partial download is cleaned up *)
      modify_world (λ w, with_files (delete destination_path (files w)) w);;
      raise OtherException msg
    end.

Definition send_email (to_email subject body : string) : IO bool :=
  modify_world (record_call (call_send_email to_email subject body));;
  configured ← get_env smtp_configured;
  if negb configured then mret false
  else get_env smtp_delivers.

(** ** The scheduler *)

(** [scheduler.add_job(func, 'date', run_date=..., args=..., id=job_id,
    replace_existing=True)] *)
Definition scheduler_add_job (job_id : string) (j : Job) : IO unit :=
  modify_world (λ w,
    with_jobs (<[job_id := j]> (jobs w)) (record_call (call_add_job job_id j) w)).

Definition scheduler_remove_job (job_id : string) : IO unit :=
  λ e w,
  let w := record_call (call_remove_job job_id) w in
  match remove_job_fault e job_id with
  | Some msg => (inl (mkExn OtherException msg), w)
  | None =>
    match jobs w !! job_id with
    | Some _ => (inr (), with_jobs (delete job_id (jobs w)) w)
    | None => (inl (mkExn JobLookupError ("No job by the id of " +:+ job_id +:+ " was found")), w)
    end
  end.

(** ** The print sink *)

Definition subprocess_run (cmd : list string) : IO CompletedProcess :=
  λ e w,
  let w := record_call (call_subprocess_run cmd) w in
  match lp e cmd with
  | inl x => (inl x, w)
  | inr p => (inr p, w)
  end.

(** ** db.py: the scheduled handlers

    Logging is left out: it changes nothing the handlers or their callers
    read.  The fields read from [task] below are read before the handler
    assigns them, so they are taken from the instance as it was loaded;
    assignments go to the instance held by the session.  The argument
    [scheduler_obj] of the download handler is the scheduler of the world. *)

Definition storage_is (k : StorageType) (o : option StorageType) : bool :=
  match o with Some k' => StorageType_eqb k' k | None => false end.

Definition prepare_gdrive_download_task
    (task_id : Z) (gdrive_download_full_path_val : string) : IO unit :=
  task ← db_query_first task_id;
  match task with
  | None => db_close
  | Some task =>
    if TaskStatus_eqb (status task) FAILED then db_close
    else if negb (storage_is GDRIVE (storage_type task)) then db_close
    else
      task_set (set_status DOWNLOADING);;
      db_commit;;
      let download_destination :=
        os_path_join gdrive_download_full_path_val
          ("task_" +:+ pretty (id task) +:+ "_" +:+ original_filename task) in
      try_finally
        (try_except any_Exception
           (download_from_gdrive (file_identifier task) download_destination;;
            task_set (set_gdrive_download_path (Some download_destination));;
            task_set (set_status SCHEDULED))
           (λ e,
            task_set (set_status FAILED);;
            task_set (set_error_message (Some (exn_str e)));;
            let email_subject := "Print Task Failed: " +:+ original_filename task in
            let email_body :=
              "Hello," +:+ nl +:+ nl +:+ "The file '" +:+ original_filename task
              +:+ "' scheduled for printing could not be downloaded from Google Drive."
              +:+ nl +:+ "Error: " +:+ exn_str e +:+ nl +:+ nl
              +:+ "You may need to print this file manually." +:+ nl
              +:+ "Task ID: " +:+ pretty (id task) in
            send_email (uploader_email task) email_subject email_body;;
            try_except is_JobLookupError
              (scheduler_remove_job ("print_task_" +:+ pretty (id task)))
              (λ _, mret ())))
        (db_commit;; db_close)
  end.

(** [task.status = FAILED; task.error_message = msg; db.commit(); db.close();
    return], the way every failing guard of the print handler ends. *)
Definition mark_failed (msg : string) : IO unit :=
  task_set (set_status FAILED);;
  task_set (set_error_message (Some msg));;
  db_commit;;
  db_close.

Definition print_command_for
    (printer_name_val : string) (task : Task) (file_to_print_path : string)
    : list string :=
  ["lp"; "-d"; printer_name_val]
  ++ (if truthy (page_size task) then ["-o"; "media=" +:+ page_size task] else [])
  ++ (if String.eqb (color_mode task) "color" then ["-o"; "ColorModel=CMYK"]
      else if String.eqb (color_mode task) "bw" then ["-o"; "ColorModel=Gray"]
      else [])
  ++ [file_to_print_path].

(** Lines 174 to 226 of db.py: what the handler does once the file to print
    is resolved. *)
Definition print_resolved_file
    (task_id : Z) (printer_name_val : string) (task : Task)
    (file_to_print_path : string) (is_gdrive_downloaded_file : bool) : IO unit :=
  found ← os_path_exists file_to_print_path;
  if negb found then
    mark_failed ("File not found at " +:+ file_to_print_path
                 +:+ " for task " +:+ pretty task_id +:+ ".")
  else
    task_set (set_status PRINTING);;
    db_commit;;
    try_finally
      (try_except any_Exception
         (let print_command :=
            print_command_for printer_name_val task file_to_print_path in
          process ← subprocess_run print_command;
          (if returncode process =? 0 then
             task_set (set_status COMPLETED)
           else
             task_set (set_status FAILED);;
             task_set (set_error_message
               (Some (str_or (stderr process)
                        (str_or (stdout process) "Unknown printing error")))));;
          db_commit)
         (λ e,
          task_set (set_status FAILED);;
          task_set (set_error_message (Some (exn_str e)));;
          db_commit))
      (still_there ← os_path_exists file_to_print_path;
       (if is_gdrive_downloaded_file && still_there then
          try_except any_Exception
            (os_remove file_to_print_path;;
             task_set (set_gdrive_download_path None);;
             db_commit)
            (λ _, mret ())
        else mret ());;
       db_close).

Definition print_file_task (task_id : Z) (printer_name_val : option string) : IO unit :=
  task ← db_query_first task_id;
  match task with
  | None => db_close
  | Some task =>
    if TaskStatus_eqb (status task) FAILED then db_close
    else if TaskStatus_eqb (status task) DOWNLOADING then
      mark_failed "Print task ran while file was still in downloading state or download failed to update status."
    else if negb (truthy_opt printer_name_val) then
      mark_failed "Printer name not configured (passed as empty)."
    else
      let printer := default "" printer_name_val in
      match storage_type task with
      | Some GDRIVE =>
        staged ← (if truthy_opt (gdrive_download_path task)
                   then os_path_exists (default "" (gdrive_download_path task))
                   else mret false);
        if (staged : bool) then
          print_resolved_file task_id printer task
            (default "" (gdrive_download_path task)) true
        else
          mark_failed ("GDrive file " +:+ original_filename task
            +:+ " (ID: " +:+ file_identifier task
            +:+ ") not found locally at expected path "
            +:+ str_opt (gdrive_download_path task)
            +:+ ". Download may have failed or path is incorrect.")
      | Some LOCAL =>
        print_resolved_file task_id printer task (file_identifier task) false
      | None => mark_failed "Unknown storage type."
      end
  end.

(** ** backend.py *)

Definition MAX_FILE_SIZE_MB : Z := 5.
Definition MAX_FILE_SIZE_BYTES : Z := MAX_FILE_SIZE_MB * 1024 * 1024.
Definition LOCAL_STORAGE_PATH : string := "uploads".
Definition GDRIVE_DOWNLOAD_SUBDIR : string := "gdrive_downloads".
Definition GDRIVE_DOWNLOAD_FULL_PATH : string :=
  os_path_join LOCAL_STORAGE_PATH GDRIVE_DOWNLOAD_SUBDIR.

(** The first and the last second of the years [datetime] can hold. *)
Definition MIN_TIMESTAMP : Z := -62135596800.
Definition MAX_TIMESTAMP : Z := 253402300799.

(** The values a [time_t] of 64 bits holds. *)
Definition TIME_T_MIN : Z := - 2 ^ 63.
Definition TIME_T_MAX : Z := 2 ^ 63 - 1.

(** [datetime.fromtimestamp(ts, tz=timezone.utc)].  CPython converts the
    value to a [time_t] (an [OverflowError] when it does not fit), calls
    [gmtime] (an [OSError] with [EOVERFLOW] when it refuses), and builds the
    [datetime] (a [ValueError] when the year is outside 1 to 9999).  Of the
    three only the last is a [ValueError]. *)
Definition datetime_fromtimestamp (ts : Z) : IO datetime :=
  if (MIN_TIMESTAMP <=? ts) && (ts <=? MAX_TIMESTAMP) then
    mret (timedelta_seconds ts)
  else
    ok ← get_env platform_gmtime;
    if (ok : Z → bool) ts then raise ValueError "year is out of range"
    else if (TIME_T_MIN <=? ts) && (ts <=? TIME_T_MAX) then
      raise OSError "[Errno 75] Value too large for defined data type"
    else raise OverflowError "timestamp out of range for platform time_t".

(** The uploaded file: its name and the number of bytes of its content. *)
Record UploadFile := mkUploadFile {
  filename : string;
  content_length : Z
}.

Definition StorageType_value (k : StorageType) : string :=
  match k with LOCAL => "local" | GDRIVE => "gdrive" end.

Definition TaskStatus_value (s : TaskStatus) : string :=
  match s with
  | PENDING => "pending" | SCHEDULED => "scheduled"
  | DOWNLOADING => "downloading" | PRINTING => "printing"
  | COMPLETED => "completed" | FAILED => "failed"
  end.

(** The JSON object [add_task] returns; [resp_print_time] is sent in ISO
    format. *)
Record Response := mkResponse {
  resp_message : string;
  resp_task_id : Z;
  resp_filename : string;
  resp_uploader_email : string;
  resp_storage : string;
  resp_print_time : datetime;
  resp_status : string
}.

(** The two clean-ups of a rejected print time (lines 124-125 and 129-130). *)
Definition discard_local_copy
    (storage_type_val : StorageType) (file_identifier_val : string) : IO unit :=
  there ← os_path_exists file_identifier_val;
  if StorageType_eqb storage_type_val LOCAL && there
  then os_remove file_identifier_val
  else mret ().

Definition add_task
    (file : UploadFile) (time_to_print_ts : Z)
    (form_color_mode form_page_size form_uploader_email : string) : IO Response :=
  Depends_get_db (
    if negb (String.eqb form_color_mode "color" || String.eqb form_color_mode "bw") then
      raise (HTTPException 400) "Invalid color_mode. Must be 'color' or 'bw'."
    else if negb (truthy form_uploader_email) then
      raise (HTTPException 400) "uploader_email is required."
    else
      repr ← get_env timestamp_repr;
      now_temp ← datetime_now;
      let temp_file_id := "temp_" +:+ repr now_temp +:+ "_" +:+ filename file in
      let temp_file_path := os_path_join LOCAL_STORAGE_PATH temp_file_id in
      write_file temp_file_path (content_length file);;
      file_size ← os_path_getsize temp_file_path;
      service ← get_gdrive_service;
      folder ← get_env GDRIVE_FOLDER_ID;
      let gdrive_service_available := service && bool_decide (is_Some folder) in
      placed ←
        (if MAX_FILE_SIZE_BYTES <? file_size then
           if negb gdrive_service_available then
             os_remove temp_file_path;;
             raise (HTTPException 500)
               "File is large, but Google Drive is not configured/available for upload."
           else
             try_except any_Exception
               (gdrive_file_id ← upload_to_gdrive temp_file_path (filename file);
                os_remove temp_file_path;;
                mret (GDRIVE, gdrive_file_id))
               (λ e,
                os_remove temp_file_path;;
                raise (HTTPException 500)
                  ("Google Drive upload failed: " +:+ exn_str e))
         else
           now_local ← datetime_now;
           let final_local_path :=
             os_path_join LOCAL_STORAGE_PATH
               ("local_" +:+ repr now_local +:+ "_" +:+ filename file) in
           shutil_move temp_file_path final_local_path;;
           mret (LOCAL, final_local_path));
      let storage_type_val : StorageType := placed.1 in
      let file_identifier_val : string := placed.2 in
      print_datetime ←
        try_except is_ValueError
          (datetime_fromtimestamp time_to_print_ts)
          (λ _,
           discard_local_copy storage_type_val file_identifier_val;;
           raise (HTTPException 400)
             "Invalid time_to_print_ts. Must be a valid Unix timestamp.");
      now_check ← datetime_now;
      if print_datetime <=? now_check + timedelta_minutes 1 then
        discard_local_copy storage_type_val file_identifier_val;;
        raise (HTTPException 400)
          "time_to_print must be in the future (at least 1 minute ahead)."
      else
        db_add (mkTask 0 (filename file) form_uploader_email (Some storage_type_val)
                  file_identifier_val None print_datetime form_color_mode
                  form_page_size SCHEDULED None None);;
        db_commit;;
        new_task ← db_refresh;
        let print_job_id := "print_task_" +:+ pretty (id new_task) in
        printer ← get_env PRINTER_NAME;
        (if storage_is GDRIVE (storage_type new_task) then
           now_download ← datetime_now;
           download_time ←
             (if print_datetime - timedelta_minutes 10 <=? now_download then
                now_clamp ← datetime_now;
                mret (now_clamp + timedelta_seconds 5)
              else mret (print_datetime - timedelta_minutes 10));
           scheduler_add_job ("download_task_" +:+ pretty (id new_task))
             (mkJob (job_prepare_gdrive_download_task (id new_task)
                       GDRIVE_DOWNLOAD_FULL_PATH) download_time)
         else mret ());;
        scheduler_add_job print_job_id
          (mkJob (job_print_file_task (id new_task) printer) print_datetime);;
        mret (mkResponse "Task added successfully" (id new_task) (filename file)
                (uploader_email new_task)
                (from_option StorageType_value "None" (storage_type new_task))
                (time_to_print new_task)
                (TaskStatus_value (status new_task)))).

(** [GET /tasks/{task_id}] *)
Definition get_task_status (task_id : Z) : IO Task :=
  Depends_get_db (
    task ← db_query_first task_id;
    match task with
    | None => raise (HTTPException 404) "Task not found"
    | Some task => mret task
    end).

(** SQLite sorts NULL before every value. *)
Definition null_first_leb (x y : option datetime) : bool :=
  match x, y with
  | None, _ => true
  | Some _, None => false
  | Some a, Some b => a <=? b
  end.

(** [ORDER BY created_at DESC]: [a] may come before [b]. *)
Definition created_at_desc (a b : Task) : Prop :=
  null_first_leb (created_at b) (created_at a) = true.

Global Instance created_at_desc_dec a b : Decision (created_at_desc a b).
Proof. unfold created_at_desc. apply _. Defined.

(** [OFFSET skip LIMIT limit] of SQLite: a negative offset is no offset, a
    negative limit is no limit. *)
Definition offset_limit {A} (skip limit : Z) (rows : list A) : list A :=
  let rest := drop (Z.to_nat skip) rows in
  if limit <? 0 then rest else take (Z.to_nat limit) rest.

(** [GET /tasks/].  SQL leaves the order of rows with equal keys open; the
    model takes the order [merge_sort] gives. *)
Definition list_tasks (skip limit : Z) : IO (list Task) :=
  Depends_get_db (
    rows ← get_world tasks;
    mret (offset_limit skip limit (merge_sort created_at_desc rows))).

(** ** Firing scheduled jobs

    The scheduler calls a job's function with its arguments; an exception
    raised by a job is logged by the scheduler and the next job runs. *)

Definition fire (c : JobCall) : IO unit :=
  match c with
  | job_prepare_gdrive_download_task task_id path =>
    prepare_gdrive_download_task task_id path
  | job_print_file_task task_id printer => print_file_task task_id printer
  end.

Fixpoint fire_all (cs : list JobCall) (e : Env) (w : World) : World :=
  match cs with
  | [] => w
  | c :: cs => fire_all cs e (fire c e w).2
  end.

(** ** Rows out of a handler's reach

    [kept tid t w]: the row of task [tid] holds [t], and the session holds
    either nothing or an instance loaded for another id.  A computation
    [preserves] this when it holds after the computation whenever it held
    before. *)

Definition other_session (tid : Z) (w : World) : Prop :=
  match session w with
  | NoInstance => True
  | Added _ => False
  | Loaded t' => id t' ≠ tid
  end.

Definition kept (tid : Z) (t : Task) (w : World) : Prop :=
  find_task tid (tasks w) = Some t ∧ other_session tid w.

Definition preserves (tid : Z) (t : Task) {A} (m : IO A) : Prop :=
  ∀ e w, kept tid t w → kept tid t (m e w).2.

(** ** What a submission is expected to leave behind

    The names [add_task] gives to the uploaded bytes, the row it inserts and
    the jobs it registers, as functions of the world the request starts in.
    [add_task] reads the clock for the temporary name first and, for a file
    kept locally, for the permanent name next. *)

Definition temp_path (e : Env) (w : World) (file : UploadFile) : string :=
  os_path_join LOCAL_STORAGE_PATH
    ("temp_" +:+ timestamp_repr e (clock e (ticks w)) +:+ "_" +:+ filename file).

Definition local_path (e : Env) (w : World) (file : UploadFile) : string :=
  os_path_join LOCAL_STORAGE_PATH
    ("local_" +:+ timestamp_repr e (clock e (S (ticks w))) +:+ "_" +:+ filename file).

Definition inserted_row (e : Env) (w : World) (file : UploadFile) (ts : Z)
    (c p u : string) (k : StorageType) (ident : string) : Task :=
  mkTask (next_rowid (tasks w)) (filename file) u (Some k) ident None
    (timedelta_seconds ts) c p SCHEDULED (Some (db_import_time e)) None.

Definition print_job_of (e : Env) (w : World) (ts : Z) : Job :=
  mkJob (job_print_file_task (next_rowid (tasks w)) (PRINTER_NAME e))
    (timedelta_seconds ts).

Definition download_job_of (w : World) (download_time : datetime) : Job :=
  mkJob (job_prepare_gdrive_download_task (next_rowid (tasks w))
           GDRIVE_DOWNLOAD_FULL_PATH) download_time.

(** Lines 150 to 153 of backend.py, given the two clock readings. *)
Definition clamped_download_time
    (print_datetime now_download now_clamp : datetime) : datetime :=
  if print_datetime - timedelta_minutes 10 <=? now_download
  then now_clamp + timedelta_seconds 5
  else print_datetime - timedelta_minutes 10.

(** The jobs registered by a sequence of calls, in registration order. *)
Definition registered_jobs (cs : list Call) : list (string * Job) :=
  omap (λ c, match c with call_add_job k j => Some (k, j) | _ => None end) cs.

(** ** What a handler may change in a row

    The columns a submission fills in, which nothing changes afterwards; and
    one step of the life of a row: those columns are kept, an error message
    is not cleared, and a row that becomes FAILED carries a message. *)

Definition same_request (a b : Task) : Prop :=
  id a = id b ∧ original_filename a = original_filename b ∧
  uploader_email a = uploader_email b ∧ storage_type a = storage_type b ∧
  file_identifier a = file_identifier b ∧ time_to_print a = time_to_print b ∧
  color_mode a = color_mode b ∧ page_size a = page_size b ∧
  created_at a = created_at b.

Definition lifecycle_step (a b : Task) : Prop :=
  same_request a b ∧
  (is_Some (error_message a) → is_Some (error_message b)) ∧
  (status a ≠ FAILED → status b = FAILED → is_Some (error_message b)).

(** The table after some requests: the rows that were there, each some
    steps further, followed by the rows inserted since. *)

Definition table_grows (rows rows' : list Task) : Prop :=
  ∃ old new, rows' = old ++ new ∧ Forall2 lifecycle_step rows old.

(** ** The guards of [print_file_task]

    A task passes the status and printer guards; [path] is the file the
    handler resolves for it and finds on disk; the clean-up the handler
    performs after the print command. *)

Definition printable (printer : option string) (t : Task) : Prop :=
  status t ≠ FAILED ∧ status t ≠ DOWNLOADING ∧ truthy_opt printer = true.

Definition resolves_to (w : World) (t : Task) (path : string) : Prop :=
  (storage_type t = Some LOCAL ∧ path = file_identifier t ∨
   storage_type t = Some GDRIVE ∧ gdrive_download_path t = Some path ∧
   truthy path = true) ∧
  is_Some (files w !! path).

Definition cleanup_calls (t : Task) (path : string) : list Call :=
  if storage_is GDRIVE (storage_type t) then [call_os_remove path] else [].

(** A printer that accepts whatever it is sent. *)

Definition sink_accepts_everything (e : Env) : Prop :=
  ∀ cmd, ∃ p, lp e cmd = inr p ∧ returncode p = 0.

(** ** A refused submission

    What holds of the exception [x] and of the world [w'] that a refused
    [add_task] ends in; the last part is about the refusals that are an
    [HTTPException]. *)

Definition add_task_failure (w : World) (x : Exn) (w' : World) : Prop :=
  tasks w' = tasks w ∧ jobs w' = jobs w ∧ session w' = NoInstance ∧
  registered_jobs (calls w') = registered_jobs (calls w) ∧
  gdrive w ⊆ gdrive w' ∧
  (∀ code, exn_class x = HTTPException code →
           (code = 400 ∨ code = 500) ∧ files w' ⊆ files w).

(** ** What reaches the process

    Requests to the three endpoints, and jobs the scheduler fires, served one
    after the other. *)

Inductive Request :=
  | POST_add_task (file : UploadFile) (time_to_print_ts : Z)
      (form_color_mode form_page_size form_uploader_email : string)
  | GET_task (task_id : Z)
  | GET_tasks (skip limit : Z)
  | job_fires (c : JobCall).

Definition serve (r : Request) (e : Env) (w : World) : World :=
  match r with
  | POST_add_task file ts c p u => (add_task file ts c p u e w).2
  | GET_task task_id => (get_task_status task_id e w).2
  | GET_tasks skip limit => (list_tasks skip limit e w).2
  | job_fires c => (fire c e w).2
  end.

Fixpoint serve_all (rs : list Request) (e : Env) (w : World) : World :=
  match rs with
  | [] => w
  | r :: rs => serve_all rs e (serve r e w)
  end.

(** ** Concrete scenarios

    A clock that starts at 2023-11-14 22:13:20 UTC and advances by one
    microsecond per reading, a db.py imported 10000 seconds earlier, and
    collaborators whose answers are the parameters. *)

Definition ex_now : datetime := 1700000000000000.

Definition ex_env
    (service : bool) (media : string + Z) (remove_job_error os_remove_error : option string)
    (lp_outcome : Exn + CompletedProcess) : Env :=
  mkEnv (λ n, ex_now + Z.of_nat n) (λ d, pretty d) (ex_now - 10000000000)
    (Some "HP") (Some "folder") (λ _, true) service
    (λ _ _, if service then inr "gid1" else inl "quota exceeded")
    (λ _, media) true true (λ _, remove_job_error) (λ _, os_remove_error)
    (λ _, lp_outcome).

(** The same environment with a clock whose third reading is [ex_now] sharp. *)
Definition ex_env_third_reading_sharp : Env :=
  mkEnv (λ n, ex_now - 2 + Z.of_nat n) (λ d, pretty d) (ex_now - 10000000000)
    (Some "HP") (Some "folder") (λ _, true) true
    (λ _ _, inr "gid1") (λ _, inr 42) true true (λ _, None) (λ _, None)
    (λ _, inr (mkProcess 0 "" "")).

Definition ex_lp_ok : Exn + CompletedProcess := inr (mkProcess 0 "request id is HP-1" "").
Definition ex_lp_error : Exn + CompletedProcess := inr (mkProcess 1 "" "out of paper").

Definition ex_env_ok : Env := ex_env true (inr 42) None None ex_lp_ok.

Definition ex_local_task (s : TaskStatus) : Task :=
  mkTask 1 "a.pdf" "u@x.org" (Some LOCAL) "uploads/local_a.pdf" None
    (ex_now + 600000000) "bw" "A4" s (Some (ex_now - 10000000000)) None.

Definition ex_gdrive_task (s : TaskStatus) (staged : option string) : Task :=
  mkTask 2 "b.pdf" "v@x.org" (Some GDRIVE) "gid0" staged
    (ex_now + 900000000) "color" "A4" s (Some (ex_now - 10000000000)) None.

Definition ex_staged_path : string := "uploads/gdrive_downloads/task_2_b.pdf".

Definition ex_print_job : Job :=
  mkJob (job_print_file_task 2 (Some "HP")) (ex_now + 900000000).

(** One LOCAL task and one GDRIVE task, both files on disk, the print job of
    the second pending. *)
Definition ex_world (s1 s2 : TaskStatus) (staged : option string) : World :=
  mkWorld [ex_local_task s1; ex_gdrive_task s2 staged] NoInstance
    {[ "uploads/local_a.pdf" := 10; ex_staged_path := 6000000 ]}
    {[ "gid0" ]} {[ "print_task_2" := ex_print_job ]} [] 0.

Definition ex_small_file : UploadFile := mkUploadFile "c.pdf" 600.
Definition ex_large_file : UploadFile := mkUploadFile "d.pdf" 6000000.

(** What [add_task] answers to the small and to the large file, submitted
    in [ex_world] for a print ten minutes after [ex_now]. *)
Definition ex_small_response : Response :=
  mkResponse "Task added successfully" 3 "c.pdf" "u@x.org" "local"
    (ex_now + 600000000) "scheduled".

Definition ex_large_response : Response :=
  mkResponse "Task added successfully" 3 "d.pdf" "u@x.org" "gdrive"
    (ex_now + 600000000) "scheduled".

(** A clock that is read once an hour. *)
Definition ex_env_hourly : Env :=
  mkEnv (λ n, ex_now + Z.of_nat n * 3600000000) (λ d, pretty d)
    (ex_now - 10000000000)
    (Some "HP") (Some "folder") (λ _, true) true
    (λ _ _, inr "gid1") (λ _, inr 42) true true (λ _, None) (λ _, None)
    (λ _, inr (mkProcess 0 "" "")).

(** Answers to two small files submitted one after the other on that clock,
    for prints at three and at six hours after [ex_now]. *)
Definition ex_first_response : Response :=
  mkResponse "Task added successfully" 3 "c.pdf" "u@x.org" "local"
    (ex_now + 10800000000) "scheduled".

Definition ex_second_response : Response :=
  mkResponse "Task added successfully" 4 "c.pdf" "u@x.org" "local"
    (ex_now + 21600000000) "scheduled".

(** Google Drive answers, and refuses the upload. *)
Definition ex_env_quota : Env :=
  mkEnv (λ n, ex_now + Z.of_nat n) (λ d, pretty d) (ex_now - 10000000000)
    (Some "HP") (Some "folder") (λ _, true) true
    (λ _ _, inl "quota exceeded") (λ _, inr 42) true true (λ _, None) (λ _, None)
    (λ _, ex_lp_ok).

(** A platform whose [gmtime] refuses a year that does not fit 32 bits, and a
    timestamp that far away. *)
Definition ex_env_year_overflow : Env :=
  mkEnv (λ n, ex_now + Z.of_nat n) (λ d, pretty d) (ex_now - 10000000000)
    (Some "HP") (Some "folder") (λ ts, Z.abs ts <? 67767976233532800) true
    (λ _ _, inr "gid1") (λ _, inr 42) true true (λ _, None) (λ _, None)
    (λ _, ex_lp_ok).

Definition ex_far_timestamp : Z := 1000000000000000000.

(** A submission, the print job of task 1, the download and the print job of
    task 2, and two reads. *)
Definition ex_requests : list Request :=
  [ POST_add_task ex_small_file 1700000600 "bw" "A4" "u@x.org";
    job_fires (job_print_file_task 1 (Some "HP"));
    job_fires (job_prepare_gdrive_download_task 2 GDRIVE_DOWNLOAD_FULL_PATH);
    GET_task 2;
    job_fires (job_print_file_task 2 (Some "HP"));
    GET_tasks 0 10 ].

(** * Properties *)

(** ** Running a computation *)

Lemma run_bind {A B} (m : IO A) (f : A → IO B) e w :
  (m ≫= f) e w =
  match m e w with
  | (inl x, w') => (inl x, w')
  | (inr a, w') => f a e w'
  end.
Proof. reflexivity. Qed.

(** Unfolds the handlers and the operations they are made of, down to the
    questions asked to the world and the environment. *)
Ltac io_unfold :=
  cbv beta iota zeta delta
    [prepare_gdrive_download_task print_file_task print_resolved_file mark_failed
     add_task discard_local_copy datetime_fromtimestamp fire
     db_query_first task_set db_add db_commit db_refresh db_close Depends_get_db
     os_path_exists os_path_getsize write_file os_remove shutil_move
     get_gdrive_service upload_to_gdrive download_from_gdrive send_email
     scheduler_add_job scheduler_remove_job subprocess_run
     datetime_now get_env get_world modify_world raise try_except try_finally
     any_Exception is_JobLookupError is_ValueError exn_class exn_str
     mbind mret IO_bind IO_ret record_call
     with_tasks with_session with_files with_gdrive with_jobs with_calls with_ticks
     tasks session files gdrive jobs calls ticks
     clock timestamp_repr db_import_time PRINTER_NAME GDRIVE_FOLDER_ID platform_gmtime
     gdrive_service gdrive_create gdrive_get_media smtp_configured smtp_delivers
     remove_job_fault os_remove_fault lp
     fst snd];
  cbn [negb andb orb].

(** Projections of a world that was just built. *)
Ltac world_simpl :=
  cbn [tasks session files gdrive jobs calls ticks fst snd
       with_tasks with_session with_files with_gdrive with_jobs with_calls
       with_ticks record_call] in *.

(** ** The table *)

Lemma find_task_id task_id rows t :
  find_task task_id rows = Some t → id t = task_id.
Proof.
  unfold find_task. intros H. apply List.find_some in H as [_ H]. lia.
Qed.

Lemma find_task_update_row_eq task_id rows t t' :
  find_task task_id rows = Some t → id t' = task_id →
  find_task task_id (update_row t' rows) = Some t'.
Proof.
  intros Hfind <-. induction rows as [|r rows IH]; [discriminate|].
  unfold find_task, update_row in *. cbn [List.find fmap list_fmap] in *.
  destruct (id r =? id t') eqn:Hr.
  - by rewrite Z.eqb_refl.
  - rewrite Hr. by apply IH.
Qed.

Lemma find_task_update_row_ne task_id rows t' :
  id t' ≠ task_id →
  find_task task_id (update_row t' rows) = find_task task_id rows.
Proof.
  intros Hid. induction rows as [|r rows IH]; [done|].
  unfold find_task, update_row in *. cbn [List.find fmap list_fmap] in *.
  destruct (id r =? id t') eqn:Hr.
  - apply Z.eqb_eq in Hr.
    assert ((id t' =? task_id) = false) as -> by lia.
    assert ((id r =? task_id) = false) as -> by lia. apply IH.
  - destruct (id r =? task_id); [done | apply IH].
Qed.

(** ** The guards of the handlers *)

Lemma print_file_task_FAILED e w task_id printer t :
  find_task task_id (tasks w) = Some t → status t = FAILED →
  print_file_task task_id printer e w = (inr (), with_session NoInstance w).
Proof.
  intros Hfind Hstatus. destruct w; cbn [tasks] in *.
  io_unfold. rewrite Hfind. io_unfold. by rewrite Hstatus.
Qed.

Lemma prepare_gdrive_download_task_FAILED e w task_id path t :
  find_task task_id (tasks w) = Some t → status t = FAILED →
  prepare_gdrive_download_task task_id path e w = (inr (), with_session NoInstance w).
Proof.
  intros Hfind Hstatus. destruct w; cbn [tasks] in *.
  io_unfold. rewrite Hfind. io_unfold. by rewrite Hstatus.
Qed.

Lemma print_file_task_DOWNLOADING e w task_id printer t :
  find_task task_id (tasks w) = Some t → status t = DOWNLOADING →
  print_file_task task_id printer e w =
  (inr (),
   with_session NoInstance
     (with_tasks
        (update_row
           (set_error_message
              (Some "Print task ran while file was still in downloading state or download failed to update status.")
              (set_status FAILED t))
           (tasks w)) w)).
Proof.
  intros Hfind Hstatus. destruct w; cbn [tasks] in *.
  io_unfold. rewrite Hfind. io_unfold. by rewrite Hstatus.
Qed.

(** ** What a handler fired for another task leaves alone

    While a handler works on the task it loaded, the row of a task with
    another id is out of its reach: the only writes to the table go through
    [db_commit], which writes the loaded instance back to the rows that carry
    its id. *)

Section other_task.
Variables (tid : Z) (t : Task).

Local Abbreviation kept := (kept tid t).
Local Abbreviation preserves := (preserves tid t).

Lemma preserves_ret {A} (a : A) : preserves (mret a).
Proof. by intros e w. Qed.

Lemma preserves_bind {A B} (m : IO A) (f : A → IO B) :
  preserves m → (∀ a, preserves (f a)) → preserves (m ≫= f).
Proof.
  intros Hm Hf e w Hw. rewrite run_bind.
  specialize (Hm e w Hw). destruct (m e w) as [[x|a] w']; [done|].
  by apply Hf.
Qed.

Lemma preserves_try_except {A} p (m : IO A) h :
  preserves m → (∀ x, preserves (h x)) → preserves (try_except p m h).
Proof.
  intros Hm Hh e w Hw. unfold try_except.
  specialize (Hm e w Hw). destruct (m e w) as [[x|a] w']; [|done].
  destruct (p x); [by apply Hh | done].
Qed.

Lemma preserves_try_finally {A} (m : IO A) f :
  preserves m → preserves f → preserves (try_finally m f).
Proof.
  intros Hm Hf e w Hw. unfold try_finally.
  specialize (Hm e w Hw). destruct (m e w) as [r w'].
  specialize (Hf e w' Hm). by destruct (f e w') as [[x|[]] w''].
Qed.

Lemma preserves_raise {A} c msg : preserves (raise (A:=A) c msg).
Proof. by intros e w. Qed.

(** Operations that touch neither the table nor the session. *)
Lemma preserves_frame {A} (m : IO A) :
  (∀ e w, tasks (m e w).2 = tasks w ∧ session (m e w).2 = session w) →
  preserves m.
Proof.
  intros H e w [Hfind Hsess]. destruct (H e w) as [Ht Hs].
  unfold kept, other_session. by rewrite Ht, Hs.
Qed.

Lemma preserves_task_set upd :
  (∀ t', id (upd t') = id t') → preserves (task_set upd).
Proof.
  intros Hupd e [rows sess fs gd js cs tk] [Hfind Hsess].
  unfold kept, other_session, task_set in *. world_simpl.
  destruct sess; world_simpl; [done..|]. by rewrite Hupd.
Qed.

Lemma preserves_db_commit : preserves db_commit.
Proof.
  intros e [rows sess fs gd js cs tk] [Hfind Hsess].
  unfold kept, other_session, db_commit in *. world_simpl.
  destruct sess; world_simpl; [done..|].
  by rewrite find_task_update_row_ne.
Qed.

Lemma preserves_db_close : preserves db_close.
Proof. by intros e [rows sess fs gd js cs tk] [Hfind Hsess]. Qed.

Lemma preserves_os_path_exists p : preserves (os_path_exists p).
Proof. by apply preserves_frame. Qed.

Lemma preserves_os_remove p : preserves (os_remove p).
Proof.
  apply preserves_frame. intros e w. unfold os_remove.
  destruct (files _ !! p); [destruct (os_remove_fault e p)|]; by destruct w.
Qed.

Lemma preserves_download_from_gdrive fid dest :
  preserves (download_from_gdrive fid dest).
Proof.
  apply preserves_frame. intros e w. destruct w, e. io_unfold.
  destruct gdrive_service0; io_unfold; [destruct (gdrive_get_media0 fid)|]; done.
Qed.

Lemma preserves_send_email a b c : preserves (send_email a b c).
Proof.
  apply preserves_frame. intros e w. destruct w, e. io_unfold.
  by destruct smtp_configured0.
Qed.

Lemma preserves_scheduler_remove_job k : preserves (scheduler_remove_job k).
Proof.
  apply preserves_frame. intros e w. destruct w, e. io_unfold.
  destruct (remove_job_fault0 k); [done|]. by destruct (jobs0 !! k).
Qed.

Lemma preserves_subprocess_run cmd : preserves (subprocess_run cmd).
Proof.
  apply preserves_frame. intros e w. destruct w, e. io_unfold.
  by destruct (lp0 cmd).
Qed.
End other_task.

Create HintDb preserves discriminated.
#[local] Hint Resolve preserves_ret preserves_raise preserves_db_commit
  preserves_db_close preserves_os_path_exists preserves_os_remove
  preserves_download_from_gdrive preserves_send_email
  preserves_scheduler_remove_job preserves_subprocess_run : preserves.

(** Walks through a handler body: sequencing, handlers of exceptions, and
    branches, down to the operations above. *)
Ltac preserves_step :=
  match goal with
  | |- preserves _ _ (_ ≫= _) => apply preserves_bind; [|intros ?]
  | |- preserves _ _ (try_except _ _ _) => apply preserves_try_except; [|intros ?]
  | |- preserves _ _ (try_finally _ _) => apply preserves_try_finally
  | |- preserves _ _ (task_set _) => apply preserves_task_set; by intros []
  | |- preserves _ _ (if ?b then _ else _) => destruct b
  | |- preserves _ _ (match ?x with _ => _ end) => destruct x
  | |- preserves _ _ _ => solve [auto with preserves]
  end.

Lemma preserves_mark_failed tid t msg : preserves tid t (mark_failed msg).
Proof. unfold mark_failed. repeat preserves_step. Qed.

#[local] Hint Resolve preserves_mark_failed : preserves.

Lemma preserves_print_resolved_file tid t task_id printer task path flag :
  preserves tid t (print_resolved_file task_id printer task path flag).
Proof. unfold print_resolved_file. repeat preserves_step. Qed.

#[local] Hint Resolve preserves_print_resolved_file : preserves.

(** After the query of a handler fired for [task_id], the row of another
    task [tid] is out of reach of the session. *)
Lemma kept_after_query tid t task_id e w :
  task_id ≠ tid → find_task tid (tasks w) = Some t →
  kept tid t (db_query_first task_id e w).2.
Proof.
  intros Hne Hfind. destruct w. unfold kept, other_session, db_query_first.
  world_simpl. split; [done|].
  destruct (find_task task_id tasks0) as [t'|] eqn:Ht'; [|done].
  by rewrite (find_task_id _ _ _ Ht').
Qed.

Lemma kept_bind tid t {A B} (m : IO A) (f : A → IO B) e w :
  kept tid t (m e w).2 → (∀ a, preserves tid t (f a)) →
  kept tid t ((m ≫= f) e w).2.
Proof.
  intros Hm Hf. rewrite run_bind.
  destruct (m e w) as [[x|a] w']; [done | by apply Hf].
Qed.

Lemma print_file_task_other tid t task_id printer e w :
  task_id ≠ tid → find_task tid (tasks w) = Some t →
  find_task tid (tasks (print_file_task task_id printer e w).2) = Some t.
Proof.
  intros Hne Hfind.
  enough (kept tid t (print_file_task task_id printer e w).2) as [H _] by done.
  unfold print_file_task. apply kept_bind; [by apply kept_after_query|].
  intros task. repeat preserves_step.
Qed.

Lemma prepare_gdrive_download_task_other tid t task_id path e w :
  task_id ≠ tid → find_task tid (tasks w) = Some t →
  find_task tid (tasks (prepare_gdrive_download_task task_id path e w).2) = Some t.
Proof.
  intros Hne Hfind.
  enough (kept tid t (prepare_gdrive_download_task task_id path e w).2)
    as [H _] by done.
  unfold prepare_gdrive_download_task.
  apply kept_bind; [by apply kept_after_query|].
  intros task. repeat preserves_step.
Qed.

(** ** Print handler on a finished task *)

(** C1, counterexample.  A COMPLETED task is not guarded: fired again on the
    completed LOCAL task 1, whose file is still on disk, the print handler
    runs [lp] a second time and, [lp] failing this time, turns the task from
    COMPLETED to FAILED. *)
Lemma print_file_task_reprints_completed_task :
  let e := ex_env true (inr 42) None None ex_lp_error in
  let w := ex_world COMPLETED SCHEDULED None in
  let r := print_file_task 1 (Some "HP") e w in
  find_task 1 (tasks w) = Some (ex_local_task COMPLETED) ∧
  calls w = [] ∧
  calls r.2 =
    [call_subprocess_run
       ["lp"; "-d"; "HP"; "-o"; "media=A4"; "-o"; "ColorModel=Gray";
        "uploads/local_a.pdf"]] ∧
  find_task 1 (tasks r.2) =
    Some (set_error_message (Some "out of paper")
            (set_status FAILED (ex_local_task COMPLETED))).
Proof. vm_compute. done. Qed.

(** C1, amended.  On a task whose status is already FAILED the print handler
    is a no-op: it returns without calling any collaborator (no sink
    invocation) and leaves the table, the files and the jobs as they were;
    only its own session is closed. *)
Theorem print_file_task_noop_on_failed e w task_id printer t :
  find_task task_id (tasks w) = Some t → status t = FAILED →
  (print_file_task task_id printer e w).1 = inr () ∧
  calls (print_file_task task_id printer e w).2 = calls w ∧
  tasks (print_file_task task_id printer e w).2 = tasks w ∧
  (print_file_task task_id printer e w).2 = with_session NoInstance w.
Proof.
  intros Hfind Hstatus.
  rewrite (print_file_task_FAILED e w task_id printer t Hfind Hstatus).
  by destruct w.
Qed.

Lemma print_file_task_noop_on_failed_witness :
  let e := ex_env_ok in
  let w := ex_world FAILED SCHEDULED None in
  (find_task 1 (tasks w) = Some (ex_local_task FAILED) ∧
   status (ex_local_task FAILED) = FAILED) ∧
  (print_file_task 1 (Some "HP") e w).2 = with_session NoInstance w.
Proof.
  split; [split; reflexivity|].
  apply (print_file_task_noop_on_failed ex_env_ok (ex_world FAILED SCHEDULED None)
           1 (Some "HP") (ex_local_task FAILED)); reflexivity.
Defined.

(** ** FAILED is terminal *)

(** C2.  Fired on a task whose status is FAILED, the download handler and the
    print handler both return at their guard and leave every row, file and
    job as it was.  Hence no sequence of handler firings, for this task or
    for others, with any arguments, changes any field of its record. *)
Theorem failed_task_is_never_resurrected e w task_id t :
  find_task task_id (tasks w) = Some t → status t = FAILED →
  (∀ path, prepare_gdrive_download_task task_id path e w
           = (inr (), with_session NoInstance w)) ∧
  (∀ printer, print_file_task task_id printer e w
              = (inr (), with_session NoInstance w)) ∧
  (∀ cs, find_task task_id (tasks (fire_all cs e w)) = Some t).
Proof.
  intros Hfind Hstatus. split_and!.
  - intros path. by apply prepare_gdrive_download_task_FAILED with t.
  - intros printer. by apply print_file_task_FAILED with t.
  - intros cs. revert w Hfind.
    induction cs as [|c cs IH]; intros w Hfind; [done|].
    cbn [fire_all]. apply IH. destruct c as [id' path|id' printer]; cbn [fire].
    + destruct (decide (id' = task_id)) as [->|Hne].
      * rewrite (prepare_gdrive_download_task_FAILED e w task_id path t) by done.
        by destruct w.
      * by apply prepare_gdrive_download_task_other.
    + destruct (decide (id' = task_id)) as [->|Hne].
      * rewrite (print_file_task_FAILED e w task_id printer t) by done.
        by destruct w.
      * by apply print_file_task_other.
Qed.

Lemma failed_task_is_never_resurrected_witness :
  let e := ex_env_ok in
  let w := ex_world SCHEDULED FAILED (Some ex_staged_path) in
  (find_task 2 (tasks w) = Some (ex_gdrive_task FAILED (Some ex_staged_path)) ∧
   status (ex_gdrive_task FAILED (Some ex_staged_path)) = FAILED) ∧
  find_task 2
    (tasks (fire_all
       [job_print_file_task 1 (Some "HP");
        job_prepare_gdrive_download_task 2 GDRIVE_DOWNLOAD_FULL_PATH;
        job_print_file_task 2 (Some "HP")] e w))
  = Some (ex_gdrive_task FAILED (Some ex_staged_path)).
Proof.
  split; [split; reflexivity|].
  apply (failed_task_is_never_resurrected ex_env_ok
           (ex_world SCHEDULED FAILED (Some ex_staged_path)) 2
           (ex_gdrive_task FAILED (Some ex_staged_path))); reflexivity.
Defined.

(** ** Print time reached while the download is in flight *)

(** C3.  Fired on a task whose status is DOWNLOADING, the print handler sets
    the status to FAILED and the error message to the text that says the
    print ran while the file was still downloading, commits both to the
    task's row, and returns: no collaborator is called, so the print sink is
    not invoked, and no file is touched. *)
Theorem print_file_task_fails_downloading_task e w task_id printer t :
  find_task task_id (tasks w) = Some t → status t = DOWNLOADING →
  (print_file_task task_id printer e w).1 = inr () ∧
  find_task task_id (tasks (print_file_task task_id printer e w).2)
    = Some (set_error_message (Some "Print task ran while file was still in downloading state or download failed to update status.")
              (set_status FAILED t)) ∧
  calls (print_file_task task_id printer e w).2 = calls w ∧
  files (print_file_task task_id printer e w).2 = files w ∧
  session (print_file_task task_id printer e w).2 = NoInstance.
Proof.
  intros Hfind Hstatus.
  rewrite (print_file_task_DOWNLOADING e w task_id printer t Hfind Hstatus).
  destruct w. world_simpl. split_and!; try done.
  apply find_task_update_row_eq with t; [done|].
  by apply find_task_id in Hfind.
Qed.

Lemma print_file_task_fails_downloading_task_witness :
  let e := ex_env_ok in
  let w := ex_world SCHEDULED DOWNLOADING None in
  (find_task 2 (tasks w) = Some (ex_gdrive_task DOWNLOADING None) ∧
   status (ex_gdrive_task DOWNLOADING None) = DOWNLOADING) ∧
  find_task 2 (tasks (print_file_task 2 (Some "HP") e w).2)
    = Some (set_error_message (Some "Print task ran while file was still in downloading state or download failed to update status.")
              (set_status FAILED (ex_gdrive_task DOWNLOADING None))).
Proof.
  split; [split; reflexivity|].
  apply (print_file_task_fails_downloading_task ex_env_ok
           (ex_world SCHEDULED DOWNLOADING None) 2 (Some "HP")
           (ex_gdrive_task DOWNLOADING None)); reflexivity.
Defined.

(** ** A failed download *)

Lemma TaskStatus_eqb_ne a b : a ≠ b → TaskStatus_eqb a b = false.
Proof. by destruct a, b. Qed.

(** Whether a download fails, and how, does not depend on the world. *)
Lemma download_from_gdrive_outcome file_id dest e w w' :
  (download_from_gdrive file_id dest e w).1 = (download_from_gdrive file_id dest e w').1.
Proof.
  destruct e, w, w'. io_unfold.
  destruct gdrive_service0; io_unfold; [destruct (gdrive_get_media0 file_id)|]; done.
Qed.

Lemma prepare_gdrive_download_task_download_fails e w task_id path t x :
  find_task task_id (tasks w) = Some t →
  status t ≠ FAILED → storage_type t = Some GDRIVE →
  let dest := os_path_join path ("task_" +:+ pretty (id t) +:+ "_" +:+ original_filename t) in
  let key := "print_task_" +:+ pretty (id t) in
  (download_from_gdrive (file_identifier t) dest e w).1 = inl x →
  prepare_gdrive_download_task task_id path e w =
  (match remove_job_fault e key with
   | Some msg => inl (mkExn OtherException msg)
   | None => inr ()
   end,
   mkWorld
     (update_row (set_error_message (Some (exn_str x)) (set_status FAILED t))
        (update_row (set_status DOWNLOADING t) (tasks w)))
     NoInstance
     (files (download_from_gdrive (file_identifier t) dest e w).2)
     (gdrive w)
     (match remove_job_fault e key with
      | Some _ => jobs w
      | None => delete key (jobs w)
      end)
     (calls w ++
      [call_download_from_gdrive (file_identifier t) dest;
       call_send_email (uploader_email t) ("Print Task Failed: " +:+ original_filename t)
         ("Hello," +:+ nl +:+ nl +:+ "The file '" +:+ original_filename t
          +:+ "' scheduled for printing could not be downloaded from Google Drive."
          +:+ nl +:+ "Error: " +:+ exn_str x +:+ nl +:+ nl
          +:+ "You may need to print this file manually." +:+ nl
          +:+ "Task ID: " +:+ pretty (id t));
       call_remove_job key])
     (ticks w)).
Proof.
  intros Hfind Hstatus Hstorage dest key Hdl. subst dest key.
  apply TaskStatus_eqb_ne in Hstatus.
  destruct e, w. cbn [tasks remove_job_fault files gdrive jobs calls ticks] in *.
  revert Hdl.
  io_unfold. rewrite Hfind. io_unfold. rewrite Hstatus, Hstorage.
  cbn [storage_is StorageType_eqb]. io_unfold.
  destruct gdrive_service0; io_unfold;
    [destruct (gdrive_get_media0 (file_identifier t))|];
    [|done|]; intros [= <-]; io_unfold.
  all: destruct smtp_configured0; io_unfold.
  all: destruct (remove_job_fault0 _) eqn:Hfault; io_unfold.
  all: try destruct (jobs0 !! _) eqn:Hjob; io_unfold.
  all: rewrite <- ?app_assoc; cbn [app]; try reflexivity.
  all: by rewrite (delete_id _ _ Hjob).
Qed.

(** C4.  When the remote fetch of a GDRIVE task that is not FAILED raises
    [x], the download handler commits status FAILED and error message
    [str(x)] to the task's row, calls [send_email] exactly once, to the
    uploader's address, with the file name, the error text and the task id,
    and calls [remove_job] exactly once, for the print job of this task.  The
    row is committed whatever [send_email] returns and whatever [remove_job]
    does: the job removed, no such job (tolerated), or another error (which
    leaves the handler after the commit). *)
Theorem download_failure_marks_failed_notifies_cancels e w task_id path t x :
  find_task task_id (tasks w) = Some t →
  status t ≠ FAILED → storage_type t = Some GDRIVE →
  let dest := os_path_join path ("task_" +:+ pretty (id t) +:+ "_" +:+ original_filename t) in
  let key := "print_task_" +:+ pretty (id t) in
  (download_from_gdrive (file_identifier t) dest e w).1 = inl x →
  let r := prepare_gdrive_download_task task_id path e w in
  find_task task_id (tasks r.2)
    = Some (set_error_message (Some (exn_str x)) (set_status FAILED t)) ∧
  calls r.2 = calls w ++
    [call_download_from_gdrive (file_identifier t) dest;
     call_send_email (uploader_email t) ("Print Task Failed: " +:+ original_filename t)
       ("Hello," +:+ nl +:+ nl +:+ "The file '" +:+ original_filename t
        +:+ "' scheduled for printing could not be downloaded from Google Drive."
        +:+ nl +:+ "Error: " +:+ exn_str x +:+ nl +:+ nl
        +:+ "You may need to print this file manually." +:+ nl
        +:+ "Task ID: " +:+ pretty (id t));
     call_remove_job key] ∧
  (remove_job_fault e key = None →
   r.1 = inr () ∧ jobs r.2 = delete key (jobs w) ∧ jobs r.2 !! key = None) ∧
  session r.2 = NoInstance.
Proof.
  intros Hfind Hstatus Hstorage dest key Hdl r. subst r.
  rewrite (prepare_gdrive_download_task_download_fails e w task_id path t x)
    by done.
  fold dest key. world_simpl. split_and!; try done.
  - pose proof (find_task_id _ _ _ Hfind) as Hid.
    apply find_task_update_row_eq with (set_status DOWNLOADING t); [|done].
    by apply find_task_update_row_eq with t.
  - intros ->. split_and!; try done. apply lookup_delete_eq.
Qed.

Lemma download_failure_marks_failed_notifies_cancels_witness :
  let e := ex_env true (inl "File not found: gid0") None None ex_lp_ok in
  let w := ex_world SCHEDULED SCHEDULED None in
  let t := ex_gdrive_task SCHEDULED None in
  let r := prepare_gdrive_download_task 2 GDRIVE_DOWNLOAD_FULL_PATH e w in
  (find_task 2 (tasks w) = Some t ∧ status t ≠ FAILED ∧
   storage_type t = Some GDRIVE ∧
   (download_from_gdrive "gid0" ex_staged_path e w).1
     = inl (mkExn OtherException "File not found: gid0")) ∧
  find_task 2 (tasks r.2)
    = Some (set_error_message (Some "File not found: gid0") (set_status FAILED t)) ∧
  jobs r.2 !! "print_task_2" = None.
Proof.
  split; [split_and!; done|].
  pose proof (download_failure_marks_failed_notifies_cancels
    (ex_env true (inl "File not found: gid0") None None ex_lp_ok)
    (ex_world SCHEDULED SCHEDULED None) 2 GDRIVE_DOWNLOAD_FULL_PATH
    (ex_gdrive_task SCHEDULED None)
    (mkExn OtherException "File not found: gid0")
    eq_refl ltac:(done) eq_refl eq_refl) as (Hrow & _ & Hjob & _).
  split; [exact Hrow | exact (proj2 (proj2 (Hjob eq_refl)))].
Defined.

(** ** Cleaning up the staged copy *)

Lemma exists_on_disk (fs : gmap string Z) p n :
  fs !! p = Some n → bool_decide (is_Some (fs !! p)) = true.
Proof. intros ->. by apply bool_decide_eq_true_2. Qed.

Lemma print_file_task_keeps_local_file e w task_id printer t :
  find_task task_id (tasks w) = Some t →
  storage_type t = Some LOCAL →
  files (print_file_task task_id printer e w).2 = files w ∧
  (calls (print_file_task task_id printer e w).2 = calls w ∨
   calls (print_file_task task_id printer e w).2 = calls w ++
     [call_subprocess_run
        (print_command_for (default "" printer) t (file_identifier t))]).
Proof.
  intros Hfind Hstorage. destruct e, w. cbn [tasks files calls] in *.
  io_unfold. rewrite Hfind. io_unfold.
  destruct (TaskStatus_eqb (status t) FAILED); [by auto|].
  destruct (TaskStatus_eqb (status t) DOWNLOADING); [by auto|].
  destruct (truthy_opt printer); io_unfold; [|by auto].
  rewrite Hstorage. io_unfold.
  destruct (bool_decide (is_Some (files0 !! file_identifier t)));
    io_unfold; [|by auto].
  destruct (lp0 _) as [x|p]; io_unfold; [by auto|].
  destruct (returncode p =? 0); io_unfold; by auto.
Qed.

Lemma print_file_task_cleans_staged_copy e w task_id printer t path :
  find_task task_id (tasks w) = Some t →
  status t ≠ FAILED → status t ≠ DOWNLOADING →
  truthy_opt printer = true →
  storage_type t = Some GDRIVE →
  gdrive_download_path t = Some path → truthy path = true →
  is_Some (files w !! path) →
  let r := print_file_task task_id printer e w in
  last (calls r.2) = Some (call_os_remove path) ∧
  match os_remove_fault e path with
  | None =>
    files r.2 = delete path (files w) ∧
    ∃ t', find_task task_id (tasks r.2) = Some t' ∧
          gdrive_download_path t' = None
  | Some _ =>
    files r.2 = files w ∧
    ∃ t', find_task task_id (tasks r.2) = Some t' ∧
          gdrive_download_path t' = Some path
  end.
Proof.
  intros Hfind Hs1 Hs2 Hprinter Hstorage Hpath Htruthy [n Hfile] r. subst r.
  apply TaskStatus_eqb_ne in Hs1, Hs2.
  pose proof (find_task_id _ _ _ Hfind) as Hid.
  pose proof (exists_on_disk _ _ _ Hfile) as Hexists.
  destruct e, w. cbn [tasks files calls os_remove_fault] in *.
  io_unfold. rewrite Hfind. io_unfold.
  rewrite Hs1, Hs2, Hprinter, Hstorage, Hpath.
  cbn [truthy_opt default from_option Datatypes.id].
  rewrite Htruthy. io_unfold. rewrite Hexists. io_unfold. rewrite Hexists. io_unfold.
  destruct (lp0 _) as [x|p]; io_unfold.
  2: destruct (returncode p =? 0); io_unfold.
  all: rewrite Hexists; io_unfold; rewrite Hfile; io_unfold.
  all: destruct (os_remove_fault0 path); io_unfold.
  all: split; [apply last_snoc|]; split; [done|]; eexists; split;
    [repeat (eapply find_task_update_row_eq; [|exact Hid]); exact Hfind|done].
Qed.

(** C8, counterexample.  The staged copy of GDRIVE task 2 is on disk and is
    the file the handler resolves; [lp] succeeds and the task is COMPLETED,
    but [os.remove] raises.  The handler only logs that: the staged copy is
    still on disk and [gdrive_download_path] is still set. *)
Lemma print_file_task_keeps_staged_copy_when_remove_fails :
  let e := ex_env true (inr 42) None (Some "Permission denied") ex_lp_ok in
  let w := ex_world SCHEDULED SCHEDULED (Some ex_staged_path) in
  let r := print_file_task 2 (Some "HP") e w in
  find_task 2 (tasks w) = Some (ex_gdrive_task SCHEDULED (Some ex_staged_path)) ∧
  files w !! ex_staged_path = Some 6000000 ∧
  calls r.2 =
    [call_subprocess_run
       ["lp"; "-d"; "HP"; "-o"; "media=A4"; "-o"; "ColorModel=CMYK"; ex_staged_path];
     call_os_remove ex_staged_path] ∧
  files r.2 !! ex_staged_path = Some 6000000 ∧
  find_task 2 (tasks r.2) = Some (ex_gdrive_task COMPLETED (Some ex_staged_path)).
Proof. vm_compute. done. Qed.

(** C8, amended.  Whenever the file the print handler resolved is the staged
    copy of a GDRIVE task, the handler ends by calling [os.remove] on it,
    whether the sink succeeded, failed or raised.  If the removal succeeds the
    copy is gone from disk and the committed row has [gdrive_download_path]
    cleared; if the removal raises, the error is logged, the copy stays and
    [gdrive_download_path] stays set.  On a LOCAL task the handler removes no
    file: the files on disk are as before and the only call it may make is to
    the sink. *)
Theorem print_file_task_staged_copy_cleanup :
  (∀ e w task_id printer t path,
     find_task task_id (tasks w) = Some t →
     status t ≠ FAILED → status t ≠ DOWNLOADING →
     truthy_opt printer = true →
     storage_type t = Some GDRIVE →
     gdrive_download_path t = Some path → truthy path = true →
     is_Some (files w !! path) →
     last (calls (print_file_task task_id printer e w).2)
       = Some (call_os_remove path) ∧
     match os_remove_fault e path with
     | None =>
       files (print_file_task task_id printer e w).2 = delete path (files w) ∧
       ∃ t', find_task task_id (tasks (print_file_task task_id printer e w).2)
               = Some t' ∧
             gdrive_download_path t' = None
     | Some _ =>
       files (print_file_task task_id printer e w).2 = files w ∧
       ∃ t', find_task task_id (tasks (print_file_task task_id printer e w).2)
               = Some t' ∧
             gdrive_download_path t' = Some path
     end) ∧
  (∀ e w task_id printer t,
     find_task task_id (tasks w) = Some t →
     storage_type t = Some LOCAL →
     files (print_file_task task_id printer e w).2 = files w ∧
     (calls (print_file_task task_id printer e w).2 = calls w ∨
      calls (print_file_task task_id printer e w).2 = calls w ++
        [call_subprocess_run
           (print_command_for (default "" printer) t (file_identifier t))])).
Proof.
  split.
  - intros e w task_id printer t path. intros.
    by apply (print_file_task_cleans_staged_copy e w task_id printer t path).
  - intros e w task_id printer t. intros.
    by apply (print_file_task_keeps_local_file e w task_id printer t).
Qed.

Lemma print_file_task_staged_copy_cleanup_witness :
  let e := ex_env true (inr 42) None None ex_lp_error in
  let w := ex_world SCHEDULED SCHEDULED (Some ex_staged_path) in
  let t2 := ex_gdrive_task SCHEDULED (Some ex_staged_path) in
  (find_task 2 (tasks w) = Some t2 ∧
   status t2 ≠ FAILED ∧ status t2 ≠ DOWNLOADING ∧
   truthy_opt (Some "HP") = true ∧ storage_type t2 = Some GDRIVE ∧
   gdrive_download_path t2 = Some ex_staged_path ∧
   truthy ex_staged_path = true ∧
   is_Some (files w !! ex_staged_path) ∧
   find_task 1 (tasks w) = Some (ex_local_task SCHEDULED) ∧
   storage_type (ex_local_task SCHEDULED) = Some LOCAL) ∧
  files (print_file_task 2 (Some "HP") e w).2 = delete ex_staged_path (files w) ∧
  files (print_file_task 1 (Some "HP") e w).2 = files w.
Proof.
  split; [split_and!; try done; by eexists|].
  split.
  - refine (proj1 (proj2 (proj1 print_file_task_staged_copy_cleanup
      (ex_env true (inr 42) None None ex_lp_error)
      (ex_world SCHEDULED SCHEDULED (Some ex_staged_path)) 2 (Some "HP")
      (ex_gdrive_task SCHEDULED (Some ex_staged_path)) ex_staged_path
      eq_refl _ _ eq_refl eq_refl eq_refl eq_refl _))); [done|done|by eexists].
  - refine (proj1 (proj2 print_file_task_staged_copy_cleanup
      (ex_env true (inr 42) None None ex_lp_error)
      (ex_world SCHEDULED SCHEDULED (Some ex_staged_path)) 1 (Some "HP")
      (ex_local_task SCHEDULED) eq_refl eq_refl)).
Defined.

(** ** Submissions *)

Lemma find_task_app_fresh k rows t' :
  (∀ r, r ∈ rows → id r < k) → id t' = k →
  find_task k (rows ++ [t']) = Some t'.
Proof.
  intros Hlt Hid. induction rows as [|r rows IH]; unfold find_task in *; cbn.
  - by rewrite Hid, Z.eqb_refl.
  - assert (id r < k) by (apply Hlt; by left).
    assert ((id r =? k) = false) as -> by lia.
    apply IH. intros r' Hr'. apply Hlt. by right.
Qed.

Lemma id_lt_next_rowid rows r : r ∈ rows → id r < next_rowid rows.
Proof.
  unfold next_rowid. induction rows as [|r' rows IH]; [by intros ?%elem_of_nil|].
  intros [->|Hr]%elem_of_cons; cbn; [lia|]. specialize (IH Hr). lia.
Qed.

Lemma find_task_inserted rows t' :
  id t' = next_rowid rows → find_task (id t') (rows ++ [t']) = Some t'.
Proof.
  intros Hid. apply find_task_app_fresh; [|done].
  intros r Hr. rewrite Hid. by apply id_lt_next_rowid.
Qed.

Ltac stuck_scrutinee x :=
  lazymatch x with
  | context [match _ with _ => _ end] => fail
  | _ => idtac
  end.

Ltac io_case :=
  match goal with
  | |- context [match ?x with _ => _ end] =>
    stuck_scrutinee x; destruct x eqn:?
  end.

Ltac io_reject := repeat (io_unfold; io_case); io_unfold; discriminate.


Lemma add_task_small_inv file ts c p u e w resp w' :
  content_length file <= MAX_FILE_SIZE_BYTES →
  add_task file ts c p u e w = (inr resp, w') →
  (timedelta_seconds ts <=? clock e (S (S (ticks w))) + timedelta_minutes 1) = false ∧
  resp_task_id resp = next_rowid (tasks w) ∧
  tasks w' = tasks w ++
    [inserted_row e w file ts c p u LOCAL (local_path e w file)] ∧
  files w' = <[local_path e w file := content_length file]>
               (delete (temp_path e w file)
                  (<[temp_path e w file := content_length file]> (files w))) ∧
  gdrive w' = gdrive w ∧
  jobs w' = <["print_task_" +:+ pretty (next_rowid (tasks w)) := print_job_of e w ts]>
              (jobs w) ∧
  calls w' = calls w ++
    [call_add_job ("print_task_" +:+ pretty (next_rowid (tasks w)))
       (print_job_of e w ts)].
Proof.
  intros Hsize Hrun. revert Hrun.
  unfold temp_path, local_path, inserted_row, print_job_of.
  destruct e, w.
  cbn [tasks files calls gdrive jobs PRINTER_NAME ticks clock timestamp_repr db_import_time].
  io_unfold.
  destruct (negb (_ || _)); [io_reject|].
  destruct (negb (truthy u)); [io_reject|].
  io_unfold. rewrite lookup_insert_eq. io_unfold.
  assert ((MAX_FILE_SIZE_BYTES <? content_length file) = false) as -> by lia.
  io_unfold. rewrite lookup_insert_eq. io_unfold.
  destruct ((MIN_TIMESTAMP <=? ts) && (ts <=? MAX_TIMESTAMP)) eqn:Hrange;
    [|io_reject].
  io_unfold.
  destruct (timedelta_seconds ts <=? _) eqn:Hnear; [io_reject|].
  io_unfold. rewrite find_task_inserted by reflexivity. io_unfold.
  cbn [storage_is storage_type set_created_at set_id StorageType_eqb]. io_unfold.
  intros [= <- <-]. done.
Qed.

Lemma add_task_large_inv file ts c p u e w resp w' :
  MAX_FILE_SIZE_BYTES < content_length file →
  add_task file ts c p u e w = (inr resp, w') →
  ∃ gdrive_file_id,
  let download_time :=
    clamped_download_time (timedelta_seconds ts)
      (clock e (S (S (ticks w)))) (clock e (S (S (S (ticks w))))) in
  gdrive_service e = true ∧ is_Some (GDRIVE_FOLDER_ID e) ∧
  gdrive_create e (temp_path e w file) (filename file) = inr gdrive_file_id ∧
  (timedelta_seconds ts <=? clock e (S (ticks w)) + timedelta_minutes 1) = false ∧
  resp_task_id resp = next_rowid (tasks w) ∧
  tasks w' = tasks w ++
    [inserted_row e w file ts c p u GDRIVE gdrive_file_id] ∧
  files w' = delete (temp_path e w file)
               (<[temp_path e w file := content_length file]> (files w)) ∧
  gdrive w' = {[gdrive_file_id]} ∪ gdrive w ∧
  jobs w' =
    <["print_task_" +:+ pretty (next_rowid (tasks w)) := print_job_of e w ts]>
      (<["download_task_" +:+ pretty (next_rowid (tasks w))
         := download_job_of w download_time]> (jobs w)) ∧
  calls w' = calls w ++
    [call_upload_to_gdrive (temp_path e w file) (filename file);
     call_os_remove (temp_path e w file);
     call_add_job ("download_task_" +:+ pretty (next_rowid (tasks w)))
       (download_job_of w download_time);
     call_add_job ("print_task_" +:+ pretty (next_rowid (tasks w)))
       (print_job_of e w ts)].
Proof.
  intros Hsize Hrun. revert Hrun.
  unfold temp_path, inserted_row, print_job_of, download_job_of,
    clamped_download_time.
  destruct e, w.
  cbn [tasks files calls gdrive jobs PRINTER_NAME ticks clock timestamp_repr
       db_import_time gdrive_service GDRIVE_FOLDER_ID gdrive_create].
  io_unfold.
  destruct (negb (_ || _)); [io_reject|].
  destruct (negb (truthy u)); [io_reject|].
  io_unfold. rewrite lookup_insert_eq. io_unfold.
  assert ((MAX_FILE_SIZE_BYTES <? content_length file) = true) as -> by lia.
  io_unfold.
  destruct gdrive_service0; [|io_reject].
  destruct (bool_decide (is_Some GDRIVE_FOLDER_ID0)) eqn:Hfolder; [|io_reject].
  io_unfold.
  destruct (negb (truthy_opt GDRIVE_FOLDER_ID0)); [io_reject|].
  io_unfold.
  destruct (gdrive_create0 _ _) as [msg|gid] eqn:Hcreate; [io_reject|].
  io_unfold. rewrite lookup_insert_eq. io_unfold.
  destruct (os_remove_fault0 _) eqn:Hfault; [io_reject|].
  io_unfold.
  destruct ((MIN_TIMESTAMP <=? ts) && (ts <=? MAX_TIMESTAMP)) eqn:Hrange;
    [|io_reject].
  io_unfold.
  destruct (timedelta_seconds ts <=? _) eqn:Hnear; [io_reject|].
  io_unfold. rewrite find_task_inserted by reflexivity. io_unfold.
  cbn [storage_is storage_type set_created_at set_id StorageType_eqb]. io_unfold.
  destruct (timedelta_seconds ts - timedelta_minutes 10 <=? _) eqn:Hclamp;
    io_unfold; intros [= <- <-]; exists gid; cbn zeta; rewrite ?Hclamp;
    apply bool_decide_eq_true_1 in Hfolder;
    rewrite <- ?app_assoc; done.
Qed.

Lemma temp_path_ne_local_path e w file : temp_path e w file ≠ local_path e w file.
Proof. unfold temp_path, local_path. cbn. intros [=]. Qed.

Lemma registered_jobs_app cs cs' :
  registered_jobs (cs ++ cs') = registered_jobs cs ++ registered_jobs cs'.
Proof. apply omap_app. Qed.

(** C9.  An accepted submission whose file is at most [MAX_FILE_SIZE_BYTES]
    long inserts one task with storage type LOCAL; the uploaded bytes end up
    under the permanent local name, which the task records as its file
    identifier, and the temporary name is gone; exactly one job is registered
    for the task, its print job, to run at the requested print time. *)
Theorem small_file_is_kept_locally_with_one_print_job
    file ts c p u e w resp w' :
  content_length file <= MAX_FILE_SIZE_BYTES →
  add_task file ts c p u e w = (inr resp, w') →
  ∃ new_task,
    tasks w' = tasks w ++ [new_task] ∧
    find_task (resp_task_id resp) (tasks w') = Some new_task ∧
    storage_type new_task = Some LOCAL ∧
    file_identifier new_task = local_path e w file ∧
    files w' !! local_path e w file = Some (content_length file) ∧
    files w' !! temp_path e w file = None ∧
    registered_jobs (calls w') = registered_jobs (calls w) ++
      [("print_task_" +:+ pretty (id new_task),
        mkJob (job_print_file_task (id new_task) (PRINTER_NAME e))
          (time_to_print new_task))] ∧
    time_to_print new_task = timedelta_seconds ts.
Proof.
  intros Hsize Hrun.
  destruct (add_task_small_inv _ _ _ _ _ _ _ _ _ Hsize Hrun)
    as (_ & Hid & Htasks & Hfiles & _ & _ & Hcalls).
  eexists. split; [exact Htasks|].
  rewrite Hid, Htasks, Hfiles, Hcalls, registered_jobs_app.
  split_and!; try done.
  - by apply (find_task_inserted (tasks w)
      (inserted_row e w file ts c p u LOCAL (local_path e w file))).
  - apply lookup_insert_eq.
  - rewrite lookup_insert_ne by (apply not_eq_sym, temp_path_ne_local_path).
    apply lookup_delete_eq.
Qed.

Lemma small_file_is_kept_locally_with_one_print_job_witness :
  let w := ex_world SCHEDULED SCHEDULED None in
  let r := add_task ex_small_file 1700000600 "bw" "A4" "u@x.org" ex_env_ok w in
  (content_length ex_small_file <= MAX_FILE_SIZE_BYTES ∧
   r = (inr ex_small_response, r.2)) ∧
  ∃ new_task,
    tasks r.2 = tasks w ++ [new_task] ∧
    storage_type new_task = Some LOCAL ∧
    registered_jobs (calls r.2) = registered_jobs (calls w) ++
      [("print_task_" +:+ pretty (id new_task),
        mkJob (job_print_file_task (id new_task) (Some "HP"))
          (time_to_print new_task))].
Proof.
  assert (content_length ex_small_file <= MAX_FILE_SIZE_BYTES) as Hsize
    by (vm_compute; discriminate).
  assert (add_task ex_small_file 1700000600 "bw" "A4" "u@x.org" ex_env_ok
            (ex_world SCHEDULED SCHEDULED None)
          = (inr ex_small_response,
             (add_task ex_small_file 1700000600 "bw" "A4" "u@x.org" ex_env_ok
                (ex_world SCHEDULED SCHEDULED None)).2)) as Hrun
    by (vm_compute; reflexivity).
  split; [exact (conj Hsize Hrun)|].
  destruct (small_file_is_kept_locally_with_one_print_job _ _ _ _ _ _ _ _ _
              Hsize Hrun) as (new_task & Htasks & _ & Hkind & _ & _ & _ & Hjobs & _).
  exists new_task. exact (conj Htasks (conj Hkind Hjobs)).
Defined.

(** C5.  An accepted submission whose file is longer than
    [MAX_FILE_SIZE_BYTES] found Google Drive available and uploaded the file;
    it inserts one task with storage type GDRIVE and registers exactly two
    jobs for it, the download job first and the print job second.  The print
    job runs at the requested print time.  The download job runs ten minutes
    earlier if that instant is after the clock reading taken for the
    comparison, and otherwise five seconds after the next clock reading. *)
Theorem large_file_is_kept_remotely_with_download_and_print_jobs
    file ts c p u e w resp w' :
  MAX_FILE_SIZE_BYTES < content_length file →
  add_task file ts c p u e w = (inr resp, w') →
  ∃ new_task download_time,
    (gdrive_service e = true ∧ is_Some (GDRIVE_FOLDER_ID e)) ∧
    tasks w' = tasks w ++ [new_task] ∧
    find_task (resp_task_id resp) (tasks w') = Some new_task ∧
    storage_type new_task = Some GDRIVE ∧
    file_identifier new_task ∈ gdrive w' ∧
    time_to_print new_task = timedelta_seconds ts ∧
    registered_jobs (calls w') = registered_jobs (calls w) ++
      [("download_task_" +:+ pretty (id new_task),
        mkJob (job_prepare_gdrive_download_task (id new_task)
                 GDRIVE_DOWNLOAD_FULL_PATH) download_time);
       ("print_task_" +:+ pretty (id new_task),
        mkJob (job_print_file_task (id new_task) (PRINTER_NAME e))
          (time_to_print new_task))] ∧
    (clock e (S (S (ticks w))) < time_to_print new_task - timedelta_minutes 10 ∧
     download_time = time_to_print new_task - timedelta_minutes 10
     ∨
     time_to_print new_task - timedelta_minutes 10 <= clock e (S (S (ticks w))) ∧
     download_time = clock e (S (S (S (ticks w)))) + timedelta_seconds 5).
Proof.
  intros Hsize Hrun.
  destruct (add_task_large_inv _ _ _ _ _ _ _ _ _ Hsize Hrun)
    as (gid & Hservice & Hfolder & _ & _ & Hid & Htasks & _ & Hgdrive & _ & Hcalls).
  eexists _, _. split; [done|]. split; [exact Htasks|].
  rewrite Hid, Htasks, Hgdrive, Hcalls, registered_jobs_app.
  split_and!; try done.
  - by apply (find_task_inserted (tasks w)
      (inserted_row e w file ts c p u GDRIVE gid)).
  - cbn [file_identifier inserted_row]. apply elem_of_union. left.
    by apply elem_of_singleton.
  - unfold clamped_download_time. cbn [time_to_print inserted_row].
    case_match; [right | left]; split; try done; lia.
Qed.

Lemma large_file_is_kept_remotely_with_download_and_print_jobs_witness :
  let e := ex_env_ok in
  let w := ex_world SCHEDULED SCHEDULED None in
  let r := add_task ex_large_file 1700000600 "bw" "A4" "u@x.org" e w in
  (MAX_FILE_SIZE_BYTES < content_length ex_large_file ∧
   r = (inr ex_large_response, r.2)) ∧
  ∃ new_task download_time,
    tasks r.2 = tasks w ++ [new_task] ∧
    storage_type new_task = Some GDRIVE ∧
    registered_jobs (calls r.2) = registered_jobs (calls w) ++
      [("download_task_" +:+ pretty (id new_task),
        mkJob (job_prepare_gdrive_download_task (id new_task)
                 GDRIVE_DOWNLOAD_FULL_PATH) download_time);
       ("print_task_" +:+ pretty (id new_task),
        mkJob (job_print_file_task (id new_task) (Some "HP"))
          (time_to_print new_task))].
Proof.
  assert (MAX_FILE_SIZE_BYTES < content_length ex_large_file) as Hsize
    by (vm_compute; reflexivity).
  assert (add_task ex_large_file 1700000600 "bw" "A4" "u@x.org" ex_env_ok
            (ex_world SCHEDULED SCHEDULED None)
          = (inr ex_large_response,
             (add_task ex_large_file 1700000600 "bw" "A4" "u@x.org" ex_env_ok
                (ex_world SCHEDULED SCHEDULED None)).2)) as Hrun
    by (vm_compute; reflexivity).
  split; [exact (conj Hsize Hrun)|].
  destruct (large_file_is_kept_remotely_with_download_and_print_jobs
              _ _ _ _ _ _ _ _ _ Hsize Hrun)
    as (new_task & download_time & _ & Htasks & _ & Hkind & _ & _ & Hjobs & _).
  exists new_task, download_time. exact (conj Htasks (conj Hkind Hjobs)).
Defined.

(** C10.  A submission of a file longer than [MAX_FILE_SIZE_BYTES] whose
    upload to Google Drive succeeded, and whose print time is then refused
    (not a valid timestamp, or not more than one minute ahead), is answered
    with a 400 error and creates neither a task nor a job.  The only removal
    it performs is that of the temporary local file: the object it uploaded
    stays in Google Drive, together with everything that was there. *)
Theorem rejected_large_submission_leaves_remote_object
    file ts c p u e w gdrive_file_id :
  c = "color" ∨ c = "bw" → truthy u = true →
  MAX_FILE_SIZE_BYTES < content_length file →
  gdrive_service e = true → truthy_opt (GDRIVE_FOLDER_ID e) = true →
  gdrive_create e (temp_path e w file) (filename file) = inr gdrive_file_id →
  os_remove_fault e (temp_path e w file) = None →
  ((MIN_TIMESTAMP <=? ts) && (ts <=? MAX_TIMESTAMP) = false ∧
   platform_gmtime e ts = true
   ∨
   (MIN_TIMESTAMP <=? ts) && (ts <=? MAX_TIMESTAMP) = true ∧
   timedelta_seconds ts <= clock e (S (ticks w)) + timedelta_minutes 1) →
  (∃ detail, (add_task file ts c p u e w).1
             = inl (mkExn (HTTPException 400) detail)) ∧
  tasks (add_task file ts c p u e w).2 = tasks w ∧
  jobs (add_task file ts c p u e w).2 = jobs w ∧
  gdrive (add_task file ts c p u e w).2 = {[gdrive_file_id]} ∪ gdrive w ∧
  gdrive_file_id ∈ gdrive (add_task file ts c p u e w).2 ∧
  calls (add_task file ts c p u e w).2 = calls w ++
    [call_upload_to_gdrive (temp_path e w file) (filename file);
     call_os_remove (temp_path e w file)] ∧
  files (add_task file ts c p u e w).2
    = delete (temp_path e w file)
        (<[temp_path e w file := content_length file]> (files w)).
Proof.
  intros Hcolor Hemail Hsize Hservice Hfolder Hcreate Hfault Htime.
  assert (String.eqb c "color" || String.eqb c "bw" = true) as Hc
    by (by destruct Hcolor as [-> | ->]).
  assert (bool_decide (is_Some (GDRIVE_FOLDER_ID e)) = true) as Hsome.
  { apply bool_decide_eq_true_2. by destruct (GDRIVE_FOLDER_ID e). }
  revert Hcreate Hfault Htime. unfold temp_path.
  destruct e, w.
  cbn [tasks files calls gdrive jobs ticks clock timestamp_repr gdrive_service
       GDRIVE_FOLDER_ID gdrive_create os_remove_fault platform_gmtime] in *.
  intros Hcreate Hfault Htime. subst gdrive_service0.
  io_unfold. rewrite Hc, Hemail. io_unfold. rewrite lookup_insert_eq. io_unfold.
  assert ((MAX_FILE_SIZE_BYTES <? content_length file) = true) as -> by lia.
  rewrite Hsome. io_unfold. rewrite Hfolder. io_unfold.
  rewrite Hcreate. io_unfold. rewrite lookup_insert_eq, Hfault. io_unfold.
  destruct Htime as [[-> Hgm] | [-> Hnear]]; io_unfold.
  - rewrite Hgm. io_unfold. cbn [StorageType_eqb andb]. io_unfold.
    rewrite <- app_assoc. split_and!; eauto.
    apply elem_of_union. left. by apply elem_of_singleton.
  - assert ((timedelta_seconds ts <=? clock0 (S ticks0) + timedelta_minutes 1) = true)
      as -> by lia.
    io_unfold. cbn [StorageType_eqb andb]. io_unfold.
    rewrite <- app_assoc. split_and!; eauto.
    apply elem_of_union. left. by apply elem_of_singleton.
Qed.

Lemma rejected_large_submission_leaves_remote_object_witness :
  let e := ex_env_ok in
  let w := ex_world SCHEDULED SCHEDULED None in
  let ts := 1700000030 in
  let r := add_task ex_large_file ts "bw" "A4" "u@x.org" e w in
  (("bw" = "color" ∨ "bw" = "bw") ∧ truthy "u@x.org" = true ∧
   MAX_FILE_SIZE_BYTES < content_length ex_large_file ∧
   gdrive_service e = true ∧ truthy_opt (GDRIVE_FOLDER_ID e) = true ∧
   gdrive_create e (temp_path e w ex_large_file) (filename ex_large_file)
     = inr "gid1" ∧
   os_remove_fault e (temp_path e w ex_large_file) = None ∧
   (MIN_TIMESTAMP <=? ts) && (ts <=? MAX_TIMESTAMP) = true ∧
   timedelta_seconds ts <= clock e (S (ticks w)) + timedelta_minutes 1) ∧
  tasks r.2 = tasks w ∧ "gid1" ∈ gdrive r.2.
Proof.
  assert (MAX_FILE_SIZE_BYTES < content_length ex_large_file) as Hsize
    by (vm_compute; reflexivity).
  assert (timedelta_seconds 1700000030
          <= clock ex_env_ok (S (ticks (ex_world SCHEDULED SCHEDULED None)))
             + timedelta_minutes 1) as Hnear
    by (vm_compute; discriminate).
  split.
  { exact (conj (or_intror eq_refl) (conj eq_refl (conj Hsize (conj eq_refl
      (conj eq_refl (conj eq_refl (conj eq_refl (conj eq_refl Hnear)))))))). }
  destruct (rejected_large_submission_leaves_remote_object ex_large_file
              1700000030 "bw" "A4" "u@x.org" ex_env_ok
              (ex_world SCHEDULED SCHEDULED None) "gid1"
              (or_intror eq_refl) eq_refl Hsize eq_refl eq_refl eq_refl eq_refl
              (or_intror (conj eq_refl Hnear)))
    as (_ & Htasks & _ & _ & Hin & _).
  exact (conj Htasks Hin).
Defined.

Lemma bool_decide_is_Some_Some {A} (x : A) : bool_decide (is_Some (Some x)) = true.
Proof. by apply bool_decide_eq_true_2. Qed.

(** What the check of [add_task] lets through: a print time strictly more
    than one minute after the clock reading taken for the check (the second
    reading for a file sent to Google Drive, the third for a local file). *)
Lemma accepted_print_time_is_more_than_one_minute_ahead
    file ts c p u e w resp w' :
  add_task file ts c p u e w = (inr resp, w') →
  ∃ n, (n = S (ticks w) ∨ n = S (S (ticks w))) ∧
       clock e n + timedelta_minutes 1 < timedelta_seconds ts.
Proof.
  intros Hrun.
  destruct (Z.le_gt_cases (content_length file) MAX_FILE_SIZE_BYTES) as [Hsize|Hsize].
  - destruct (add_task_small_inv _ _ _ _ _ _ _ _ _ Hsize Hrun) as (Hnear & _).
    exists (S (S (ticks w))). split; [by right | lia].
  - destruct (add_task_large_inv _ _ _ _ _ _ _ _ _ Hsize Hrun)
      as (gid & _ & _ & _ & Hnear & _).
    exists (S (ticks w)). split; [by left | lia].
Qed.

(** C7, the code at the boundary.  A submission that is valid in every other
    respect and whose print time is exactly one minute after the clock
    reading of the check is refused: the answer is the 400 error whose text
    asks for a time at least one minute ahead, and no task is created. *)
Theorem print_time_exactly_one_minute_ahead_is_rejected file ts c p u e w :
  c = "color" ∨ c = "bw" → truthy u = true →
  content_length file <= MAX_FILE_SIZE_BYTES →
  (MIN_TIMESTAMP <=? ts) && (ts <=? MAX_TIMESTAMP) = true →
  os_remove_fault e (local_path e w file) = None →
  timedelta_seconds ts = clock e (S (S (ticks w))) + timedelta_minutes 1 →
  (add_task file ts c p u e w).1
    = inl (mkExn (HTTPException 400)
             "time_to_print must be in the future (at least 1 minute ahead).") ∧
  tasks (add_task file ts c p u e w).2 = tasks w ∧
  jobs (add_task file ts c p u e w).2 = jobs w.
Proof.
  intros Hcolor Hemail Hsize Hrange Hfault Htime.
  assert (String.eqb c "color" || String.eqb c "bw" = true) as Hc
    by (by destruct Hcolor as [-> | ->]).
  revert Hfault Htime. unfold local_path.
  destruct e, w.
  cbn [tasks jobs ticks clock timestamp_repr os_remove_fault] in *.
  intros Hfault Htime.
  io_unfold. rewrite Hc, Hemail. io_unfold. rewrite lookup_insert_eq. io_unfold.
  assert ((MAX_FILE_SIZE_BYTES <? content_length file) = false) as -> by lia.
  io_unfold. rewrite lookup_insert_eq. io_unfold. rewrite Hrange. io_unfold.
  assert ((timedelta_seconds ts <=? clock0 (S (S ticks0)) + timedelta_minutes 1) = true)
    as -> by lia.
  io_unfold. rewrite lookup_insert_eq, bool_decide_is_Some_Some.
  cbn [StorageType_eqb andb]. io_unfold. rewrite lookup_insert_eq, Hfault.
  io_unfold. done.
Qed.

Lemma print_time_exactly_one_minute_ahead_is_rejected_witness :
  let e := ex_env_third_reading_sharp in
  let w := ex_world SCHEDULED SCHEDULED None in
  let ts := 1700000060 in
  (("bw" = "color" ∨ "bw" = "bw") ∧ truthy "u@x.org" = true ∧
   content_length ex_small_file <= MAX_FILE_SIZE_BYTES ∧
   (MIN_TIMESTAMP <=? ts) && (ts <=? MAX_TIMESTAMP) = true ∧
   os_remove_fault e (local_path e w ex_small_file) = None ∧
   timedelta_seconds ts = clock e (S (S (ticks w))) + timedelta_minutes 1) ∧
  (add_task ex_small_file ts "bw" "A4" "u@x.org" e w).1
    = inl (mkExn (HTTPException 400)
             "time_to_print must be in the future (at least 1 minute ahead).") ∧
  tasks (add_task ex_small_file ts "bw" "A4" "u@x.org" e w).2 = tasks w.
Proof.
  assert (content_length ex_small_file <= MAX_FILE_SIZE_BYTES) as Hsize
    by (vm_compute; discriminate).
  split; [split_and!; by auto|].
  destruct (print_time_exactly_one_minute_ahead_is_rejected ex_small_file
              1700000060 "bw" "A4" "u@x.org" ex_env_third_reading_sharp
              (ex_world SCHEDULED SCHEDULED None)
              (or_intror eq_refl) eq_refl Hsize eq_refl eq_refl eq_refl)
    as (Hout & Htasks & _).
  by split.
Defined.

(** ** The creation time of a task *)

Lemma find_task_app_l k rows rows' r :
  find_task k rows = Some r → find_task k (rows ++ rows') = Some r.
Proof.
  unfold find_task. induction rows as [|r' rows IH]; [done|]. cbn.
  destruct (id r' =? k); [done | apply IH].
Qed.

Lemma add_task_accepted_row file ts c p u e w resp w' :
  add_task file ts c p u e w = (inr resp, w') →
  ∃ row, tasks w' = tasks w ++ [row] ∧
         id row = next_rowid (tasks w) ∧ resp_task_id resp = id row ∧
         created_at row = Some (db_import_time e).
Proof.
  intros Hrun.
  destruct (Z.le_gt_cases (content_length file) MAX_FILE_SIZE_BYTES) as [Hsize|Hsize].
  - destruct (add_task_small_inv _ _ _ _ _ _ _ _ _ Hsize Hrun)
      as (_ & Hid & Htasks & _).
    by eexists.
  - destruct (add_task_large_inv _ _ _ _ _ _ _ _ _ Hsize Hrun)
      as (gid & _ & _ & _ & _ & Hid & Htasks & _).
    by eexists.
Qed.

(** C6, the code on two submissions.  Two submissions accepted one after the
    other, however far apart the clock readings they take, insert two rows
    that carry the same [created_at]: the time at which db.py was imported,
    which comes from the class body of [Task] and not from the clock at
    insertion. *)
Theorem created_at_is_the_import_time_of_db
    file1 ts1 c1 p1 u1 file2 ts2 c2 p2 u2 e w resp1 w1 resp2 w2 :
  add_task file1 ts1 c1 p1 u1 e w = (inr resp1, w1) →
  add_task file2 ts2 c2 p2 u2 e w1 = (inr resp2, w2) →
  ∃ first second,
    tasks w2 = tasks w ++ [first; second] ∧
    find_task (resp_task_id resp1) (tasks w2) = Some first ∧
    find_task (resp_task_id resp2) (tasks w2) = Some second ∧
    id first < id second ∧
    created_at first = Some (db_import_time e) ∧
    created_at second = Some (db_import_time e).
Proof.
  intros Hrun1 Hrun2.
  destruct (add_task_accepted_row _ _ _ _ _ _ _ _ _ Hrun1)
    as (r1 & Htasks1 & Hid1 & Hresp1 & Hcreated1).
  destruct (add_task_accepted_row _ _ _ _ _ _ _ _ _ Hrun2)
    as (r2 & Htasks2 & Hid2 & Hresp2 & Hcreated2).
  exists r1, r2. rewrite Htasks2, Htasks1, Hresp1, Hresp2, <- app_assoc.
  split_and!; try done.
  - rewrite (app_assoc _ [r1] [r2]). apply find_task_app_l.
    by apply find_task_inserted.
  - rewrite (app_assoc _ [r1] [r2]). apply find_task_inserted.
    by rewrite Hid2, Htasks1.
  - rewrite Hid2, Htasks1. apply id_lt_next_rowid. set_solver.
Qed.

Lemma created_at_is_the_import_time_of_db_witness :
  let e := ex_env_hourly in
  let w := ex_world SCHEDULED SCHEDULED None in
  let r1 := add_task ex_small_file 1700010800 "bw" "A4" "u@x.org" e w in
  let r2 := add_task ex_small_file 1700021600 "bw" "A4" "u@x.org" e r1.2 in
  (r1 = (inr ex_first_response, r1.2) ∧ r2 = (inr ex_second_response, r2.2)) ∧
  clock e (ticks w) + 3 * 3600000000 = clock e (ticks r1.2) ∧
  ∃ first second,
    find_task 3 (tasks r2.2) = Some first ∧
    find_task 4 (tasks r2.2) = Some second ∧
    created_at first = Some (db_import_time e) ∧
    created_at second = Some (db_import_time e).
Proof.
  assert (add_task ex_small_file 1700010800 "bw" "A4" "u@x.org" ex_env_hourly
            (ex_world SCHEDULED SCHEDULED None)
          = (inr ex_first_response,
             (add_task ex_small_file 1700010800 "bw" "A4" "u@x.org" ex_env_hourly
                (ex_world SCHEDULED SCHEDULED None)).2)) as Hrun1
    by (vm_compute; reflexivity).
  assert (add_task ex_small_file 1700021600 "bw" "A4" "u@x.org" ex_env_hourly
            (add_task ex_small_file 1700010800 "bw" "A4" "u@x.org" ex_env_hourly
               (ex_world SCHEDULED SCHEDULED None)).2
          = (inr ex_second_response,
             (add_task ex_small_file 1700021600 "bw" "A4" "u@x.org" ex_env_hourly
                (add_task ex_small_file 1700010800 "bw" "A4" "u@x.org"
                   ex_env_hourly (ex_world SCHEDULED SCHEDULED None)).2).2))
    as Hrun2 by (vm_compute; reflexivity).
  split; [exact (conj Hrun1 Hrun2)|]. split; [vm_compute; reflexivity|].
  destruct (created_at_is_the_import_time_of_db _ _ _ _ _ _ _ _ _ _ _ _ _ _ _ _
              Hrun1 Hrun2) as (first & second & _ & H1 & H2 & _ & H3 & H4).
  exists first, second. exact (conj H1 (conj H2 (conj H3 H4))).
Defined.

(** What [list_tasks] does guarantee: its answer is ordered by the column
    [created_at], larger values first. *)

Global Instance created_at_desc_total : Total created_at_desc.
Proof.
  intros a b. unfold created_at_desc, null_first_leb.
  destruct (created_at a), (created_at b); auto. lia.
Qed.

Global Instance created_at_desc_trans : Transitive created_at_desc.
Proof.
  intros a b c. unfold created_at_desc, null_first_leb.
  destruct (created_at a), (created_at b), (created_at c); try done. lia.
Qed.

Lemma offset_limit_sorted {A} (R : relation A) skip limit l :
  StronglySorted R l → StronglySorted R (offset_limit skip limit l).
Proof.
  intros Hsorted. unfold offset_limit.
  assert (StronglySorted R (drop (Z.to_nat skip) l)) as Hdrop.
  { rewrite <- (take_drop (Z.to_nat skip) l) in Hsorted.
    by apply StronglySorted_app_1_r in Hsorted. }
  destruct (limit <? 0); [done|].
  rewrite <- (take_drop (Z.to_nat limit) (drop (Z.to_nat skip) l)) in Hdrop.
  by apply StronglySorted_app_1_l in Hdrop.
Qed.

Lemma list_tasks_sorted_by_created_at skip limit e w :
  ∃ rows, (list_tasks skip limit e w).1 = inr rows ∧
          StronglySorted created_at_desc rows.
Proof.
  eexists. split; [reflexivity|].
  apply offset_limit_sorted, StronglySorted_merge_sort; apply _.
Qed.

(** * Further properties of the handlers and the endpoints *)

(** ** One run of a handler, in full *)

Ltac destruct_env e :=
  destruct e as [clock0 timestamp_repr0 db_import_time0 PRINTER_NAME0
                 GDRIVE_FOLDER_ID0 platform_gmtime0 gdrive_service0
                 gdrive_create0 gdrive_get_media0 smtp_configured0
                 smtp_delivers0 remove_job_fault0 os_remove_fault0 lp0].

Ltac destruct_world w :=
  destruct w as [tasks0 session0 files0 gdrive0 jobs0 calls0 ticks0].

Lemma TaskStatus_eqb_true a b : TaskStatus_eqb a b = true → a = b.
Proof. by destruct a, b. Qed.

Lemma TaskStatus_eqb_false a b : TaskStatus_eqb a b = false → a ≠ b.
Proof. by destruct a, b. Qed.

Lemma update_row_twice t1 t2 rows :
  id t1 = id t2 → update_row t2 (update_row t1 rows) = update_row t2 rows.
Proof.
  intros Hid. unfold update_row. rewrite <- list_fmap_compose.
  apply list_fmap_ext. intros _ r _. cbn.
  destruct (id r =? id t1) eqn:H1.
  - rewrite Hid in H1. by rewrite Hid, Z.eqb_refl, H1.
  - done.
Qed.

(** The leaves of the case analysis of a handler: the result, the unchanged
    components, the calls added, the files, and the row written back. *)

Ltac lifecycle_step_tac :=
  unfold lifecycle_step, same_request; cbn;
  split_and!; try reflexivity; try (intros; assumption);
  try (intros; congruence); try (intros; by eexists).

Ltac one_of_tac :=
  first [ reflexivity
        | left; one_of_tac
        | right; one_of_tac
        | eexists; one_of_tac
        | split; [one_of_tac | one_of_tac] ].

Ltac new_calls_tac :=
  eexists; split;
  [ first [ symmetry; apply app_nil_r | rewrite <- ?app_assoc; reflexivity ]
  | one_of_tac ].

Ltac rows_tac :=
  let t0 := fresh in
  intros t0 [= <-]; rewrite ?update_row_twice by reflexivity;
  eexists; split;
  [ first [ left; split; reflexivity | right; reflexivity ]
  | split; [ lifecycle_step_tac | ] ].

Ltac print_leaf :=
  intros ->; cbv beta iota;
  split; [reflexivity|]; split; [reflexivity|]; split; [reflexivity|];
  split; [reflexivity|]; split; [reflexivity|];
  split; [new_calls_tac|]; split; [one_of_tac|];
  split; [discriminate|];
  rows_tac; cbn; first [left; reflexivity | right; reflexivity].

(** Everything one run of [print_file_task] can do to the world. *)

Lemma print_file_task_effect e w task_id printer :
  (print_file_task task_id printer e w).1 = inr () ∧
  session (print_file_task task_id printer e w).2 = NoInstance ∧
  gdrive (print_file_task task_id printer e w).2 = gdrive w ∧
  jobs (print_file_task task_id printer e w).2 = jobs w ∧
  ticks (print_file_task task_id printer e w).2 = ticks w ∧
  (∃ cs, calls (print_file_task task_id printer e w).2 = calls w ++ cs ∧
         (cs = [] ∨ (∃ cmd, cs = [call_subprocess_run cmd]) ∨
          (∃ cmd p, cs = [call_subprocess_run cmd; call_os_remove p]))) ∧
  (files (print_file_task task_id printer e w).2 = files w ∨
   ∃ p, files (print_file_task task_id printer e w).2 = delete p (files w)) ∧
  (find_task task_id (tasks w) = None →
   tasks (print_file_task task_id printer e w).2 = tasks w) ∧
  (∀ t, find_task task_id (tasks w) = Some t →
   ∃ t', (tasks (print_file_task task_id printer e w).2 = tasks w ∧ t' = t ∨
          tasks (print_file_task task_id printer e w).2 = update_row t' (tasks w)) ∧
         lifecycle_step t t' ∧
         (status t' = COMPLETED ∨ status t' = FAILED)).
Proof.
  remember (print_file_task task_id printer e w) as r eqn:Hr. revert Hr.
  destruct_env e. destruct_world w.
  io_unfold.
  destruct (find_task task_id tasks0) as [t|] eqn:Hfind; io_unfold.
  2: { intros ->; cbv beta iota.
       split_and!; try reflexivity; [new_calls_tac | one_of_tac | discriminate]. }
  destruct (TaskStatus_eqb (status t) FAILED) eqn:Hfailed; io_unfold.
  { apply TaskStatus_eqb_true in Hfailed. intros ->; cbv beta iota.
    split_and!; try reflexivity; [new_calls_tac | one_of_tac |].
    intros ? [= <-]. exists t. split; [by left|].
    split; [lifecycle_step_tac | by right]. }
  destruct (TaskStatus_eqb (status t) DOWNLOADING); io_unfold; [print_leaf|].
  destruct (truthy_opt printer); io_unfold; [|print_leaf].
  destruct (storage_type t) as [[]|] eqn:Hstorage; io_unfold; [| |print_leaf].
  - (* LOCAL *)
    destruct (bool_decide (is_Some (files0 !! file_identifier t))) eqn:Hexists;
      io_unfold; [|print_leaf].
    destruct (lp0 _) as [x|p]; io_unfold; [print_leaf|].
    destruct (returncode p =? 0); io_unfold; print_leaf.
  - (* GDRIVE *)
    destruct (truthy_opt (gdrive_download_path t)); io_unfold; [|print_leaf].
    destruct (bool_decide (is_Some (files0 !! default "" (gdrive_download_path t))))
      eqn:Hexists; io_unfold; [|print_leaf].
    rewrite Hexists. io_unfold.
    apply bool_decide_eq_true_1 in Hexists as Hfile. destruct Hfile as [n Hfile].
    destruct (lp0 _) as [x|p]; io_unfold.
    2: destruct (returncode p =? 0); io_unfold.
    all: rewrite Hexists; io_unfold; rewrite Hfile; io_unfold.
    all: destruct (os_remove_fault0 _); io_unfold; print_leaf.
Qed.

Ltac download_leaf :=
  intros ->; cbv beta iota;
  split; [one_of_tac|]; split; [reflexivity|]; split; [reflexivity|];
  split; [reflexivity|]; split; [one_of_tac|];
  split; [new_calls_tac|]; split; [one_of_tac|];
  split; [discriminate|];
  rows_tac; cbn; intros; first [left; reflexivity | right; reflexivity].

(** Everything one run of [prepare_gdrive_download_task] can do to the world. *)

Lemma prepare_gdrive_download_task_effect e w task_id path :
  ((prepare_gdrive_download_task task_id path e w).1 = inr () ∨
   ∃ k msg, remove_job_fault e k = Some msg ∧
            (prepare_gdrive_download_task task_id path e w).1
              = inl (mkExn OtherException msg)) ∧
  session (prepare_gdrive_download_task task_id path e w).2 = NoInstance ∧
  gdrive (prepare_gdrive_download_task task_id path e w).2 = gdrive w ∧
  ticks (prepare_gdrive_download_task task_id path e w).2 = ticks w ∧
  (jobs (prepare_gdrive_download_task task_id path e w).2 = jobs w ∨
   ∃ k, jobs (prepare_gdrive_download_task task_id path e w).2 = delete k (jobs w)) ∧
  (∃ cs, calls (prepare_gdrive_download_task task_id path e w).2 = calls w ++ cs ∧
         (cs = [] ∨ (∃ f d, cs = [call_download_from_gdrive f d]) ∨
          (∃ f d a s b k, cs = [call_download_from_gdrive f d;
                                call_send_email a s b; call_remove_job k]))) ∧
  (files (prepare_gdrive_download_task task_id path e w).2 = files w ∨
   (∃ p n, files (prepare_gdrive_download_task task_id path e w).2
           = <[p := n]> (files w)) ∨
   (∃ p, files (prepare_gdrive_download_task task_id path e w).2
         = delete p (files w))) ∧
  (find_task task_id (tasks w) = None →
   tasks (prepare_gdrive_download_task task_id path e w).2 = tasks w) ∧
  (∀ t, find_task task_id (tasks w) = Some t →
   ∃ t', (tasks (prepare_gdrive_download_task task_id path e w).2 = tasks w ∧ t' = t ∨
          tasks (prepare_gdrive_download_task task_id path e w).2
            = update_row t' (tasks w)) ∧
         lifecycle_step t t' ∧
         (storage_type t = Some GDRIVE → status t ≠ FAILED →
          status t' = SCHEDULED ∨ status t' = FAILED)).
Proof.
  remember (prepare_gdrive_download_task task_id path e w) as r eqn:Hr. revert Hr.
  destruct_env e. destruct_world w.
  io_unfold.
  destruct (find_task task_id tasks0) as [t|] eqn:Hfind; io_unfold.
  2: { intros ->; cbv beta iota.
       split_and!; try reflexivity;
         [one_of_tac | one_of_tac | new_calls_tac | one_of_tac | discriminate]. }
  destruct (TaskStatus_eqb (status t) FAILED) eqn:Hfailed; io_unfold.
  { apply TaskStatus_eqb_true in Hfailed. intros ->; cbv beta iota.
    split_and!; try reflexivity;
      [one_of_tac | one_of_tac | new_calls_tac | one_of_tac |].
    intros ? [= <-]. exists t. split; [by left|]. split; [lifecycle_step_tac|].
    congruence. }
  destruct (storage_type t) as [[]|] eqn:Hstorage; cbn [storage_is StorageType_eqb];
    io_unfold.
  1, 3: intros ->; cbv beta iota; split_and!; try reflexivity;
      [one_of_tac | one_of_tac | new_calls_tac | one_of_tac |];
    intros ? [= <-]; exists t; (split; [by left|]); (split; [lifecycle_step_tac|]);
    congruence.
  destruct gdrive_service0; io_unfold.
  1: destruct (gdrive_get_media0 _) as [msg|n]; io_unfold.
  2: download_leaf.
  all: destruct smtp_configured0; io_unfold.
  all: destruct (remove_job_fault0 _) eqn:Hfault; io_unfold.
  all: try destruct (jobs0 !! _) eqn:Hjob; io_unfold.
  all: try download_leaf.
  all: intros ->; cbv beta iota.
  all: split; [right; eexists _, _; split; [exact Hfault | reflexivity]|].
  all: split; [reflexivity|]; split; [reflexivity|];
    split; [reflexivity|]; split; [one_of_tac|];
    split; [new_calls_tac|]; split; [one_of_tac|];
    split; [discriminate|];
    rows_tac; cbn; intros; first [left; reflexivity | right; reflexivity].
Qed.

(** ** Steps of a row *)

Lemma lifecycle_step_refl a : lifecycle_step a a.
Proof. unfold lifecycle_step, same_request. split_and!; try done. Qed.

Lemma lifecycle_step_trans a b c :
  lifecycle_step a b → lifecycle_step b c → lifecycle_step a c.
Proof.
  unfold lifecycle_step, same_request.
  intros (Hab & Hmsg1 & Hfail1) (Hbc & Hmsg2 & Hfail2).
  split_and!; try (destruct_and!; congruence); [by auto|].
  intros Ha Hc. destruct (TaskStatus_eqb (status b) FAILED) eqn:Hb.
  - apply TaskStatus_eqb_true in Hb. by auto.
  - apply TaskStatus_eqb_false in Hb. by auto.
Qed.

(** Writing back an instance that is a step away from the row it was loaded
    from moves the table one step, when ids are unique. *)

Lemma update_row_step rows t t' task_id :
  NoDup (id <$> rows) → find_task task_id rows = Some t →
  lifecycle_step t t' →
  Forall2 lifecycle_step rows (update_row t' rows).
Proof.
  intros Hnodup Hfind Hstep.
  assert (id t' = id t) as Hid by (destruct Hstep as [[-> _] _]; done).
  assert (t ∈ rows) as Hin.
  { unfold find_task in Hfind. apply List.find_some in Hfind as [Hin _].
    by apply list_elem_of_In. }
  unfold update_row. apply Forall2_fmap_r, Forall_Forall2_diag, Forall_forall.
  intros r Hr. unfold compose.
  destruct (id r =? id t') eqn:Heq; [|apply lifecycle_step_refl].
  apply Z.eqb_eq in Heq. rewrite Hid in Heq.
  assert (r = t) as ->; [|done].
  apply list_elem_of_lookup in Hr as [i Hi]. apply list_elem_of_lookup in Hin as [j Hj].
  assert (i = j) as ->.
  { eapply NoDup_lookup; [exact Hnodup| |]; rewrite list_lookup_fmap.
    - by rewrite Hi.
    - by rewrite Hj, Heq. }
  congruence.
Qed.

Lemma lifecycle_steps_ids rows rows' :
  Forall2 lifecycle_step rows rows' → id <$> rows' = id <$> rows.
Proof.
  induction 1 as [|a b rows rows' [[Hid _] _] _ IH]; [done|].
  cbn. by rewrite Hid, IH.
Qed.

Lemma fire_steps c e w :
  NoDup (id <$> tasks w) → Forall2 lifecycle_step (tasks w) (tasks (fire c e w).2).
Proof.
  intros Hnodup. destruct c as [task_id path|task_id printer]; cbn [fire].
  - destruct (prepare_gdrive_download_task_effect e w task_id path)
      as (_ & _ & _ & _ & _ & _ & _ & Hnone & Hsome).
    destruct (find_task task_id (tasks w)) as [t|] eqn:Hfind.
    + destruct (Hsome t eq_refl) as (t' & [[-> _]| ->] & Hstep & _).
      * apply Forall_Forall2_diag, Forall_forall. intros; apply lifecycle_step_refl.
      * by eapply update_row_step.
    + rewrite Hnone by done.
      apply Forall_Forall2_diag, Forall_forall. intros; apply lifecycle_step_refl.
  - destruct (print_file_task_effect e w task_id printer)
      as (_ & _ & _ & _ & _ & _ & _ & Hnone & Hsome).
    destruct (find_task task_id (tasks w)) as [t|] eqn:Hfind.
    + destruct (Hsome t eq_refl) as (t' & [[-> _]| ->] & Hstep & _).
      * apply Forall_Forall2_diag, Forall_forall. intros; apply lifecycle_step_refl.
      * by eapply update_row_step.
    + rewrite Hnone by done.
      apply Forall_Forall2_diag, Forall_forall. intros; apply lifecycle_step_refl.
Qed.

Lemma Forall2_lifecycle_trans l1 l2 l3 :
  Forall2 lifecycle_step l1 l2 → Forall2 lifecycle_step l2 l3 →
  Forall2 lifecycle_step l1 l3.
Proof.
  intros H12. revert l3. induction H12; intros l3 H23; inversion H23; subst;
    constructor; eauto using lifecycle_step_trans.
Qed.

(** ** What the handlers never do *)

(** X1.  [print_file_task] contains every failure of the file system and of
    [lp] (the database itself is taken not to fail): whatever the table, the
    disk and the print command do, the handler returns without raising,
    closes its session, leaves the job store and Google Drive alone, and
    calls at most [lp] once and then [os.remove] once. *)
Theorem print_file_task_contains_failures e w task_id printer :
  (print_file_task task_id printer e w).1 = inr () ∧
  session (print_file_task task_id printer e w).2 = NoInstance ∧
  jobs (print_file_task task_id printer e w).2 = jobs w ∧
  gdrive (print_file_task task_id printer e w).2 = gdrive w ∧
  ∃ cs, calls (print_file_task task_id printer e w).2 = calls w ++ cs ∧
        (cs = [] ∨ (∃ cmd, cs = [call_subprocess_run cmd]) ∨
         (∃ cmd p, cs = [call_subprocess_run cmd; call_os_remove p])).
Proof.
  destruct (print_file_task_effect e w task_id printer)
    as (H1 & H2 & H3 & H4 & _ & H5 & _).
  by split_and!.
Qed.

(** X2.  Whatever the status of a task when its print job fires (PENDING,
    PRINTING and COMPLETED included), the job leaves the task COMPLETED or
    FAILED, never SCHEDULED, DOWNLOADING or PRINTING. *)
Theorem print_file_task_ends_completed_or_failed e w task_id printer t :
  find_task task_id (tasks w) = Some t →
  ∃ t', find_task task_id (tasks (print_file_task task_id printer e w).2) = Some t' ∧
        (status t' = COMPLETED ∨ status t' = FAILED).
Proof.
  intros Hfind.
  destruct (print_file_task_effect e w task_id printer)
    as (_ & _ & _ & _ & _ & _ & _ & _ & Hsome).
  destruct (Hsome t Hfind) as (t' & Htasks & [[Hid _] _] & Hstatus).
  exists t'. split; [|done].
  destruct Htasks as [[-> ->]| ->]; [done|].
  apply find_task_update_row_eq with t; [done|].
  rewrite <- Hid. by apply find_task_id in Hfind.
Qed.

Lemma print_file_task_ends_completed_or_failed_witness :
  let w := ex_world SCHEDULED SCHEDULED None in
  find_task 1 (tasks w) = Some (ex_local_task SCHEDULED) ∧
  ∃ t', find_task 1 (tasks (print_file_task 1 (Some "HP") ex_env_ok w).2) = Some t' ∧
        (status t' = COMPLETED ∨ status t' = FAILED).
Proof.
  split; [reflexivity|].
  exact (print_file_task_ends_completed_or_failed ex_env_ok
           (ex_world SCHEDULED SCHEDULED None) 1 (Some "HP")
           (ex_local_task SCHEDULED) eq_refl).
Defined.

(** X3.  The only exception [prepare_gdrive_download_task] lets out is one
    that [scheduler.remove_job] raises and that is not a [JobLookupError];
    a failed download never escapes.  In all cases the session is closed and
    Google Drive is unchanged, and the handler calls nothing, or the download
    alone, or the download, then [send_email], then [remove_job]. *)
Theorem prepare_gdrive_download_task_contains_failures e w task_id path :
  ((prepare_gdrive_download_task task_id path e w).1 = inr () ∨
   ∃ k msg, remove_job_fault e k = Some msg ∧
            (prepare_gdrive_download_task task_id path e w).1
              = inl (mkExn OtherException msg)) ∧
  session (prepare_gdrive_download_task task_id path e w).2 = NoInstance ∧
  gdrive (prepare_gdrive_download_task task_id path e w).2 = gdrive w ∧
  ∃ cs, calls (prepare_gdrive_download_task task_id path e w).2 = calls w ++ cs ∧
        (cs = [] ∨ (∃ f d, cs = [call_download_from_gdrive f d]) ∨
         (∃ f d a s b k, cs = [call_download_from_gdrive f d;
                               call_send_email a s b; call_remove_job k])).
Proof.
  destruct (prepare_gdrive_download_task_effect e w task_id path)
    as (H1 & H2 & H3 & _ & _ & H5 & _).
  by split_and!.
Qed.

(** X4.  DOWNLOADING is transient: a download job that finds a GDRIVE task
    that is not FAILED leaves it SCHEDULED or FAILED, also when the handler
    raises. *)
Theorem prepare_gdrive_download_task_never_leaves_downloading e w task_id path t :
  find_task task_id (tasks w) = Some t →
  storage_type t = Some GDRIVE → status t ≠ FAILED →
  ∃ t', find_task task_id (tasks (prepare_gdrive_download_task task_id path e w).2)
          = Some t' ∧
        (status t' = SCHEDULED ∨ status t' = FAILED).
Proof.
  intros Hfind Hstorage Hstatus.
  destruct (prepare_gdrive_download_task_effect e w task_id path)
    as (_ & _ & _ & _ & _ & _ & _ & _ & Hsome).
  destruct (Hsome t Hfind) as (t' & Htasks & [[Hid _] _] & Hfinal).
  specialize (Hfinal Hstorage Hstatus).
  exists t'. split; [|done].
  destruct Htasks as [[-> ->]| ->]; [done|].
  apply find_task_update_row_eq with t; [done|].
  rewrite <- Hid. by apply find_task_id in Hfind.
Qed.

Lemma prepare_gdrive_download_task_never_leaves_downloading_witness :
  let w := ex_world SCHEDULED SCHEDULED None in
  let t := ex_gdrive_task SCHEDULED None in
  (find_task 2 (tasks w) = Some t ∧ storage_type t = Some GDRIVE ∧
   status t ≠ FAILED) ∧
  ∃ t', find_task 2
          (tasks (prepare_gdrive_download_task 2 GDRIVE_DOWNLOAD_FULL_PATH
                    ex_env_ok w).2) = Some t' ∧
        (status t' = SCHEDULED ∨ status t' = FAILED).
Proof.
  assert (status (ex_gdrive_task SCHEDULED None) ≠ FAILED) as Hstatus
    by discriminate.
  split; [exact (conj eq_refl (conj eq_refl Hstatus))|].
  exact (prepare_gdrive_download_task_never_leaves_downloading ex_env_ok
           (ex_world SCHEDULED SCHEDULED None) 2 GDRIVE_DOWNLOAD_FULL_PATH
           (ex_gdrive_task SCHEDULED None) eq_refl eq_refl Hstatus).
Defined.

(** ** The print command and its outcomes *)

Ltac find_rows Hid Hfind :=
  repeat (eapply find_task_update_row_eq; [|exact Hid]); exact Hfind.

(** The run of a task that passes every guard, by the outcome of [lp]. *)

Lemma print_file_task_sink_run e w task_id printer t path :
  find_task task_id (tasks w) = Some t →
  printable printer t → resolves_to w t path →
  ∃ t',
    (print_file_task task_id printer e w).1 = inr () ∧
    find_task task_id (tasks (print_file_task task_id printer e w).2) = Some t' ∧
    calls (print_file_task task_id printer e w).2 = calls w ++
      call_subprocess_run (print_command_for (default "" printer) t path)
      :: cleanup_calls t path ∧
    match lp e (print_command_for (default "" printer) t path) with
    | inl x => status t' = FAILED ∧ error_message t' = Some (exn_str x)
    | inr p =>
      if returncode p =? 0
      then status t' = COMPLETED ∧ error_message t' = error_message t
      else status t' = FAILED ∧
           error_message t' =
             Some (str_or (stderr p) (str_or (stdout p) "Unknown printing error"))
    end.
Proof.
  intros Hfind (Hs1 & Hs2 & Hprinter) [Hkind [n Hfile]].
  apply TaskStatus_eqb_ne in Hs1, Hs2.
  pose proof (find_task_id _ _ _ Hfind) as Hid.
  pose proof (exists_on_disk _ _ _ Hfile) as Hexists.
  unfold cleanup_calls.
  destruct_env e. destruct_world w. cbn [tasks files calls lp] in *.
  io_unfold. rewrite Hfind. io_unfold. rewrite Hs1, Hs2, Hprinter.
  destruct Hkind as [[Hstorage ->] | (Hstorage & Hpath & Htruthy)];
    rewrite Hstorage; cbn [storage_is StorageType_eqb].
  - io_unfold. rewrite Hexists. io_unfold.
    destruct (lp0 _) as [x|p]; io_unfold.
    2: destruct (returncode p =? 0); io_unfold.
    all: eexists; split_and!; [done | find_rows Hid Hfind | done | done | done].
  - rewrite Hpath. cbn [truthy_opt default from_option Datatypes.id].
    rewrite Htruthy. io_unfold. rewrite Hexists. io_unfold.
    rewrite Hexists. io_unfold.
    destruct (lp0 _) as [x|p]; io_unfold.
    2: destruct (returncode p =? 0); io_unfold.
    all: rewrite Hexists; io_unfold; rewrite Hfile; io_unfold.
    all: destruct (os_remove_fault0 path); io_unfold.
    all: rewrite <- ?app_assoc.
    all: eexists; split_and!; [done | find_rows Hid Hfind | done | done | done].
Qed.

(** The LOCAL and the GDRIVE task of [ex_world] pass the guards. *)

Lemma ex_local_task_printable : printable (Some "HP") (ex_local_task SCHEDULED).
Proof. split; [discriminate|]. split; [discriminate | reflexivity]. Defined.

Lemma ex_local_task_resolves :
  resolves_to (ex_world SCHEDULED SCHEDULED None) (ex_local_task SCHEDULED)
    "uploads/local_a.pdf".
Proof.
  split; [left; split; reflexivity|]. exists 10. vm_compute. reflexivity.
Defined.

Lemma ex_gdrive_task_printable :
  printable (Some "HP") (ex_gdrive_task SCHEDULED None).
Proof. split; [discriminate|]. split; [discriminate | reflexivity]. Defined.

(** X5.  A task that passes the guards of [print_file_task] (not FAILED, not
    DOWNLOADING, a printer name, a file on disk) and whose [lp] returns with
    code 0 ends COMPLETED with its error message unchanged; the handler ran
    that one command and, for a staged Google Drive copy only, removed the
    file it printed. *)
Theorem print_file_task_sink_success e w task_id printer t path p :
  find_task task_id (tasks w) = Some t →
  printable printer t → resolves_to w t path →
  lp e (print_command_for (default "" printer) t path) = inr p →
  returncode p = 0 →
  ∃ t',
    find_task task_id (tasks (print_file_task task_id printer e w).2) = Some t' ∧
    status t' = COMPLETED ∧ error_message t' = error_message t ∧
    calls (print_file_task task_id printer e w).2 = calls w ++
      call_subprocess_run (print_command_for (default "" printer) t path)
      :: cleanup_calls t path.
Proof.
  intros Hfind Hprintable Hresolves Hlp Hcode.
  destruct (print_file_task_sink_run e w task_id printer t path
              Hfind Hprintable Hresolves) as (t' & _ & Hrow & Hcalls & Hout).
  rewrite Hlp, Hcode in Hout. cbn in Hout. destruct Hout. by exists t'.
Qed.

Lemma print_file_task_sink_success_witness :
  let e := ex_env_ok in
  let w := ex_world SCHEDULED SCHEDULED None in
  let t := ex_local_task SCHEDULED in
  let path := "uploads/local_a.pdf" in
  (find_task 1 (tasks w) = Some t ∧ printable (Some "HP") t ∧
   resolves_to w t path ∧
   lp e (print_command_for "HP" t path) = ex_lp_ok) ∧
  ∃ t', find_task 1 (tasks (print_file_task 1 (Some "HP") e w).2) = Some t' ∧
        status t' = COMPLETED ∧ error_message t' = None ∧
        calls (print_file_task 1 (Some "HP") e w).2
          = [call_subprocess_run
               ["lp"; "-d"; "HP"; "-o"; "media=A4"; "-o"; "ColorModel=Gray";
                "uploads/local_a.pdf"]].
Proof.
  split.
  { exact (conj eq_refl (conj ex_local_task_printable
             (conj ex_local_task_resolves eq_refl))). }
  exact (print_file_task_sink_success ex_env_ok
           (ex_world SCHEDULED SCHEDULED None) 1 (Some "HP")
           (ex_local_task SCHEDULED) "uploads/local_a.pdf"
           (mkProcess 0 "request id is HP-1" "")
           eq_refl ex_local_task_printable ex_local_task_resolves eq_refl eq_refl).
Defined.

(** X6.  When [lp] returns a non-zero code the task ends FAILED, and its error
    message is [process.stderr or process.stdout or "Unknown printing error"]:
    the standard error if it is not empty, else the standard output if it is
    not empty, else the fixed text. *)
Theorem print_file_task_sink_failure e w task_id printer t path p :
  find_task task_id (tasks w) = Some t →
  printable printer t → resolves_to w t path →
  lp e (print_command_for (default "" printer) t path) = inr p →
  returncode p ≠ 0 →
  ∃ t',
    find_task task_id (tasks (print_file_task task_id printer e w).2) = Some t' ∧
    status t' = FAILED ∧
    error_message t' =
      Some (if truthy (stderr p) then stderr p
            else if truthy (stdout p) then stdout p
            else "Unknown printing error").
Proof.
  intros Hfind Hprintable Hresolves Hlp Hcode.
  destruct (print_file_task_sink_run e w task_id printer t path
              Hfind Hprintable Hresolves) as (t' & _ & Hrow & Hcalls & Hout).
  rewrite Hlp in Hout.
  assert ((returncode p =? 0) = false) as Hne by lia. rewrite Hne in Hout.
  destruct Hout. by exists t'.
Qed.

Lemma print_file_task_sink_failure_witness :
  let e := ex_env true (inr 42) None None ex_lp_error in
  let w := ex_world SCHEDULED SCHEDULED None in
  let t := ex_local_task SCHEDULED in
  let path := "uploads/local_a.pdf" in
  (find_task 1 (tasks w) = Some t ∧ printable (Some "HP") t ∧
   resolves_to w t path ∧
   lp e (print_command_for "HP" t path) = ex_lp_error) ∧
  ∃ t', find_task 1 (tasks (print_file_task 1 (Some "HP") e w).2) = Some t' ∧
        status t' = FAILED ∧ error_message t' = Some "out of paper".
Proof.
  split.
  { exact (conj eq_refl (conj ex_local_task_printable
             (conj ex_local_task_resolves eq_refl))). }
  assert (returncode (mkProcess 1 "" "out of paper") ≠ 0) as Hcode by discriminate.
  exact (print_file_task_sink_failure
           (ex_env true (inr 42) None None ex_lp_error)
           (ex_world SCHEDULED SCHEDULED None) 1 (Some "HP")
           (ex_local_task SCHEDULED) "uploads/local_a.pdf"
           (mkProcess 1 "" "out of paper")
           eq_refl ex_local_task_printable ex_local_task_resolves eq_refl Hcode).
Defined.

(** X7.  When running [lp] raises (no such program, say), the handler does not
    raise: the task ends FAILED with the text of the exception as its error
    message. *)
Theorem print_file_task_sink_exception e w task_id printer t path x :
  find_task task_id (tasks w) = Some t →
  printable printer t → resolves_to w t path →
  lp e (print_command_for (default "" printer) t path) = inl x →
  (print_file_task task_id printer e w).1 = inr () ∧
  ∃ t',
    find_task task_id (tasks (print_file_task task_id printer e w).2) = Some t' ∧
    status t' = FAILED ∧ error_message t' = Some (exn_str x).
Proof.
  intros Hfind Hprintable Hresolves Hlp.
  destruct (print_file_task_sink_run e w task_id printer t path
              Hfind Hprintable Hresolves) as (t' & Hret & Hrow & Hcalls & Hout).
  rewrite Hlp in Hout. destruct Hout. split; [done|]. by exists t'.
Qed.

Lemma print_file_task_sink_exception_witness :
  let x := mkExn OSError "[Errno 2] No such file or directory: 'lp'" in
  let e := ex_env true (inr 42) None None (inl x) in
  let w := ex_world SCHEDULED SCHEDULED None in
  let t := ex_local_task SCHEDULED in
  let path := "uploads/local_a.pdf" in
  (find_task 1 (tasks w) = Some t ∧ printable (Some "HP") t ∧
   resolves_to w t path ∧
   lp e (print_command_for "HP" t path) = inl x) ∧
  (print_file_task 1 (Some "HP") e w).1 = inr () ∧
  ∃ t', find_task 1 (tasks (print_file_task 1 (Some "HP") e w).2) = Some t' ∧
        status t' = FAILED ∧
        error_message t' = Some "[Errno 2] No such file or directory: 'lp'".
Proof.
  split.
  { exact (conj eq_refl (conj ex_local_task_printable
             (conj ex_local_task_resolves eq_refl))). }
  exact (print_file_task_sink_exception
           (ex_env true (inr 42) None None
              (inl (mkExn OSError "[Errno 2] No such file or directory: 'lp'")))
           (ex_world SCHEDULED SCHEDULED None) 1 (Some "HP")
           (ex_local_task SCHEDULED) "uploads/local_a.pdf"
           (mkExn OSError "[Errno 2] No such file or directory: 'lp'")
           eq_refl ex_local_task_printable ex_local_task_resolves eq_refl).
Defined.

(** ** The guards that fail a task before the print command *)

Lemma print_file_task_guard_fails e w task_id printer t msg :
  find_task task_id (tasks w) = Some t →
  print_file_task task_id printer e w =
    (inr (),
     with_session NoInstance
       (with_tasks
          (update_row (set_error_message (Some msg) (set_status FAILED t))
             (tasks w)) w)) →
  (print_file_task task_id printer e w).1 = inr () ∧
  find_task task_id (tasks (print_file_task task_id printer e w).2)
    = Some (set_error_message (Some msg) (set_status FAILED t)) ∧
  calls (print_file_task task_id printer e w).2 = calls w ∧
  files (print_file_task task_id printer e w).2 = files w.
Proof.
  intros Hfind ->. destruct w. world_simpl. split_and!; try done.
  apply find_task_update_row_eq with t; [done|]. by apply find_task_id in Hfind.
Qed.

(** X8.  A print job that was given no printer name ([None] or the empty
    string) fails the task with a fixed message, before looking at the file:
    nothing is run and the disk is unchanged. *)
Theorem print_file_task_without_printer e w task_id printer t :
  find_task task_id (tasks w) = Some t →
  status t ≠ FAILED → status t ≠ DOWNLOADING →
  truthy_opt printer = false →
  (print_file_task task_id printer e w).1 = inr () ∧
  find_task task_id (tasks (print_file_task task_id printer e w).2)
    = Some (set_error_message
              (Some "Printer name not configured (passed as empty).")
              (set_status FAILED t)) ∧
  calls (print_file_task task_id printer e w).2 = calls w ∧
  files (print_file_task task_id printer e w).2 = files w.
Proof.
  intros Hfind Hs1 Hs2 Hprinter.
  apply print_file_task_guard_fails; [done|].
  apply TaskStatus_eqb_ne in Hs1, Hs2.
  destruct_env e. destruct_world w. cbn [tasks] in *.
  io_unfold. rewrite Hfind. io_unfold. by rewrite Hs1, Hs2, Hprinter.
Qed.

Lemma print_file_task_without_printer_witness :
  let w := ex_world SCHEDULED SCHEDULED None in
  let t := ex_local_task SCHEDULED in
  (find_task 1 (tasks w) = Some t ∧ status t ≠ FAILED ∧
   status t ≠ DOWNLOADING ∧ truthy_opt (Some "") = false) ∧
  find_task 1 (tasks (print_file_task 1 (Some "") ex_env_ok w).2)
    = Some (set_error_message
              (Some "Printer name not configured (passed as empty).")
              (set_status FAILED t)) ∧
  calls (print_file_task 1 (Some "") ex_env_ok w).2 = [].
Proof.
  assert (status (ex_local_task SCHEDULED) ≠ FAILED) as H1 by discriminate.
  assert (status (ex_local_task SCHEDULED) ≠ DOWNLOADING) as H2 by discriminate.
  split; [exact (conj eq_refl (conj H1 (conj H2 eq_refl)))|].
  destruct (print_file_task_without_printer ex_env_ok
              (ex_world SCHEDULED SCHEDULED None) 1 (Some "")
              (ex_local_task SCHEDULED) eq_refl H1 H2 eq_refl)
    as (_ & Hrow & Hcalls & _).
  exact (conj Hrow Hcalls).
Defined.

(** X9.  A print job for a GDRIVE task whose staged copy is missing (no
    [gdrive_download_path], or no file at that path) fails the task with a
    message that quotes the filename, the Drive id and the path; nothing is
    run and the disk is unchanged. *)
Theorem print_file_task_without_staged_copy e w task_id printer t :
  find_task task_id (tasks w) = Some t →
  printable printer t →
  storage_type t = Some GDRIVE →
  (truthy_opt (gdrive_download_path t) = false ∨
   files w !! default "" (gdrive_download_path t) = None) →
  (print_file_task task_id printer e w).1 = inr () ∧
  find_task task_id (tasks (print_file_task task_id printer e w).2)
    = Some (set_error_message
              (Some ("GDrive file " +:+ original_filename t
                 +:+ " (ID: " +:+ file_identifier t
                 +:+ ") not found locally at expected path "
                 +:+ str_opt (gdrive_download_path t)
                 +:+ ". Download may have failed or path is incorrect."))
              (set_status FAILED t)) ∧
  calls (print_file_task task_id printer e w).2 = calls w ∧
  files (print_file_task task_id printer e w).2 = files w.
Proof.
  intros Hfind (Hs1 & Hs2 & Hprinter) Hstorage Hmissing.
  apply print_file_task_guard_fails; [done|].
  apply TaskStatus_eqb_ne in Hs1, Hs2.
  destruct_env e. destruct_world w. cbn [tasks files] in *.
  io_unfold. rewrite Hfind. io_unfold. rewrite Hs1, Hs2, Hprinter, Hstorage.
  io_unfold.
  destruct Hmissing as [-> | Hnone]; io_unfold; [done|].
  destruct (truthy_opt (gdrive_download_path t)); io_unfold; [|done].
  by rewrite Hnone, bool_decide_eq_false_2 by (by intros [? ?]).
Qed.

Lemma print_file_task_without_staged_copy_witness :
  let w := ex_world SCHEDULED SCHEDULED None in
  let t := ex_gdrive_task SCHEDULED None in
  (find_task 2 (tasks w) = Some t ∧ printable (Some "HP") t ∧
   storage_type t = Some GDRIVE ∧
   truthy_opt (gdrive_download_path t) = false) ∧
  find_task 2 (tasks (print_file_task 2 (Some "HP") ex_env_ok w).2)
    = Some (set_error_message
              (Some "GDrive file b.pdf (ID: gid0) not found locally at expected path None. Download may have failed or path is incorrect.")
              (set_status FAILED t)) ∧
  calls (print_file_task 2 (Some "HP") ex_env_ok w).2 = [].
Proof.
  split; [exact (conj eq_refl (conj ex_gdrive_task_printable
                   (conj eq_refl eq_refl)))|].
  destruct (print_file_task_without_staged_copy ex_env_ok
              (ex_world SCHEDULED SCHEDULED None) 2 (Some "HP")
              (ex_gdrive_task SCHEDULED None) eq_refl ex_gdrive_task_printable
              eq_refl (or_introl eq_refl))
    as (_ & Hrow & Hcalls & _).
  exact (conj Hrow Hcalls).
Defined.

(** X10.  A print job for a LOCAL task whose file is no longer on disk fails
    the task with [File not found at <path> for task <id>.]; nothing is run
    and the disk is unchanged. *)
Theorem print_file_task_without_local_file e w task_id printer t :
  find_task task_id (tasks w) = Some t →
  printable printer t →
  storage_type t = Some LOCAL →
  files w !! file_identifier t = None →
  (print_file_task task_id printer e w).1 = inr () ∧
  find_task task_id (tasks (print_file_task task_id printer e w).2)
    = Some (set_error_message
              (Some ("File not found at " +:+ file_identifier t
                 +:+ " for task " +:+ pretty task_id +:+ "."))
              (set_status FAILED t)) ∧
  calls (print_file_task task_id printer e w).2 = calls w ∧
  files (print_file_task task_id printer e w).2 = files w.
Proof.
  intros Hfind (Hs1 & Hs2 & Hprinter) Hstorage Hnone.
  apply print_file_task_guard_fails; [done|].
  apply TaskStatus_eqb_ne in Hs1, Hs2.
  destruct_env e. destruct_world w. cbn [tasks files] in *.
  io_unfold. rewrite Hfind. io_unfold. rewrite Hs1, Hs2, Hprinter, Hstorage.
  io_unfold.
  by rewrite Hnone, bool_decide_eq_false_2 by (by intros [? ?]).
Qed.

Lemma print_file_task_without_local_file_witness :
  let w := with_files ∅ (ex_world SCHEDULED SCHEDULED None) in
  let t := ex_local_task SCHEDULED in
  (find_task 1 (tasks w) = Some t ∧ printable (Some "HP") t ∧
   storage_type t = Some LOCAL ∧ files w !! file_identifier t = None) ∧
  find_task 1 (tasks (print_file_task 1 (Some "HP") ex_env_ok w).2)
    = Some (set_error_message
              (Some "File not found at uploads/local_a.pdf for task 1.")
              (set_status FAILED t)) ∧
  calls (print_file_task 1 (Some "HP") ex_env_ok w).2 = [].
Proof.
  assert (files (with_files ∅ (ex_world SCHEDULED SCHEDULED None))
            !! file_identifier (ex_local_task SCHEDULED) = None) as Hnone
    by apply lookup_empty.
  split; [exact (conj eq_refl (conj ex_local_task_printable
                   (conj eq_refl Hnone)))|].
  destruct (print_file_task_without_local_file ex_env_ok
              (with_files ∅ (ex_world SCHEDULED SCHEDULED None)) 1 (Some "HP")
              (ex_local_task SCHEDULED) eq_refl ex_local_task_printable
              eq_refl Hnone)
    as (_ & Hrow & Hcalls & _).
  exact (conj Hrow Hcalls).
Defined.

(** ** The download job *)

(** X11.  Both handlers do nothing for an id that is not in the table: they
    return, and the only trace is the closed session. *)
Theorem handlers_ignore_missing_task e w task_id path printer :
  find_task task_id (tasks w) = None →
  prepare_gdrive_download_task task_id path e w
    = (inr (), with_session NoInstance w) ∧
  print_file_task task_id printer e w = (inr (), with_session NoInstance w).
Proof.
  intros Hfind. destruct_env e. destruct_world w. cbn [tasks] in *.
  split; io_unfold; by rewrite Hfind.
Qed.

Lemma handlers_ignore_missing_task_witness :
  let w := ex_world SCHEDULED SCHEDULED None in
  find_task 7 (tasks w) = None ∧
  prepare_gdrive_download_task 7 GDRIVE_DOWNLOAD_FULL_PATH ex_env_ok w
    = (inr (), w) ∧
  print_file_task 7 (Some "HP") ex_env_ok w = (inr (), w).
Proof.
  split; [reflexivity|].
  exact (handlers_ignore_missing_task ex_env_ok
           (ex_world SCHEDULED SCHEDULED None) 7 GDRIVE_DOWNLOAD_FULL_PATH
           (Some "HP") eq_refl).
Defined.

(** X12.  The download job does nothing for a task that is not stored on
    Google Drive: no status change, no download, no mail. *)
Theorem prepare_gdrive_download_task_skips_other_storage e w task_id path t :
  find_task task_id (tasks w) = Some t →
  storage_type t ≠ Some GDRIVE →
  prepare_gdrive_download_task task_id path e w
    = (inr (), with_session NoInstance w).
Proof.
  intros Hfind Hstorage. destruct_env e. destruct_world w. cbn [tasks] in *.
  io_unfold. rewrite Hfind. io_unfold.
  destruct (TaskStatus_eqb (status t) FAILED); [done|].
  by destruct (storage_type t) as [[]|].
Qed.

Lemma prepare_gdrive_download_task_skips_other_storage_witness :
  let w := ex_world SCHEDULED SCHEDULED None in
  let t := ex_local_task SCHEDULED in
  (find_task 1 (tasks w) = Some t ∧ storage_type t ≠ Some GDRIVE) ∧
  prepare_gdrive_download_task 1 GDRIVE_DOWNLOAD_FULL_PATH ex_env_ok w
    = (inr (), w).
Proof.
  assert (storage_type (ex_local_task SCHEDULED) ≠ Some GDRIVE) as Hkind
    by discriminate.
  split; [exact (conj eq_refl Hkind)|].
  exact (prepare_gdrive_download_task_skips_other_storage ex_env_ok
           (ex_world SCHEDULED SCHEDULED None) 1 GDRIVE_DOWNLOAD_FULL_PATH
           (ex_local_task SCHEDULED) eq_refl Hkind).
Defined.

Lemma prepare_gdrive_download_task_fetch_ok e w task_id path t n :
  find_task task_id (tasks w) = Some t →
  status t ≠ FAILED → storage_type t = Some GDRIVE →
  gdrive_service e = true → gdrive_get_media e (file_identifier t) = inr n →
  let dest := os_path_join path
                ("task_" +:+ pretty (id t) +:+ "_" +:+ original_filename t) in
  (prepare_gdrive_download_task task_id path e w).1 = inr () ∧
  find_task task_id (tasks (prepare_gdrive_download_task task_id path e w).2)
    = Some (set_status SCHEDULED (set_gdrive_download_path (Some dest) t)) ∧
  files (prepare_gdrive_download_task task_id path e w).2
    = <[dest := n]> (files w) ∧
  jobs (prepare_gdrive_download_task task_id path e w).2 = jobs w ∧
  calls (prepare_gdrive_download_task task_id path e w).2
    = calls w ++ [call_download_from_gdrive (file_identifier t) dest].
Proof.
  intros Hfind Hstatus Hstorage Hservice Hmedia dest. subst dest.
  apply TaskStatus_eqb_ne in Hstatus.
  pose proof (find_task_id _ _ _ Hfind) as Hid.
  destruct_env e. destruct_world w.
  cbn [tasks files jobs calls gdrive_service gdrive_get_media] in *. subst.
  io_unfold. rewrite Hfind. io_unfold. rewrite Hstatus, Hstorage.
  cbn [storage_is StorageType_eqb]. io_unfold. rewrite Hmedia. io_unfold.
  split_and!; try done. find_rows (eq_refl (id t)) Hfind.
Qed.

(** X13.  A download that succeeds writes the object to
    [<download dir>/task_<id>_<original filename>], records that path in
    [gdrive_download_path] and sets the task back from DOWNLOADING to
    SCHEDULED; the job store and Google Drive are unchanged, the session is
    closed, and the only call is the download. *)
Theorem prepare_gdrive_download_task_stages_the_file e w task_id path t n :
  find_task task_id (tasks w) = Some t →
  status t ≠ FAILED → storage_type t = Some GDRIVE →
  gdrive_service e = true → gdrive_get_media e (file_identifier t) = inr n →
  let dest := os_path_join path
                ("task_" +:+ pretty (id t) +:+ "_" +:+ original_filename t) in
  let r := prepare_gdrive_download_task task_id path e w in
  r.1 = inr () ∧
  find_task task_id (tasks r.2)
    = Some (set_status SCHEDULED (set_gdrive_download_path (Some dest) t)) ∧
  files r.2 = <[dest := n]> (files w) ∧
  calls r.2 = calls w ++ [call_download_from_gdrive (file_identifier t) dest] ∧
  jobs r.2 = jobs w ∧ gdrive r.2 = gdrive w ∧ session r.2 = NoInstance.
Proof.
  intros Hfind Hstatus Hstorage Hservice Hmedia dest r.
  destruct (prepare_gdrive_download_task_fetch_ok e w task_id path t n
              Hfind Hstatus Hstorage Hservice Hmedia)
    as (Hret & Hrow & Hfiles & Hjobs & Hcalls).
  destruct (prepare_gdrive_download_task_effect e w task_id path)
    as (_ & Hsession & Hgdrive & _).
  subst dest r.
  split; [exact Hret|]. split; [exact Hrow|]. split; [exact Hfiles|].
  split; [exact Hcalls|]. split; [exact Hjobs|].
  split; [exact Hgdrive | exact Hsession].
Qed.

Lemma prepare_gdrive_download_task_stages_the_file_witness :
  let e := ex_env_ok in
  let w := ex_world SCHEDULED SCHEDULED None in
  let t := ex_gdrive_task SCHEDULED None in
  let r := prepare_gdrive_download_task 2 GDRIVE_DOWNLOAD_FULL_PATH e w in
  (find_task 2 (tasks w) = Some t ∧ status t ≠ FAILED ∧
   storage_type t = Some GDRIVE ∧ gdrive_service e = true ∧
   gdrive_get_media e (file_identifier t) = inr 42) ∧
  find_task 2 (tasks r.2)
    = Some (set_status SCHEDULED
              (set_gdrive_download_path (Some ex_staged_path) t)) ∧
  files r.2 = <[ex_staged_path := 42]> (files w) ∧
  calls r.2 = [call_download_from_gdrive "gid0" ex_staged_path].
Proof.
  assert (status (ex_gdrive_task SCHEDULED None) ≠ FAILED) as Hstatus
    by discriminate.
  split; [exact (conj eq_refl (conj Hstatus (conj eq_refl (conj eq_refl eq_refl))))|].
  destruct (prepare_gdrive_download_task_stages_the_file ex_env_ok
              (ex_world SCHEDULED SCHEDULED None) 2 GDRIVE_DOWNLOAD_FULL_PATH
              (ex_gdrive_task SCHEDULED None) 42 eq_refl Hstatus eq_refl eq_refl
              eq_refl)
    as (_ & Hrow & Hfiles & Hcalls & _).
  exact (conj Hrow (conj Hfiles Hcalls)).
Defined.

(** X14.  If the download of a task failed, its print job, should it still
    fire (the removal of the job can itself fail), prints nothing and
    changes nothing: it finds the task FAILED and returns. *)
Theorem print_job_after_failed_download_prints_nothing
    e w task_id path printer t x :
  find_task task_id (tasks w) = Some t →
  status t ≠ FAILED → storage_type t = Some GDRIVE →
  (download_from_gdrive (file_identifier t)
     (os_path_join path
        ("task_" +:+ pretty (id t) +:+ "_" +:+ original_filename t)) e w).1
    = inl x →
  let w1 := (prepare_gdrive_download_task task_id path e w).2 in
  print_file_task task_id printer e w1 = (inr (), w1).
Proof.
  intros Hfind Hstatus Hstorage Hdl w1.
  pose proof (prepare_gdrive_download_task_download_fails e w task_id path t x
                Hfind Hstatus Hstorage Hdl) as Hrun.
  assert (find_task task_id (tasks w1)
          = Some (set_error_message (Some (exn_str x)) (set_status FAILED t)))
    as Hfind1.
  { subst w1. rewrite Hrun. world_simpl.
    pose proof (find_task_id _ _ _ Hfind) as Hid.
    find_rows Hid Hfind. }
  rewrite (print_file_task_FAILED e w1 task_id printer _ Hfind1 eq_refl).
  f_equal. subst w1. by rewrite Hrun.
Qed.

Lemma print_job_after_failed_download_prints_nothing_witness :
  let e := ex_env true (inl "File not found: gid0") None None ex_lp_ok in
  let w := ex_world SCHEDULED SCHEDULED None in
  let t := ex_gdrive_task SCHEDULED None in
  (find_task 2 (tasks w) = Some t ∧ status t ≠ FAILED ∧
   storage_type t = Some GDRIVE ∧
   (download_from_gdrive "gid0" ex_staged_path e w).1
     = inl (mkExn OtherException "File not found: gid0")) ∧
  let w1 := (prepare_gdrive_download_task 2 GDRIVE_DOWNLOAD_FULL_PATH e w).2 in
  print_file_task 2 (Some "HP") e w1 = (inr (), w1).
Proof.
  assert (status (ex_gdrive_task SCHEDULED None) ≠ FAILED) as Hstatus
    by discriminate.
  split; [exact (conj eq_refl (conj Hstatus (conj eq_refl eq_refl)))|].
  exact (print_job_after_failed_download_prints_nothing
           (ex_env true (inl "File not found: gid0") None None ex_lp_ok)
           (ex_world SCHEDULED SCHEDULED None) 2 GDRIVE_DOWNLOAD_FULL_PATH
           (Some "HP") (ex_gdrive_task SCHEDULED None)
           (mkExn OtherException "File not found: gid0")
           eq_refl Hstatus eq_refl eq_refl).
Defined.

(** ** helper.py *)


(** X16.  [upload_to_gdrive] returns the id of the object it created, or raises
    and creates nothing: [ConnectionError] without a service, [ValueError]
    without a folder id, and otherwise the error of the request itself. *)
Theorem upload_to_gdrive_stores_or_raises file_path name e w :
  match (upload_to_gdrive file_path name e w).1 with
  | inr file_id =>
    gdrive_create e file_path name = inr file_id ∧
    gdrive (upload_to_gdrive file_path name e w).2 = {[file_id]} ∪ gdrive w
  | inl x =>
    gdrive (upload_to_gdrive file_path name e w).2 = gdrive w ∧
    (gdrive_service e = false ∧ exn_class x = ConnectionError ∨
     gdrive_service e = true ∧ truthy_opt (GDRIVE_FOLDER_ID e) = false ∧
       exn_class x = ValueError ∨
     gdrive_create e file_path name = inl (exn_str x))
  end.
Proof.
  destruct_env e. destruct_world w.
  cbn [gdrive_service gdrive_create GDRIVE_FOLDER_ID gdrive].
  io_unfold. destruct gdrive_service0; io_unfold;
    [|split; [done|]; left; by split].
  destruct (truthy_opt GDRIVE_FOLDER_ID0); io_unfold;
    [|split; [done|]; right; left; by split_and!].
  destruct (gdrive_create0 file_path name) as [msg|file_id] eqn:Hcreate; io_unfold.
  - split; [done|]. by right; right.
  - by split.
Qed.

(** ** Refused and accepted submissions *)

Lemma delete_inserted_subseteq (m : gmap string Z) k v : delete k (<[k:=v]> m) ⊆ m.
Proof. rewrite delete_insert_eq. apply delete_subseteq. Qed.

Lemma delete_moved_subseteq (m : gmap string Z) k k' v v' :
  delete k' (<[k':=v']> (delete k (<[k:=v]> m))) ⊆ m.
Proof.
  etrans; [apply delete_inserted_subseteq|]. apply delete_inserted_subseteq.
Qed.

Ltac failure_leaf :=
  first
  [ discriminate
  | let H := fresh in
    intros H; injection H as <- <-;
    unfold add_task_failure; world_simpl; cbn [exn_class];
    rewrite <- ?app_assoc; cbn [app];
    split; [reflexivity|]; split; [reflexivity|]; split; [reflexivity|];
    split; [first [reflexivity
                  | rewrite registered_jobs_app; apply app_nil_r]|];
    split; [first [reflexivity | apply union_subseteq_r]|];
    let code := fresh "code" in
    let Hcode := fresh in
    intros code Hcode;
    first
    [ discriminate Hcode
    | injection Hcode as <-;
      split;
      [ first [left; reflexivity | right; reflexivity]
      | first [ reflexivity | apply delete_inserted_subseteq
              | apply delete_moved_subseteq ] ] ] ].

Ltac remove_file fault :=
  rewrite ?lookup_insert_eq; io_unfold;
  destruct (fault _) eqn:?; io_unfold.

(** Every way [add_task] can raise. *)

Lemma add_task_failure_inv file ts c p u e w x w' :
  add_task file ts c p u e w = (inl x, w') → add_task_failure w x w'.
Proof.
  destruct_env e. destruct_world w.
  io_unfold.
  destruct (negb (_ || _)); [io_unfold; failure_leaf|].
  destruct (negb (truthy u)); [io_unfold; failure_leaf|].
  io_unfold. rewrite lookup_insert_eq. io_unfold.
  destruct (MAX_FILE_SIZE_BYTES <? content_length file); io_unfold.
  - destruct gdrive_service0; io_unfold; [|remove_file os_remove_fault0; failure_leaf].
    destruct (bool_decide (is_Some GDRIVE_FOLDER_ID0)); io_unfold;
      [|remove_file os_remove_fault0; failure_leaf].
    destruct (negb (truthy_opt GDRIVE_FOLDER_ID0)); io_unfold;
      [remove_file os_remove_fault0; failure_leaf|].
    destruct (gdrive_create0 _ _) as [msg|gid]; io_unfold;
      [remove_file os_remove_fault0; failure_leaf|].
    rewrite lookup_insert_eq. io_unfold.
    destruct (os_remove_fault0 _) eqn:Hfault; io_unfold.
    { rewrite lookup_insert_eq. io_unfold. failure_leaf. }
    destruct ((MIN_TIMESTAMP <=? ts) && (ts <=? MAX_TIMESTAMP)); io_unfold.
    2: { destruct (platform_gmtime0 ts) eqn:?; io_unfold.
         - cbn [StorageType_eqb andb]. io_unfold. failure_leaf.
         - destruct ((TIME_T_MIN <=? ts) && (ts <=? TIME_T_MAX)); io_unfold;
             failure_leaf. }
    destruct (timedelta_seconds ts <=? _); io_unfold.
    { cbn [StorageType_eqb andb]. io_unfold. failure_leaf. }
    rewrite find_task_inserted by reflexivity. io_unfold.
    cbn [storage_is storage_type set_created_at set_id StorageType_eqb]. io_unfold.
    destruct (timedelta_seconds ts - timedelta_minutes 10 <=? _); io_unfold;
      discriminate.
  - rewrite lookup_insert_eq. io_unfold.
    destruct ((MIN_TIMESTAMP <=? ts) && (ts <=? MAX_TIMESTAMP)); io_unfold.
    2: { destruct (platform_gmtime0 ts) eqn:?; io_unfold.
         - rewrite lookup_insert_eq, bool_decide_is_Some_Some.
           cbn [StorageType_eqb andb]. io_unfold.
           remove_file os_remove_fault0; failure_leaf.
         - destruct ((TIME_T_MIN <=? ts) && (ts <=? TIME_T_MAX)); io_unfold;
             failure_leaf. }
    destruct (timedelta_seconds ts <=? _); io_unfold.
    { rewrite lookup_insert_eq, bool_decide_is_Some_Some.
      cbn [StorageType_eqb andb]. io_unfold. remove_file os_remove_fault0; failure_leaf. }
    rewrite find_task_inserted by reflexivity. io_unfold.
    cbn [storage_is storage_type set_created_at set_id StorageType_eqb]. io_unfold.
    discriminate.
Qed.

Lemma color_mode_accepted c :
  negb (String.eqb c "color" || String.eqb c "bw") = false →
  c = "color" ∨ c = "bw".
Proof.
  destruct (String.eqb c "color") eqn:H1; [apply String.eqb_eq in H1; by left|].
  destruct (String.eqb c "bw") eqn:H2; [apply String.eqb_eq in H2; by right|].
  done.
Qed.

(** What an accepted [add_task] inserted and answered. *)

Lemma add_task_accepted_echo file ts c p u e w resp w' :
  add_task file ts c p u e w = (inr resp, w') →
  ∃ k ident,
    (c = "color" ∨ c = "bw") ∧ truthy u = true ∧
    (MIN_TIMESTAMP <= ts <= MAX_TIMESTAMP) ∧
    tasks w' = tasks w ++ [inserted_row e w file ts c p u k ident] ∧
    session w' = NoInstance ∧
    resp = mkResponse "Task added successfully" (next_rowid (tasks w))
             (filename file) u (StorageType_value k) (timedelta_seconds ts)
             "scheduled".
Proof.
  unfold inserted_row.
  destruct_env e. destruct_world w.
  cbn [tasks db_import_time].
  io_unfold.
  destruct (negb (_ || _)) eqn:Hcolor; [io_reject|].
  apply color_mode_accepted in Hcolor.
  destruct (truthy u) eqn:Hemail; cbn [negb]; [|io_reject].
  io_unfold. rewrite lookup_insert_eq. io_unfold.
  destruct (MAX_FILE_SIZE_BYTES <? content_length file); io_unfold.
  - destruct gdrive_service0; [|io_reject].
    destruct (bool_decide (is_Some GDRIVE_FOLDER_ID0)); [|io_reject].
    io_unfold.
    destruct (negb (truthy_opt GDRIVE_FOLDER_ID0)); [io_reject|].
    io_unfold.
    destruct (gdrive_create0 _ _) as [msg|gid]; [io_reject|].
    io_unfold. rewrite lookup_insert_eq. io_unfold.
    destruct (os_remove_fault0 _); [io_reject|].
    io_unfold.
    destruct ((MIN_TIMESTAMP <=? ts) && (ts <=? MAX_TIMESTAMP)) eqn:Hrange;
      [|io_reject].
    io_unfold.
    destruct (timedelta_seconds ts <=? _); [io_reject|].
    io_unfold. rewrite find_task_inserted by reflexivity. io_unfold.
    cbn [storage_is storage_type set_created_at set_id StorageType_eqb]. io_unfold.
    destruct (timedelta_seconds ts - timedelta_minutes 10 <=? _);
      io_unfold; intros [= <- <-]; exists GDRIVE, gid;
      (split_and!; [done | done | lia | lia | done | done | done]).
  - rewrite lookup_insert_eq. io_unfold.
    destruct ((MIN_TIMESTAMP <=? ts) && (ts <=? MAX_TIMESTAMP)) eqn:Hrange;
      [|io_reject].
    io_unfold.
    destruct (timedelta_seconds ts <=? _); [io_reject|].
    io_unfold. rewrite find_task_inserted by reflexivity. io_unfold.
    cbn [storage_is storage_type set_created_at set_id StorageType_eqb]. io_unfold.
    intros [= <- <-]. eexists LOCAL, _.
    split_and!; [done | done | lia | lia | done | done | done].
Qed.

(** The runs of [add_task] the examples below start from. *)

Lemma ex_small_file_is_small : content_length ex_small_file <= MAX_FILE_SIZE_BYTES.
Proof. vm_compute; discriminate. Defined.

Lemma ex_large_file_is_large : MAX_FILE_SIZE_BYTES < content_length ex_large_file.
Proof. vm_compute; reflexivity. Defined.

Lemma ex_small_run :
  let r := add_task ex_small_file 1700000600 "bw" "A4" "u@x.org" ex_env_ok
             (ex_world SCHEDULED SCHEDULED None) in
  r = (inr ex_small_response, r.2).
Proof. vm_compute; reflexivity. Defined.

Lemma ex_large_run :
  let r := add_task ex_large_file 1700000600 "bw" "A4" "u@x.org" ex_env_ok
             (ex_world SCHEDULED SCHEDULED None) in
  r = (inr ex_large_response, r.2).
Proof. vm_compute; reflexivity. Defined.

Lemma ex_refused_run :
  let r := add_task ex_small_file 1700000030 "bw" "A4" "u@x.org" ex_env_ok
             (ex_world SCHEDULED SCHEDULED None) in
  r = (inl (mkExn (HTTPException 400)
              "time_to_print must be in the future (at least 1 minute ahead)."),
       r.2).
Proof. vm_compute; reflexivity. Defined.

Lemma ex_env_ok_sink : sink_accepts_everything ex_env_ok.
Proof. intros cmd. eexists. split; reflexivity. Defined.

(** X17.  [add_task] checks the form before it touches anything: a
    [color_mode] other than [color] and [bw] is answered with a 400 error, and
    with a valid [color_mode] an empty [uploader_email] is answered with
    another 400 error; in both cases nothing is written, uploaded or
    scheduled.  When both fields are wrong the answer is the one about
    [color_mode]. *)
Theorem add_task_checks_the_form_first file ts c p u e w :
  (c ≠ "color" → c ≠ "bw" →
   add_task file ts c p u e w =
     (inl (mkExn (HTTPException 400)
             "Invalid color_mode. Must be 'color' or 'bw'."),
      with_session NoInstance w)) ∧
  (c = "color" ∨ c = "bw" → u = "" →
   add_task file ts c p u e w =
     (inl (mkExn (HTTPException 400) "uploader_email is required."),
      with_session NoInstance w)).
Proof.
  split.
  - intros H1%String.eqb_neq H2%String.eqb_neq.
    destruct_env e. destruct_world w. io_unfold. by rewrite H1, H2.
  - intros Hcolor ->.
    assert (String.eqb c "color" || String.eqb c "bw" = true) as Hc
      by (by destruct Hcolor as [-> | ->]).
    destruct_env e. destruct_world w. io_unfold. by rewrite Hc.
Qed.

Lemma add_task_checks_the_form_first_witness :
  let w := ex_world SCHEDULED SCHEDULED None in
  add_task ex_small_file 1700000600 "grey" "A4" "" ex_env_ok w
    = (inl (mkExn (HTTPException 400)
              "Invalid color_mode. Must be 'color' or 'bw'."), w) ∧
  add_task ex_small_file 1700000600 "bw" "A4" "" ex_env_ok w
    = (inl (mkExn (HTTPException 400) "uploader_email is required."), w).
Proof.
  assert ("grey" ≠ "color") as H1 by discriminate.
  assert ("grey" ≠ "bw") as H2 by discriminate.
  split.
  - exact (proj1 (add_task_checks_the_form_first ex_small_file 1700000600
                    "grey" "A4" "" ex_env_ok
                    (ex_world SCHEDULED SCHEDULED None)) H1 H2).
  - exact (proj2 (add_task_checks_the_form_first ex_small_file 1700000600
                    "bw" "A4" "" ex_env_ok
                    (ex_world SCHEDULED SCHEDULED None))
             (or_intror eq_refl) eq_refl).
Defined.

(** X18.  A file longer than [MAX_FILE_SIZE_BYTES] is refused with a 500 error
    when no Drive service can be built or [GDRIVE_FOLDER_ID] is not set: the
    temporary copy is removed, no task is created and nothing is uploaded. *)
Theorem large_file_without_drive_is_refused file ts c p u e w :
  c = "color" ∨ c = "bw" → truthy u = true →
  MAX_FILE_SIZE_BYTES < content_length file →
  gdrive_service e = false ∨ GDRIVE_FOLDER_ID e = None →
  os_remove_fault e (temp_path e w file) = None →
  (add_task file ts c p u e w).1 =
    inl (mkExn (HTTPException 500)
           "File is large, but Google Drive is not configured/available for upload.") ∧
  tasks (add_task file ts c p u e w).2 = tasks w ∧
  gdrive (add_task file ts c p u e w).2 = gdrive w ∧
  calls (add_task file ts c p u e w).2
    = calls w ++ [call_os_remove (temp_path e w file)] ∧
  files (add_task file ts c p u e w).2 !! temp_path e w file = None.
Proof.
  intros Hcolor Hemail Hsize Hdrive Hfault.
  assert (String.eqb c "color" || String.eqb c "bw" = true) as Hc
    by (by destruct Hcolor as [-> | ->]).
  assert (gdrive_service e && bool_decide (is_Some (GDRIVE_FOLDER_ID e)) = false)
    as Havail.
  { destruct Hdrive as [-> | ->]; [done|]. apply andb_false_r. }
  revert Hfault Havail. unfold temp_path.
  destruct_env e. destruct_world w.
  cbn [tasks files calls gdrive ticks clock timestamp_repr gdrive_service
       GDRIVE_FOLDER_ID os_remove_fault].
  intros Hfault Havail.
  io_unfold. rewrite Hc, Hemail. io_unfold. rewrite lookup_insert_eq. io_unfold.
  assert ((MAX_FILE_SIZE_BYTES <? content_length file) = true) as -> by lia.
  rewrite Havail. io_unfold. rewrite lookup_insert_eq, Hfault. io_unfold.
  split_and!; try done. apply lookup_delete_eq.
Qed.

Lemma large_file_without_drive_is_refused_witness :
  let e := ex_env false (inr 42) None None ex_lp_ok in
  let w := ex_world SCHEDULED SCHEDULED None in
  let r := add_task ex_large_file 1700000600 "bw" "A4" "u@x.org" e w in
  (("bw" = "color" ∨ "bw" = "bw") ∧ truthy "u@x.org" = true ∧
   MAX_FILE_SIZE_BYTES < content_length ex_large_file ∧
   gdrive_service e = false ∧
   os_remove_fault e (temp_path e w ex_large_file) = None) ∧
  r.1 = inl (mkExn (HTTPException 500)
           "File is large, but Google Drive is not configured/available for upload.") ∧
  tasks r.2 = tasks w ∧ gdrive r.2 = gdrive w ∧
  files r.2 !! temp_path e w ex_large_file = None.
Proof.
  split.
  { exact (conj (or_intror eq_refl) (conj eq_refl (conj ex_large_file_is_large
             (conj eq_refl eq_refl)))). }
  destruct (large_file_without_drive_is_refused ex_large_file 1700000600 "bw"
              "A4" "u@x.org" (ex_env false (inr 42) None None ex_lp_ok)
              (ex_world SCHEDULED SCHEDULED None)
              (or_intror eq_refl) eq_refl ex_large_file_is_large
              (or_introl eq_refl) eq_refl)
    as (Hout & Htasks & Hgdrive & _ & Hfile).
  exact (conj Hout (conj Htasks (conj Hgdrive Hfile))).
Defined.

Lemma upload_to_gdrive_outcome file_path name e w w0 :
  (upload_to_gdrive file_path name e w).1 = (upload_to_gdrive file_path name e w0).1.
Proof.
  destruct_env e. destruct_world w.
  destruct w0 as [tasks1 session1 files1 gdrive1 jobs1 calls1 ticks1].
  io_unfold. destruct gdrive_service0; io_unfold; [|done].
  destruct (truthy_opt GDRIVE_FOLDER_ID0); io_unfold; [|done].
  by destruct (gdrive_create0 file_path name).
Qed.

(** X19.  When the upload of a large file raises, [add_task] answers with a 500
    error whose detail is [Google Drive upload failed: ] followed by the text
    of the exception; the temporary copy is removed and no task, job or
    Drive object is created. *)
Theorem failed_upload_is_refused file ts c p u e w x :
  c = "color" ∨ c = "bw" → truthy u = true →
  MAX_FILE_SIZE_BYTES < content_length file →
  gdrive_service e = true → is_Some (GDRIVE_FOLDER_ID e) →
  (upload_to_gdrive (temp_path e w file) (filename file) e w).1 = inl x →
  os_remove_fault e (temp_path e w file) = None →
  (add_task file ts c p u e w).1 =
    inl (mkExn (HTTPException 500)
           ("Google Drive upload failed: " +:+ exn_str x)) ∧
  tasks (add_task file ts c p u e w).2 = tasks w ∧
  jobs (add_task file ts c p u e w).2 = jobs w ∧
  gdrive (add_task file ts c p u e w).2 = gdrive w ∧
  files (add_task file ts c p u e w).2 !! temp_path e w file = None.
Proof.
  intros Hcolor Hemail Hsize Hservice Hfolder Hup Hfault.
  assert (String.eqb c "color" || String.eqb c "bw" = true) as Hc
    by (by destruct Hcolor as [-> | ->]).
  assert (bool_decide (is_Some (GDRIVE_FOLDER_ID e)) = true) as Hsome
    by (by apply bool_decide_eq_true_2).
  revert Hup Hfault. unfold temp_path.
  destruct_env e. destruct_world w.
  cbn [tasks files calls gdrive jobs ticks clock timestamp_repr gdrive_service
       GDRIVE_FOLDER_ID os_remove_fault] in *.
  subst gdrive_service0.
  io_unfold. rewrite Hc, Hemail. io_unfold. rewrite lookup_insert_eq. io_unfold.
  assert ((MAX_FILE_SIZE_BYTES <? content_length file) = true) as -> by lia.
  rewrite Hsome. io_unfold.
  destruct (truthy_opt GDRIVE_FOLDER_ID0); io_unfold.
  1: destruct (gdrive_create0 _ _) as [msg|gid]; io_unfold; [|done].
  all: intros [= <-] Hfault; io_unfold; rewrite lookup_insert_eq, Hfault; io_unfold.
  all: split_and!; try done; apply lookup_delete_eq.
Qed.

Lemma failed_upload_is_refused_witness :
  let e := ex_env_quota in
  let w := ex_world SCHEDULED SCHEDULED None in
  let r := add_task ex_large_file 1700000600 "bw" "A4" "u@x.org" e w in
  (("bw" = "color" ∨ "bw" = "bw") ∧ truthy "u@x.org" = true ∧
   MAX_FILE_SIZE_BYTES < content_length ex_large_file ∧
   gdrive_service e = true ∧ is_Some (GDRIVE_FOLDER_ID e) ∧
   (upload_to_gdrive (temp_path e w ex_large_file) (filename ex_large_file) e w).1
     = inl (mkExn OtherException "quota exceeded") ∧
   os_remove_fault e (temp_path e w ex_large_file) = None) ∧
  r.1 = inl (mkExn (HTTPException 500)
               "Google Drive upload failed: quota exceeded") ∧
  tasks r.2 = tasks w ∧ jobs r.2 = jobs w ∧ gdrive r.2 = gdrive w ∧
  files r.2 !! temp_path e w ex_large_file = None.
Proof.
  assert (is_Some (GDRIVE_FOLDER_ID ex_env_quota)) as Hfolder
    by (exists "folder"; reflexivity).
  split.
  { exact (conj (or_intror eq_refl) (conj eq_refl (conj ex_large_file_is_large
             (conj eq_refl (conj Hfolder (conj eq_refl eq_refl)))))). }
  exact (failed_upload_is_refused ex_large_file 1700000600 "bw" "A4" "u@x.org"
           ex_env_quota (ex_world SCHEDULED SCHEDULED None)
           (mkExn OtherException "quota exceeded")
           (or_intror eq_refl) eq_refl ex_large_file_is_large eq_refl Hfolder
           eq_refl eq_refl).
Defined.

(** X20.  A submission that [add_task] does not accept (a check that refuses
    it, an upload or an [os.remove] that raises, a timestamp that
    [datetime.fromtimestamp] cannot convert) creates no task and registers
    no job, and its session is closed. *)
Theorem refused_submission_creates_no_task_and_no_job file ts c p u e w x w' :
  add_task file ts c p u e w = (inl x, w') →
  tasks w' = tasks w ∧ jobs w' = jobs w ∧
  registered_jobs (calls w') = registered_jobs (calls w) ∧
  session w' = NoInstance.
Proof.
  intros Hrun.
  destruct (add_task_failure_inv _ _ _ _ _ _ _ _ _ Hrun) as (H1 & H2 & H3 & H4 & _).
  by split_and!.
Qed.

Lemma refused_submission_creates_no_task_and_no_job_witness :
  let w := ex_world SCHEDULED SCHEDULED None in
  let r := add_task ex_small_file 1700000030 "bw" "A4" "u@x.org" ex_env_ok w in
  r.1 = inl (mkExn (HTTPException 400)
               "time_to_print must be in the future (at least 1 minute ahead).") ∧
  tasks r.2 = tasks w ∧ jobs r.2 = jobs w ∧
  registered_jobs (calls r.2) = registered_jobs (calls w) ∧
  session r.2 = NoInstance.
Proof.
  split; [exact (f_equal fst ex_refused_run)|].
  exact (refused_submission_creates_no_task_and_no_job ex_small_file 1700000030
           "bw" "A4" "u@x.org" ex_env_ok (ex_world SCHEDULED SCHEDULED None)
           _ _ ex_refused_run).
Defined.

(** X21.  Every [HTTPException] that [add_task] raises has status 400 or 500,
    and a submission answered with one leaves none of its files on disk: the
    files afterwards are among the files before.  (Nothing is said of the
    other exceptions that can leave [add_task]: those of [os.remove], of
    [datetime.fromtimestamp], of [open].) *)
Theorem add_task_http_error_is_400_or_500 file ts c p u e w code detail w' :
  add_task file ts c p u e w = (inl (mkExn (HTTPException code) detail), w') →
  (code = 400 ∨ code = 500) ∧ files w' ⊆ files w.
Proof.
  intros Hrun.
  destruct (add_task_failure_inv _ _ _ _ _ _ _ _ _ Hrun) as (_ & _ & _ & _ & _ & H).
  exact (H code eq_refl).
Qed.

Lemma add_task_http_error_is_400_or_500_witness :
  let w := ex_world SCHEDULED SCHEDULED None in
  let r := add_task ex_small_file 1700000030 "bw" "A4" "u@x.org" ex_env_ok w in
  r = (inl (mkExn (HTTPException 400)
              "time_to_print must be in the future (at least 1 minute ahead)."),
       r.2) ∧
  (400 = 400 ∨ 400 = 500) ∧ files r.2 ⊆ files w.
Proof.
  split; [exact ex_refused_run|].
  exact (add_task_http_error_is_400_or_500 ex_small_file 1700000030 "bw" "A4"
           "u@x.org" ex_env_ok (ex_world SCHEDULED SCHEDULED None) 400 _ _
           ex_refused_run).
Defined.

(** X22.  The clean-up of a refused print time is attached to [ValueError]
    alone.  For a timestamp outside the years 1 to 9999 that the platform
    does not convert, [datetime.fromtimestamp] raises an [OSError]
    ([Errno 75], from [gmtime]) if the value fits [time_t], and an
    [OverflowError] if it does not.  Neither is caught: the exception leaves
    [add_task] as it is, no task is created and no job registered, and the
    local copy of the file, already moved to its permanent name, stays on
    disk. *)
Theorem timestamp_overflow_leaves_the_local_copy file ts c p u e w :
  c = "color" ∨ c = "bw" → truthy u = true →
  content_length file <= MAX_FILE_SIZE_BYTES →
  (MIN_TIMESTAMP <=? ts) && (ts <=? MAX_TIMESTAMP) = false →
  platform_gmtime e ts = false →
  (add_task file ts c p u e w).1 =
    inl (if (TIME_T_MIN <=? ts) && (ts <=? TIME_T_MAX)
         then mkExn OSError "[Errno 75] Value too large for defined data type"
         else mkExn OverflowError "timestamp out of range for platform time_t") ∧
  tasks (add_task file ts c p u e w).2 = tasks w ∧
  jobs (add_task file ts c p u e w).2 = jobs w ∧
  files (add_task file ts c p u e w).2 !! local_path e w file
    = Some (content_length file).
Proof.
  intros Hcolor Hemail Hsize Hrange Hgm.
  assert (String.eqb c "color" || String.eqb c "bw" = true) as Hc
    by (by destruct Hcolor as [-> | ->]).
  revert Hgm. unfold local_path.
  destruct_env e. destruct_world w.
  cbn [tasks jobs files ticks clock timestamp_repr platform_gmtime].
  intros Hgm.
  io_unfold. rewrite Hc, Hemail. io_unfold. rewrite lookup_insert_eq. io_unfold.
  assert ((MAX_FILE_SIZE_BYTES <? content_length file) = false) as -> by lia.
  io_unfold. rewrite lookup_insert_eq. io_unfold. rewrite Hrange. io_unfold.
  rewrite Hgm. io_unfold.
  destruct ((TIME_T_MIN <=? ts) && (ts <=? TIME_T_MAX)); io_unfold.
  all: split; [reflexivity|]; split; [reflexivity|]; split; [reflexivity|].
  all: apply lookup_insert_eq.
Qed.

Lemma timestamp_overflow_leaves_the_local_copy_witness :
  let e := ex_env_year_overflow in
  let w := ex_world SCHEDULED SCHEDULED None in
  let ts := ex_far_timestamp in
  let r := add_task ex_small_file ts "bw" "A4" "u@x.org" e w in
  (("bw" = "color" ∨ "bw" = "bw") ∧ truthy "u@x.org" = true ∧
   content_length ex_small_file <= MAX_FILE_SIZE_BYTES ∧
   (MIN_TIMESTAMP <=? ts) && (ts <=? MAX_TIMESTAMP) = false ∧
   platform_gmtime e ts = false) ∧
  r.1 = inl (mkExn OSError "[Errno 75] Value too large for defined data type") ∧
  tasks r.2 = tasks w ∧ jobs r.2 = jobs w ∧
  files r.2 !! local_path e w ex_small_file = Some 600.
Proof.
  split.
  { exact (conj (or_intror eq_refl) (conj eq_refl (conj ex_small_file_is_small
             (conj eq_refl eq_refl)))). }
  exact (timestamp_overflow_leaves_the_local_copy ex_small_file ex_far_timestamp
           "bw" "A4" "u@x.org" ex_env_year_overflow
           (ex_world SCHEDULED SCHEDULED None)
           (or_intror eq_refl) eq_refl ex_small_file_is_small eq_refl eq_refl).
Defined.

(** X23.  What an accepted submission has passed: the [color_mode] is [color]
    or [bw], the [uploader_email] is not empty, the timestamp is within the
    years [datetime] can hold, the print time is strictly more than one
    minute after the clock reading of the check, and a file longer than
    [MAX_FILE_SIZE_BYTES] found a Drive service, a folder id and an upload
    that succeeded. *)
Theorem accepted_submission_passed_every_check file ts c p u e w resp w' :
  add_task file ts c p u e w = (inr resp, w') →
  (c = "color" ∨ c = "bw") ∧ u ≠ "" ∧
  MIN_TIMESTAMP <= ts <= MAX_TIMESTAMP ∧
  (∃ n, (n = S (ticks w) ∨ n = S (S (ticks w))) ∧
        clock e n + timedelta_minutes 1 < timedelta_seconds ts) ∧
  (MAX_FILE_SIZE_BYTES < content_length file →
   gdrive_service e = true ∧ is_Some (GDRIVE_FOLDER_ID e) ∧
   ∃ gdrive_file_id,
     gdrive_create e (temp_path e w file) (filename file) = inr gdrive_file_id).
Proof.
  intros Hrun.
  destruct (add_task_accepted_echo _ _ _ _ _ _ _ _ _ Hrun)
    as (_ & _ & Hcolor & Hemail & Hrange & _).
  split; [exact Hcolor|]. split; [by intros ->|]. split; [exact Hrange|].
  split; [exact (accepted_print_time_is_more_than_one_minute_ahead
                   _ _ _ _ _ _ _ _ _ Hrun)|].
  intros Hsize.
  destruct (add_task_large_inv _ _ _ _ _ _ _ _ _ Hsize Hrun)
    as (gid & Hservice & Hfolder & Hcreate & _).
  split; [exact Hservice|]. split; [exact Hfolder|]. by exists gid.
Qed.

Lemma accepted_submission_passed_every_check_witness :
  let e := ex_env_ok in
  let w := ex_world SCHEDULED SCHEDULED None in
  let r := add_task ex_small_file 1700000600 "bw" "A4" "u@x.org" e w in
  r = (inr ex_small_response, r.2) ∧
  MIN_TIMESTAMP <= 1700000600 <= MAX_TIMESTAMP ∧
  ∃ n, (n = S (ticks w) ∨ n = S (S (ticks w))) ∧
       clock e n + timedelta_minutes 1 < timedelta_seconds 1700000600.
Proof.
  split; [exact ex_small_run|].
  destruct (accepted_submission_passed_every_check ex_small_file 1700000600
              "bw" "A4" "u@x.org" ex_env_ok (ex_world SCHEDULED SCHEDULED None)
              ex_small_response _ ex_small_run)
    as (_ & _ & Hrange & Hlater & _).
  exact (conj Hrange Hlater).
Defined.

(** ** The read endpoints *)

(** X24.  The id that [add_task] answers with is the id under which
    [get_task_status] finds the task: the row read back carries the fields of
    the form, is SCHEDULED, has no error message and no staged path, and the
    answer of [add_task] echoes its filename, uploader, print time, storage
    type and status. *)
Theorem add_task_then_get_task_status file ts c p u e w resp w' :
  add_task file ts c p u e w = (inr resp, w') →
  ∃ t, get_task_status (resp_task_id resp) e w' = (inr t, w') ∧
       original_filename t = filename file ∧ uploader_email t = u ∧
       color_mode t = c ∧ page_size t = p ∧
       time_to_print t = timedelta_seconds ts ∧
       status t = SCHEDULED ∧ error_message t = None ∧
       gdrive_download_path t = None ∧
       resp_filename resp = filename file ∧ resp_uploader_email resp = u ∧
       resp_print_time resp = timedelta_seconds ts ∧
       resp_storage resp = from_option StorageType_value "None" (storage_type t) ∧
       resp_status resp = "scheduled".
Proof.
  intros Hrun.
  destruct (add_task_accepted_echo _ _ _ _ _ _ _ _ _ Hrun)
    as (k & ident & _ & _ & _ & Htasks & Hsession & ->).
  set (row := inserted_row e w file ts c p u k ident) in *.
  exists row. cbn [resp_task_id].
  assert (find_task (next_rowid (tasks w)) (tasks w') = Some row) as Hfind.
  { rewrite Htasks. by apply (find_task_inserted (tasks w) row). }
  split_and!; try done.
  clearbody row. set (k0 := next_rowid (tasks w)) in *. clearbody k0.
  destruct w' as [tasks' session' files' gdrive' jobs' calls' ticks'].
  cbn [session tasks] in *. subst session'.
  destruct_env e. unfold get_task_status. io_unfold. by rewrite Hfind.
Qed.

Lemma add_task_then_get_task_status_witness :
  let e := ex_env_ok in
  let r := add_task ex_small_file 1700000600 "bw" "A4" "u@x.org" e
             (ex_world SCHEDULED SCHEDULED None) in
  r = (inr ex_small_response, r.2) ∧
  ∃ t, get_task_status 3 e r.2 = (inr t, r.2) ∧
       original_filename t = "c.pdf" ∧ uploader_email t = "u@x.org" ∧
       color_mode t = "bw" ∧ page_size t = "A4" ∧ status t = SCHEDULED.
Proof.
  split; [exact ex_small_run|].
  destruct (add_task_then_get_task_status ex_small_file 1700000600 "bw" "A4"
              "u@x.org" ex_env_ok (ex_world SCHEDULED SCHEDULED None)
              ex_small_response _ ex_small_run)
    as (t & Hget & H1 & H2 & H3 & H4 & _ & H5 & _).
  exists t. exact (conj Hget (conj H1 (conj H2 (conj H3 (conj H4 H5))))).
Defined.

Lemma offset_limit_length {A} skip limit (l : list A) :
  0 <= limit → (length (offset_limit skip limit l) ≤ Z.to_nat limit)%nat.
Proof.
  intros Hlimit. unfold offset_limit.
  assert ((limit <? 0) = false) as -> by lia.
  rewrite length_take. lia.
Qed.

(** X25.  [list_tasks] reads and does not write: it returns rows of the table,
    ordered by [created_at] with the latest first, at most [limit] of them
    for a [limit] that is not negative, and all of them for a negative
    [limit] with no offset; the world is unchanged. *)
Theorem list_tasks_pages skip limit e w :
  session w = NoInstance →
  ∃ rows,
    list_tasks skip limit e w = (inr rows, w) ∧
    StronglySorted created_at_desc rows ∧
    rows ⊆ tasks w ∧
    (0 <= limit → (length rows ≤ Z.to_nat limit)%nat) ∧
    (skip <= 0 → limit < 0 → rows ≡ₚ tasks w).
Proof.
  intros Hsession. eexists. split_and!.
  - destruct w. cbn in Hsession. subst. reflexivity.
  - apply offset_limit_sorted, StronglySorted_merge_sort; apply _.
  - intros r Hr. unfold offset_limit in Hr.
    assert (r ∈ drop (Z.to_nat skip) (merge_sort created_at_desc (tasks w))) as Hin.
    { destruct (limit <? 0); [done|].
      eapply elem_of_sublist; [exact Hr | apply sublist_take]. }
    rewrite <- (merge_sort_Permutation created_at_desc (tasks w)).
    eapply elem_of_sublist; [exact Hin | apply sublist_drop].
  - apply offset_limit_length.
  - intros Hskip Hlimit. unfold offset_limit.
    assert ((limit <? 0) = true) as -> by lia.
    replace (Z.to_nat skip) with 0%nat by lia.
    apply merge_sort_Permutation.
Qed.

Lemma list_tasks_pages_witness :
  let w := ex_world SCHEDULED SCHEDULED None in
  session w = NoInstance ∧
  ∃ rows, list_tasks 0 10 ex_env_ok w = (inr rows, w) ∧
          StronglySorted created_at_desc rows ∧ rows ⊆ tasks w.
Proof.
  split; [reflexivity|].
  destruct (list_tasks_pages 0 10 ex_env_ok (ex_world SCHEDULED SCHEDULED None)
              eq_refl) as (rows & Hrun & Hsorted & Hsub & _).
  exists rows. exact (conj Hrun (conj Hsorted Hsub)).
Defined.

(** X26.  Pages tile the listing: on an unchanged table the page of [limit1]
    rows at [skip] followed by the page of [limit2] rows at [skip + limit1] is
    the page of [limit1 + limit2] rows at [skip]; no row is skipped or
    repeated between two pages. *)
Theorem list_tasks_consecutive_pages skip limit1 limit2 e w :
  0 <= skip → 0 <= limit1 → 0 <= limit2 →
  ∃ page1 page2 both,
    (list_tasks skip limit1 e w).1 = inr page1 ∧
    (list_tasks (skip + limit1) limit2 e w).1 = inr page2 ∧
    (list_tasks skip (limit1 + limit2) e w).1 = inr both ∧
    both = page1 ++ page2.
Proof.
  intros Hskip H1 H2. eexists _, _, _. split_and!; [reflexivity..|].
  unfold offset_limit.
  assert ((limit1 <? 0) = false) as -> by lia.
  assert ((limit2 <? 0) = false) as -> by lia.
  assert ((limit1 + limit2 <? 0) = false) as -> by lia.
  rewrite (Z2Nat.inj_add skip limit1), (Z2Nat.inj_add limit1 limit2) by lia.
  rewrite <- drop_drop, take_take_drop. reflexivity.
Qed.

Lemma list_tasks_consecutive_pages_witness :
  let w := ex_world SCHEDULED SCHEDULED None in
  (0 <= 0 ∧ 0 <= 1 ∧ 0 <= 1) ∧
  ∃ page1 page2 both,
    (list_tasks 0 1 ex_env_ok w).1 = inr page1 ∧
    (list_tasks (0 + 1) 1 ex_env_ok w).1 = inr page2 ∧
    (list_tasks 0 (1 + 1) ex_env_ok w).1 = inr both ∧
    both = page1 ++ page2.
Proof.
  assert (0 <= 0) as H0 by lia. assert (0 <= 1) as H1 by lia.
  split; [exact (conj H0 (conj H1 H1))|].
  exact (list_tasks_consecutive_pages 0 1 1 ex_env_ok
           (ex_world SCHEDULED SCHEDULED None) H0 H1 H1).
Defined.

(** ** From submission to paper *)

Lemma sink_run_accepted e w task_id printer t path :
  sink_accepts_everything e →
  find_task task_id (tasks w) = Some t →
  printable printer t → resolves_to w t path →
  ∃ t', find_task task_id (tasks (print_file_task task_id printer e w).2) = Some t' ∧
        status t' = COMPLETED.
Proof.
  intros Hsink Hfind Hprintable Hresolves.
  destruct (print_file_task_sink_run e w task_id printer t path
              Hfind Hprintable Hresolves) as (t' & _ & Hrow & _ & Hout).
  destruct (Hsink (print_command_for (default "" printer) t path))
    as (p & Hlp & Hcode).
  rewrite Hlp, Hcode in Hout. cbn in Hout. exists t'. by destruct Hout.
Qed.

(** X27.  From submission to paper, for a file kept locally: after an accepted
    submission of a file of at most [MAX_FILE_SIZE_BYTES], the job registered
    under [print_task_<id>] runs at the requested time, and firing it on a
    printer that accepts every command leaves the new task COMPLETED, with
    the uploaded bytes still on disk under the task's file identifier. *)
Theorem local_submission_is_printed file ts c p u e w resp w' :
  content_length file <= MAX_FILE_SIZE_BYTES →
  add_task file ts c p u e w = (inr resp, w') →
  truthy_opt (PRINTER_NAME e) = true →
  sink_accepts_everything e →
  ∃ j, jobs w' !! ("print_task_" +:+ pretty (resp_task_id resp)) = Some j ∧
       run_date j = timedelta_seconds ts ∧
       ∃ t', find_task (resp_task_id resp) (tasks (fire (job_func j) e w').2)
               = Some t' ∧
             status t' = COMPLETED ∧
             files (fire (job_func j) e w').2 !! file_identifier t'
               = Some (content_length file).
Proof.
  intros Hsize Hrun Hprinter Hsink.
  destruct (add_task_small_inv _ _ _ _ _ _ _ _ _ Hsize Hrun)
    as (_ & Hid & Htasks & Hfiles & _ & Hjobs & _).
  set (row := inserted_row e w file ts c p u LOCAL (local_path e w file)) in *.
  assert (find_task (next_rowid (tasks w)) (tasks w') = Some row) as Hfind.
  { rewrite Htasks. by apply (find_task_inserted (tasks w) row). }
  assert (files w' !! local_path e w file = Some (content_length file)) as Hfile.
  { rewrite Hfiles. apply lookup_insert_eq. }
  exists (print_job_of e w ts). rewrite Hid, Hjobs.
  split; [apply lookup_insert_eq|]. split; [done|].
  cbn [fire job_func print_job_of].
  destruct (sink_run_accepted e w' (next_rowid (tasks w)) (PRINTER_NAME e) row
              (local_path e w file) Hsink Hfind) as (t' & Hrow & Hstatus).
  { by split_and!. }
  { split; [by left | by eexists]. }
  exists t'. split; [done|]. split; [done|].
  destruct (print_file_task_keeps_local_file e w' (next_rowid (tasks w))
              (PRINTER_NAME e) row Hfind eq_refl) as [-> _].
  destruct (print_file_task_effect e w' (next_rowid (tasks w)) (PRINTER_NAME e))
    as (_ & _ & _ & _ & _ & _ & _ & _ & Hsome).
  destruct (Hsome row Hfind) as (t'' & Ht'' & [Hsame _] & _).
  assert (t'' = t') as ->.
  { destruct Ht'' as [[Hs ->] | Hs]; rewrite Hs in Hrow; [congruence|].
    rewrite (find_task_update_row_eq _ _ row t'') in Hrow; [congruence | done |].
    destruct Hsame as [<- _]. done. }
  destruct Hsame as (_ & _ & _ & _ & <- & _). done.
Qed.

Lemma local_submission_is_printed_witness :
  let e := ex_env_ok in
  let w := ex_world SCHEDULED SCHEDULED None in
  let r := add_task ex_small_file 1700000600 "bw" "A4" "u@x.org" e w in
  (content_length ex_small_file <= MAX_FILE_SIZE_BYTES ∧
   r = (inr ex_small_response, r.2) ∧
   truthy_opt (PRINTER_NAME e) = true ∧ sink_accepts_everything e) ∧
  ∃ j, jobs r.2 !! ("print_task_" +:+ pretty (resp_task_id ex_small_response))
         = Some j ∧
       run_date j = timedelta_seconds 1700000600 ∧
       ∃ t', find_task 3 (tasks (fire (job_func j) e r.2).2) = Some t' ∧
             status t' = COMPLETED ∧
             files (fire (job_func j) e r.2).2 !! file_identifier t'
               = Some 600.
Proof.
  split.
  { exact (conj ex_small_file_is_small (conj ex_small_run
             (conj eq_refl ex_env_ok_sink))). }
  exact (local_submission_is_printed ex_small_file 1700000600 "bw" "A4"
           "u@x.org" ex_env_ok (ex_world SCHEDULED SCHEDULED None)
           ex_small_response _ ex_small_file_is_small ex_small_run eq_refl
           ex_env_ok_sink).
Defined.

(** X28.  From submission to paper, for a file sent to Google Drive: after an
    accepted submission of a larger file, firing the registered download job
    and then the registered print job, with Drive, the printer and
    [os.remove] all working, stages the file (task SCHEDULED, path recorded,
    bytes on disk), then prints it (task COMPLETED), removes the staged copy
    and clears the recorded path; the uploaded object stays in Drive. *)
Theorem remote_submission_is_staged_printed_and_cleaned
    file ts c p u e w resp w' n :
  MAX_FILE_SIZE_BYTES < content_length file →
  add_task file ts c p u e w = (inr resp, w') →
  (∀ gdrive_file_id, gdrive_get_media e gdrive_file_id = inr n) →
  truthy_opt (PRINTER_NAME e) = true →
  sink_accepts_everything e →
  (∀ path, os_remove_fault e path = None) →
  ∃ jd jp,
    jobs w' !! ("download_task_" +:+ pretty (resp_task_id resp)) = Some jd ∧
    jobs w' !! ("print_task_" +:+ pretty (resp_task_id resp)) = Some jp ∧
    let w1 := (fire (job_func jd) e w').2 in
    let w2 := (fire (job_func jp) e w1).2 in
    ∃ staged t1 t2,
      find_task (resp_task_id resp) (tasks w1) = Some t1 ∧
      status t1 = SCHEDULED ∧ gdrive_download_path t1 = Some staged ∧
      files w1 !! staged = Some n ∧
      find_task (resp_task_id resp) (tasks w2) = Some t2 ∧
      status t2 = COMPLETED ∧ gdrive_download_path t2 = None ∧
      files w2 !! staged = None ∧
      file_identifier t2 ∈ gdrive w2.
Proof.
  intros Hsize Hrun Hmedia Hprinter Hsink Hremove.
  destruct (add_task_large_inv _ _ _ _ _ _ _ _ _ Hsize Hrun)
    as (gid & Hservice & _ & _ & _ & Hid & Htasks & _ & Hgdrive & Hjobs & _).
  set (row := inserted_row e w file ts c p u GDRIVE gid) in *.
  set (k := next_rowid (tasks w)) in *.
  assert (find_task k (tasks w') = Some row) as Hfind.
  { rewrite Htasks. by apply (find_task_inserted (tasks w) row). }
  eexists _, _. rewrite Hid, Hjobs.
  split.
  { rewrite lookup_insert_ne; [apply lookup_insert_eq|].
    intros Heq. apply (f_equal (λ s, String.get 0 s)) in Heq. discriminate Heq. }
  split; [apply lookup_insert_eq|].
  cbn [fire job_func print_job_of download_job_of]. fold k.
  destruct (prepare_gdrive_download_task_fetch_ok e w' k GDRIVE_DOWNLOAD_FULL_PATH
              row n Hfind) as (_ & Hrow1 & Hfiles1 & _ & _);
    [done | done | done | apply Hmedia |].
  set (staged := os_path_join GDRIVE_DOWNLOAD_FULL_PATH
                   ("task_" +:+ pretty (id row) +:+ "_" +:+ original_filename row))
    in *.
  set (w1 := (prepare_gdrive_download_task k GDRIVE_DOWNLOAD_FULL_PATH e w').2) in *.
  set (t1 := set_status SCHEDULED (set_gdrive_download_path (Some staged) row)) in *.
  assert (files w1 !! staged = Some n) as Hstaged.
  { rewrite Hfiles1. apply lookup_insert_eq. }
  assert (printable (PRINTER_NAME e) t1) as Hprintable by (by split_and!).
  assert (resolves_to w1 t1 staged) as Hresolves.
  { split; [right; by split_and! | by eexists]. }
  destruct (sink_run_accepted e w1 k (PRINTER_NAME e) t1 staged Hsink Hrow1
              Hprintable Hresolves) as (t2 & Hrow2 & Hstatus2).
  destruct (print_file_task_cleans_staged_copy e w1 k (PRINTER_NAME e) t1 staged
              Hrow1) as (_ & Hclean);
    [done | done | done | done | done | done | by eexists |].
  rewrite Hremove in Hclean. destruct Hclean as (Hfiles2 & t2' & Hrow2' & Hpath2).
  assert (t2' = t2) as -> by congruence.
  exists staged, t1, t2. split_and!; try done.
  - rewrite Hfiles2. apply lookup_delete_eq.
  - destruct (print_file_task_effect e w1 k (PRINTER_NAME e))
      as (_ & _ & Hgd2 & _ & _ & _ & _ & _ & Hsome).
    destruct (prepare_gdrive_download_task_effect e w' k GDRIVE_DOWNLOAD_FULL_PATH)
      as (_ & _ & Hgd1 & _).
    rewrite Hgd2. fold w1. unfold w1 at 1. rewrite Hgd1, Hgdrive.
    destruct (Hsome t1 Hrow1) as (t2'' & Ht2 & [Hsame _] & _).
    assert (t2'' = t2) as ->.
    { destruct Ht2 as [[Hs ->] | Hs]; rewrite Hs in Hrow2; [congruence|].
      rewrite (find_task_update_row_eq _ _ t1 t2'') in Hrow2; [congruence | done |].
      destruct Hsame as [<- _]. by apply find_task_id in Hrow1. }
    destruct Hsame as (_ & _ & _ & _ & <- & _).
    apply elem_of_union. left. by apply elem_of_singleton.
Qed.

Lemma remote_submission_is_staged_printed_and_cleaned_witness :
  let e := ex_env_ok in
  let w := ex_world SCHEDULED SCHEDULED None in
  let r := add_task ex_large_file 1700000600 "bw" "A4" "u@x.org" e w in
  (MAX_FILE_SIZE_BYTES < content_length ex_large_file ∧
   r = (inr ex_large_response, r.2) ∧
   (∀ gdrive_file_id, gdrive_get_media e gdrive_file_id = inr 42) ∧
   truthy_opt (PRINTER_NAME e) = true ∧ sink_accepts_everything e ∧
   (∀ path, os_remove_fault e path = None)) ∧
  ∃ jd jp,
    jobs r.2 !! ("download_task_" +:+ pretty (resp_task_id ex_large_response))
      = Some jd ∧
    jobs r.2 !! ("print_task_" +:+ pretty (resp_task_id ex_large_response))
      = Some jp ∧
    let w1 := (fire (job_func jd) e r.2).2 in
    let w2 := (fire (job_func jp) e w1).2 in
    ∃ staged t1 t2,
      find_task 3 (tasks w1) = Some t1 ∧
      status t1 = SCHEDULED ∧ gdrive_download_path t1 = Some staged ∧
      files w1 !! staged = Some 42 ∧
      find_task 3 (tasks w2) = Some t2 ∧
      status t2 = COMPLETED ∧ gdrive_download_path t2 = None ∧
      files w2 !! staged = None ∧
      file_identifier t2 ∈ gdrive w2.
Proof.
  split.
  { exact (conj ex_large_file_is_large (conj ex_large_run
             (conj (λ _, eq_refl) (conj eq_refl
                (conj ex_env_ok_sink (λ _, eq_refl)))))). }
  exact (remote_submission_is_staged_printed_and_cleaned ex_large_file
           1700000600 "bw" "A4" "u@x.org" ex_env_ok
           (ex_world SCHEDULED SCHEDULED None) ex_large_response _ 42
           ex_large_file_is_large ex_large_run (λ _, eq_refl) eq_refl
           ex_env_ok_sink (λ _, eq_refl)).
Defined.

(** ** Any sequence of requests and firings *)

Lemma Forall2_lifecycle_refl rows : Forall2 lifecycle_step rows rows.
Proof. apply Forall_Forall2_diag, Forall_forall. intros; apply lifecycle_step_refl. Qed.

Lemma table_grows_refl rows : table_grows rows rows.
Proof. exists rows, []. split; [by rewrite app_nil_r | apply Forall2_lifecycle_refl]. Qed.

Lemma table_grows_trans r1 r2 r3 :
  table_grows r1 r2 → table_grows r2 r3 → table_grows r1 r3.
Proof.
  intros (o1 & n1 & -> & H1) (o2 & n2 & -> & H2).
  apply Forall2_app_inv_l in H2 as (o21 & o22 & H21 & H22 & ->).
  exists o21, (o22 ++ n2). split; [by rewrite app_assoc|].
  by eapply Forall2_lifecycle_trans.
Qed.

Lemma get_task_status_tasks task_id e w :
  tasks (get_task_status task_id e w).2 = tasks w.
Proof.
  destruct_env e. destruct_world w. io_unfold.
  unfold get_task_status. io_unfold.
  by destruct (find_task task_id tasks0).
Qed.

Lemma list_tasks_tasks skip limit e w :
  tasks (list_tasks skip limit e w).2 = tasks w.
Proof. by destruct w. Qed.

Lemma add_task_tasks file ts c p u e w :
  tasks (add_task file ts c p u e w).2 = tasks w ∨
  ∃ row, tasks (add_task file ts c p u e w).2 = tasks w ++ [row] ∧
         id row = next_rowid (tasks w).
Proof.
  destruct (add_task file ts c p u e w) as [[x|resp] w'] eqn:Hrun.
  - left. by destruct (add_task_failure_inv _ _ _ _ _ _ _ _ _ Hrun).
  - right. destruct (add_task_accepted_row _ _ _ _ _ _ _ _ _ Hrun)
      as (row & Htasks & Hid & _).
    by exists row.
Qed.

Lemma NoDup_ids_inserted rows row :
  NoDup (id <$> rows) → id row = next_rowid rows → NoDup (id <$> (rows ++ [row])).
Proof.
  intros Hnodup Hid. rewrite fmap_app. apply NoDup_app. split; [done|].
  split; [|apply NoDup_singleton].
  intros k Hk [->|[]%elem_of_nil]%elem_of_cons.
  apply list_elem_of_fmap in Hk as (r & Hr & Hin).
  pose proof (id_lt_next_rowid rows r Hin). lia.
Qed.

Lemma serve_step r e w :
  NoDup (id <$> tasks w) →
  NoDup (id <$> tasks (serve r e w)) ∧ table_grows (tasks w) (tasks (serve r e w)).
Proof.
  intros Hnodup. destruct r as [file ts c p u|task_id|skip limit|c]; cbn [serve].
  - destruct (add_task_tasks file ts c p u e w) as [-> | (row & -> & Hid)].
    + split; [done | apply table_grows_refl].
    + split; [by apply NoDup_ids_inserted|].
      exists (tasks w), [row]. split; [done | apply Forall2_lifecycle_refl].
  - rewrite get_task_status_tasks. split; [done | apply table_grows_refl].
  - rewrite list_tasks_tasks. split; [done | apply table_grows_refl].
  - pose proof (fire_steps c e w Hnodup) as Hsteps. split.
    + by rewrite (lifecycle_steps_ids _ _ Hsteps).
    + exists (tasks (fire c e w).2), []. split; [by rewrite app_nil_r | done].
Qed.

Lemma serve_all_steps rs e w :
  NoDup (id <$> tasks w) →
  NoDup (id <$> tasks (serve_all rs e w)) ∧
  table_grows (tasks w) (tasks (serve_all rs e w)).
Proof.
  revert w. induction rs as [|r rs IH]; intros w Hnodup; cbn [serve_all].
  - split; [done | apply table_grows_refl].
  - destruct (serve_step r e w Hnodup) as [Hnodup' Hgrows].
    destruct (IH _ Hnodup') as [Hnodup'' Hgrows'].
    split; [done | by eapply table_grows_trans].
Qed.

Lemma ex_world_ids : NoDup (id <$> tasks (ex_world SCHEDULED SCHEDULED None)).
Proof. apply (bool_decide_unpack _). vm_compute. exact I. Defined.

(** X29.  Under any sequence of requests to the three endpoints and of job
    firings, the table only grows, and a row keeps what the submission put in
    it: ids stay unique, and every row that was there is still there, at the
    same position, with the same id, filename, uploader, storage type, file
    identifier, print time, colour mode, page size and creation time.  Only
    [status], [error_message] and [gdrive_download_path] ever change. *)
Theorem served_requests_keep_every_row rs e w :
  NoDup (id <$> tasks w) →
  NoDup (id <$> tasks (serve_all rs e w)) ∧
  ∃ old new, tasks (serve_all rs e w) = old ++ new ∧
             Forall2 same_request (tasks w) old.
Proof.
  intros Hnodup.
  destruct (serve_all_steps rs e w Hnodup) as (Hnodup' & old & new & Htasks & Hold).
  split; [done|]. exists old, new. split; [done|].
  eapply Forall2_impl; [exact Hold|]. by intros a b [H _].
Qed.

Lemma served_requests_keep_every_row_witness :
  let w := ex_world SCHEDULED SCHEDULED None in
  NoDup (id <$> tasks w) ∧
  NoDup (id <$> tasks (serve_all ex_requests ex_env_ok w)) ∧
  ∃ old new, tasks (serve_all ex_requests ex_env_ok w) = old ++ new ∧
             Forall2 same_request (tasks w) old.
Proof.
  split; [exact ex_world_ids|].
  exact (served_requests_keep_every_row ex_requests ex_env_ok
           (ex_world SCHEDULED SCHEDULED None) ex_world_ids).
Defined.

(** X30.  Under any sequence of requests and job firings, an error message
    once set is never cleared, and a task that becomes FAILED has an error
    message. *)
Theorem served_requests_never_clear_an_error_message rs e w i t :
  NoDup (id <$> tasks w) → tasks w !! i = Some t →
  ∃ t', tasks (serve_all rs e w) !! i = Some t' ∧
        (is_Some (error_message t) → is_Some (error_message t')) ∧
        (status t ≠ FAILED → status t' = FAILED → is_Some (error_message t')).
Proof.
  intros Hnodup Ht.
  destruct (serve_all_steps rs e w Hnodup) as (_ & old & new & Htasks & Hold).
  destruct (Forall2_lookup_l _ _ _ _ _ Hold Ht) as (t' & Ht' & _ & H1 & H2).
  exists t'. split; [|by split].
  rewrite Htasks. by apply lookup_app_l_Some.
Qed.

Lemma served_requests_never_clear_an_error_message_witness :
  let w := ex_world SCHEDULED SCHEDULED None in
  let t := ex_local_task SCHEDULED in
  (NoDup (id <$> tasks w) ∧ tasks w !! 0%nat = Some t) ∧
  ∃ t', tasks (serve_all ex_requests ex_env_ok w) !! 0%nat = Some t' ∧
        (is_Some (error_message t) → is_Some (error_message t')) ∧
        (status t ≠ FAILED → status t' = FAILED → is_Some (error_message t')).
Proof.
  split; [exact (conj ex_world_ids eq_refl)|].
  exact (served_requests_never_clear_an_error_message ex_requests ex_env_ok
           (ex_world SCHEDULED SCHEDULED None) 0%nat (ex_local_task SCHEDULED)
           ex_world_ids eq_refl).
Defined.
